(** * fetch_strava.py: incremental Strava sync, merge and export

    A shallow embedding of [scripts/fetch_strava.py].  Python values that
    the script inspects are modelled by [PyVal]; a pandas / geopandas
    table is a list of column names with a list of rows; exceptions are
    an explicit outcome; the file system and the console are an explicit
    [World] threaded through the main block.

    The libraries are modelled by what the script relies on: pandas fills
    a missing cell with [nan], [drop_duplicates] compares cells by value;
    what [astype(str)] makes of a missing date differs between pandas
    versions and is a parameter of the model.  Times
    are whole seconds since the epoch, coordinates are integers in units
    of 1e-5 degree, numbers are integers.  The directories made at import
    time and the length of the pause between two requests are left
    out. *)

From Stdlib Require Import Ascii String.
From stdpp Require Import base numbers list strings gmap pretty.

#[local] Set Warnings "-register-all,-clear-no-such-hyp".

Local Open Scope string_scope.
Local Open Scope list_scope.
Local Open Scope Z_scope.

(** ** Python values *)

(** JSON-like values as the script sees them.  [VNaN] is the float
    [nan] that pandas uses for a missing cell; [VLine] is a shapely
    [LineString], a list of (x, y) = (lon, lat) points.  Coordinates are
    kept as integers in units of 1e-5 degree, the precision of the
    polyline encoding. *)
Inductive PyVal : Type :=
| VNone
| VNaN
| VBool (b : bool)
| VInt (n : Z)
| VStr (s : string)
| VList (xs : list PyVal)
| VDict (kvs : list (string * PyVal))
| VLine (pts : list (Z * Z)).

#[global] Instance PyVal_eq_dec : EqDecision PyVal.
Proof.
  refine (fix go (x y : PyVal) {struct x} : Decision (x = y) :=
    match x, y with
    | VNone, VNone => left eq_refl
    | VNaN, VNaN => left eq_refl
    | VBool a, VBool b => cast_if (decide (a = b))
    | VInt a, VInt b => cast_if (decide (a = b))
    | VStr a, VStr b => cast_if (decide (a = b))
    | VList xs, VList ys =>
        cast_if ((fix gol (l k : list PyVal) {struct l} : Decision (l = k) :=
           match l, k with
           | [], [] => left eq_refl
           | a :: l', b :: k' => cast_if_and (go a b) (gol l' k')
           | _, _ => right _
           end) xs ys)
    | VDict xs, VDict ys =>
        cast_if ((fix god (l k : list (string * PyVal)) {struct l}
                    : Decision (l = k) :=
           match l, k with
           | [], [] => left eq_refl
           | (s, a) :: l', (t, b) :: k' =>
               cast_if_and3 (decide (s = t)) (go a b) (god l' k')
           | _, _ => right _
           end) xs ys)
    | VLine a, VLine b => cast_if (decide (a = b))
    | _, _ => right _
    end); clear go; try clear gol; try clear god; abstract congruence.
Defined.

(** ** Exceptions and outcomes *)

(** The exceptions the script can meet.  [RuntimeError] carries the
    message built by the script. *)
Inductive Exn : Type :=
| AttributeError
| IndexError
| KeyError
| TypeError
| ValueError
| RuntimeError (msg : string).

(** What a piece of Python code does: it returns, it raises, or (for the
    model of a loop) the fuel given to the model ran out. *)
Inductive Outcome (A : Type) : Type :=
| Ok (a : A)
| Raise (e : Exn)
| OutOfFuel.
Arguments Ok {A} a.
Arguments Raise {A} e.
Arguments OutOfFuel {A}.

#[global] Instance Outcome_ret : MRet Outcome := fun A a => Ok a.
#[global] Instance Outcome_bind : MBind Outcome := fun A B f m =>
  match m with
  | Ok a => f a
  | Raise e => Raise e
  | OutOfFuel => OutOfFuel
  end.

(** ** The polyline codec *)

Module Polyline.

(** Modelled from the spec: the [polyline] package ([decode], [encode],
    [_trans], [_write]) is imported by the script and is not part of
    its source.  This is the standard polyline algorithm the spec
    names: 5-digit precision, delta-encoded values, zig-zag signs,
    5-bit groups packed into characters offset by 63.  A coordinate is
    the integer [round (degrees * 1e5)]; the string index of [_trans]
    is the suffix still to be read. *)
Definition ord (c : ascii) : Z := Z.of_N (N_of_ascii c).
Definition chr (n : Z) : ascii := ascii_of_N (Z.to_N n).

(** [_trans]: read one value, least significant 5-bit group first;
    a group with bit 0x20 set is followed by another group. *)
Fixpoint trans_go (value : string) (result shift : Z)
    : Outcome (Z * string) :=
  match value with
  | EmptyString => Raise IndexError
  | String c rest =>
      let byte := ord c - 63 in
      let result := Z.lor result (Z.shiftl (Z.land byte 0x1f) shift) in
      let shift := shift + 5 in
      if bool_decide (0x20 <= byte) then trans_go rest result shift
      else
        let comp := Z.land result 1 in
        Ok (if bool_decide (comp = 0) then Z.shiftr result 1
            else Z.lnot (Z.shiftr result 1), rest)
  end.

Definition trans (value : string) : Outcome (Z * string) :=
  trans_go value 0 0.

(** [decode]: the loop [while index < length]; each round reads a
    latitude change and a longitude change. *)
Fixpoint decode_go (fuel : nat) (value : string) (lat lng : Z)
    (coordinates : list (Z * Z)) : Outcome (list (Z * Z)) :=
  match value with
  | EmptyString => Ok coordinates
  | _ =>
      match fuel with
      | O => OutOfFuel
      | S fuel' =>
          '(lat_change, value1) ← trans value;
          '(lng_change, value2) ← trans value1;
          let lat := lat + lat_change in
          let lng := lng + lng_change in
          decode_go fuel' value2 lat lng (coordinates ++ [(lat, lng)])
      end
  end.

Definition decode (expression : string) : Outcome (list (Z * Z)) :=
  decode_go (String.length expression) expression 0 0 [].

(** [_write]: the loop [while coord >= 0x20]. *)
Fixpoint write_go (fuel : nat) (coord : Z) : string :=
  match fuel with
  | O => EmptyString
  | S fuel' =>
      if bool_decide (0x20 <= coord) then
        String (chr (Z.lor 0x20 (Z.land coord 0x1f) + 63))
               (write_go fuel' (Z.shiftr coord 5))
      else String (chr (coord + 63)) EmptyString
  end.

Definition write (curr_value prev_value : Z) : string :=
  let coord := curr_value - prev_value in
  let coord := Z.shiftl coord 1 in
  let coord := if bool_decide (0 <= coord) then coord else Z.lnot coord in
  write_go (S (Z.to_nat (Z.log2 coord))) coord.

(** The pairs (prev, curr) of [_pcitr]. *)
Fixpoint encode_rest (prev : Z * Z) (coordinates : list (Z * Z)) : string :=
  match coordinates with
  | [] => EmptyString
  | curr :: more =>
      write curr.1 prev.1 +:+ write curr.2 prev.2 +:+ encode_rest curr more
  end.

Definition encode (coordinates : list (Z * Z)) : Outcome string :=
  match coordinates with
  | [] => Raise IndexError
  | first :: more =>
      Ok (write first.1 0 +:+ write first.2 0 +:+ encode_rest first more)
  end.

(** A string the encoder can produce: an even number of values, each a
    run of continuation characters (63+32 .. 63+63) closed by a final
    character (63 .. 63+31), with no zero final group after a
    continuation. *)
Fixpoint valid_go (value : string) (in_value odd_count : bool) : bool :=
  match value with
  | EmptyString => negb in_value && negb odd_count
  | String c rest =>
      let byte := ord c - 63 in
      if bool_decide (0x20 <= byte < 0x40) then valid_go rest true odd_count
      else if bool_decide (0 <= byte < 0x20) then
        (negb in_value || negb (bool_decide (byte = 0)))
        && valid_go rest false (negb odd_count)
      else false
  end.

Definition valid (expression : string) : bool :=
  valid_go expression false false.

(** The sign folding at the end of [_trans] and at the start of
    [_write], named for the statements below. *)
Definition unzigzag (result : Z) : Z :=
  if bool_decide (Z.land result 1 = 0) then Z.shiftr result 1
  else Z.lnot (Z.shiftr result 1).

Definition zigzag (delta : Z) : Z :=
  let coord := Z.shiftl delta 1 in
  if bool_decide (0 <= coord) then coord else Z.lnot coord.

End Polyline.

(** ** Tables *)

(** A Python dict with string keys, in insertion order. *)
Abbreviation Row := (list (string * PyVal)).

Fixpoint dict_get (k : string) (d : Row) : option PyVal :=
  match d with
  | [] => None
  | (k', v) :: d' => if decide (k' = k) then Some v else dict_get k d'
  end.

(** A pandas [DataFrame] (and a geopandas [GeoDataFrame], whose geometry
    is the column ["geometry"]): the column index and the rows, each row
    an association of column name to cell. *)
Record DataFrame : Type := mkDF { columns : list string; rows : list Row }.

(** The cell of row [r] under column [c]; a cell that is not there reads
    as the missing value [nan]. *)
Definition cell (r : Row) (c : string) : PyVal := default VNaN (dict_get c r).

Definition column (df : DataFrame) (c : string) : list PyVal :=
  fmap (fun r => cell r c) (rows df).

(** Align a row on a column index, filling with [nan]. *)
Definition reindex (cols : list string) (r : Row) : Row :=
  fmap (fun c => (c, cell r c)) cols.

Definition add_column_names (cols ks : list string) : list string :=
  foldl (fun acc k => if bool_decide (k ∈ acc) then acc else acc ++ [k]) cols ks.

(** [pd.DataFrame(rows)] for a list of dicts: the columns are the keys in
    order of first appearance and a key a dict lacks becomes [nan]. *)
Definition DataFrame_of_records (records : list Row) : DataFrame :=
  let cols := foldl (fun acc r => add_column_names acc (fmap fst r)) [] records in
  mkDF cols (fmap (reindex cols) records).

(** [df[cols]] for column names that all exist. *)
Definition select_columns (df : DataFrame) (cols : list string) : DataFrame :=
  mkDF cols (fmap (reindex cols) (rows df)).

Fixpoint row_set (c : string) (v : PyVal) (r : Row) : Row :=
  match r with
  | [] => [(c, v)]
  | (k, x) :: r' => if decide (k = c) then (k, v) :: r' else (k, x) :: row_set c v r'
  end.

(** [df[c] = values]: replaces the column, or appends it.  The script
    always assigns as many values as the table has rows. *)
Definition set_column (df : DataFrame) (c : string) (values : list PyVal)
    : DataFrame :=
  mkDF (if bool_decide (c ∈ columns df) then columns df else columns df ++ [c])
       (zip_with (fun r v => row_set c v r) (rows df) values).

Definition drop_column (df : DataFrame) (c : string) : DataFrame :=
  mkDF (filter (fun k => k ≠ c) (columns df))
       (fmap (fun r : Row => filter (fun kv => kv.1 ≠ c) r) (rows df)).

Definition rename_column (df : DataFrame) (k v : string) : DataFrame :=
  mkDF (fmap (fun c => if decide (c = k) then v else c) (columns df))
       (fmap (fun r : Row =>
                fmap (fun kv => (if decide (kv.1 = k) then v else kv.1, kv.2)) r)
             (rows df)).

(** [pd.concat([a, b], ignore_index=True)]: the union of the columns, the
    rows of [a] then the rows of [b]. *)
Definition concat (a b : DataFrame) : DataFrame :=
  let cols := add_column_names (columns a) (columns b) in
  mkDF cols (fmap (reindex cols) (rows a ++ rows b)).

(** [keep="last"]: a row is dropped when a later row has the same key. *)
Fixpoint keep_last (c : string) (rs : list Row) : list Row :=
  match rs with
  | [] => []
  | r :: rest =>
      if bool_decide (Exists (fun r' => cell r' c = cell r c) rest)
      then keep_last c rest
      else r :: keep_last c rest
  end.

(** [df.drop_duplicates(subset=[c], keep="last")]. *)
Definition drop_duplicates (df : DataFrame) (c : string) : Outcome DataFrame :=
  if bool_decide (c ∈ columns df) then Ok (mkDF (columns df) (keep_last c (rows df)))
  else Raise KeyError.

(** ** Python helpers *)

Definition truthy (v : PyVal) : bool :=
  match v with
  | VNone => false
  | VNaN => true
  | VBool b => b
  | VInt n => negb (bool_decide (n = 0))
  | VStr s => negb (bool_decide (s = EmptyString))
  | VList xs => negb (bool_decide (xs = []))
  | VDict kvs => negb (bool_decide (kvs = []))
  | VLine _ => true
  end.

(** [v.get(k)]: only a dict has the method. *)
Definition py_get (v : PyVal) (k : string) : Outcome PyVal :=
  match v with
  | VDict d => Ok (default VNone (dict_get k d))
  | _ => Raise AttributeError
  end.

(** [d[k]] on a dict. *)
Definition subscript (d : Row) (k : string) : Outcome PyVal :=
  match dict_get k d with
  | Some v => Ok v
  | None => Raise KeyError
  end.

(** [pd.isnull(v)] on one value. *)
Definition isnull (v : PyVal) : bool :=
  match v with
  | VNone | VNaN => true
  | _ => false
  end.

Definition is_list_or_dict (v : PyVal) : bool :=
  match v with
  | VList _ | VDict _ => true
  | _ => false
  end.

(** An item that [ord] accepts: a string of one character. *)
Definition one_char (v : PyVal) : option ascii :=
  match v with
  | VStr (String a EmptyString) => Some a
  | _ => None
  end.

(** [polyline.decode(geom)].  The library takes [len(geom)] and then
    reads [ord(geom[index])] for index 0, 1, ... up to that length.  The
    API gives a string.  A list is read item by item, and [ord] raises
    [TypeError] at the first item that is not a one-character string,
    which comes before the end of the list is reached; a dict, whose
    keys are strings, has no key [0] unless it is empty; a number, a
    boolean, [None] and a geometry have no [len]. *)
Definition polyline_decode (geom : PyVal) : Outcome (list (Z * Z)) :=
  match geom with
  | VStr s => Polyline.decode s
  | VList xs =>
      match mapM one_char xs with
      | Some cs => Polyline.decode (string_of_list_ascii cs)
      | None => Raise TypeError
      end
  | VDict [] => Ok []
  | VDict (_ :: _) => Raise KeyError
  | _ => Raise TypeError
  end.

(** ** Settings *)

Definition DATA_DIR : string := "docs/data".
Definition GEOJSON_PATH : string := "docs/data/activities.geojson".
Definition SHAPE_DIR : string := "docs/data/shapefile".
Definition SHAPE_BASENAME : string := "activities".
Definition PER_PAGE : Z := 200.

(** ** What the script calls and does not define *)

Record Response (B : Type) : Type :=
  mkResponse { status_code : Z; text : string; body : B }.
Arguments mkResponse {B} _ _ _.
Arguments status_code {B} _.
Arguments text {B} _.
Arguments body {B} _.

(** pandas' datetime parsing and accessors, [json.dumps], shapely's
    validity test, geopandas' file reading and writing, the process
    environment and the two Strava endpoints.  A timestamp is a number of
    seconds since the epoch; [None] in a parsed column is [NaT];
    [to_datetime] returning [None] is the call raising.
    [NaT_astype_str] is what [astype(str)] makes of a missing date, which
    depends on the pandas at hand: a string (["NaT"] before pandas 3.0),
    or, with [None], a value that stays missing (from pandas 3.0). *)
Class Externals : Type := {
  to_datetime : list PyVal -> option (list (option Z));
  to_datetime_length :
    forall l r, to_datetime l = Some r -> length r = length l;
  date_str : Z -> string;
  NaT_astype_str : option string;
  dt_year : Z -> Z;
  dt_month : Z -> Z;
  json_dumps : PyVal -> string;
  is_valid : list (Z * Z) -> bool;
  FileContent : Type;
  read_file : FileContent -> option DataFrame;
  to_file_geojson : DataFrame -> FileContent;
  to_file_shapefile : DataFrame -> FileContent;
  getenv : string -> PyVal;
  post_token : Response Row;
  get_activities : PyVal -> Z -> Z -> option Z -> Response (list Row);
}.

(** What a run does to the outside. *)
Inductive Event : Type :=
| EvPrint (line : string)
| EvPost
| EvGet (page per_page : Z) (after : option Z)
| EvSleep
| EvWrite (path : string).

Section Script.
Context `{E : Externals}.

(** The files on disk and what the run did so far. *)
Record World : Type := mkWorld {
  files : gmap string FileContent;
  trace : list Event;
}.

(** A statement of the main block: it changes the world and returns,
    raises or runs out of fuel. *)
Definition M (A : Type) : Type := World -> Outcome A * World.

Definition retM {A} (a : A) : M A := fun w => (Ok a, w).

Definition bindM {A B} (m : M A) (f : A -> M B) : M B := fun w =>
  match m w with
  | (Ok a, w') => f a w'
  | (Raise e, w') => (Raise e, w')
  | (OutOfFuel, w') => (OutOfFuel, w')
  end.

Definition liftO {A} (o : Outcome A) : M A := fun w => (o, w).

Definition emit (ev : Event) : M unit := fun w =>
  (Ok tt, mkWorld (files w) (trace w ++ [ev])).

Definition print (line : string) : M unit := emit (EvPrint line).

(** [gdf.to_file(path)] where it succeeds: the content is under [path]
    afterwards.  The one entry under a [.shp] path stands for the
    shapefile together with its companion files (.shx, .dbf, .prj,
    .cpg), which the driver writes beside it.  A write that fails (a
    full disk, a value the driver refuses) is outside this model: no
    statement below is about a run whose write raises. *)
Definition to_file (path : string) (content : FileContent) : M unit := fun w =>
  (Ok tt, mkWorld (<[path := content]> (files w)) (trace w ++ [EvWrite path])).

End Script.

Notation "x <- c ;; k" := (bindM c (fun x => k))
  (at level 100, c at next level, right associativity).
Notation "c ;;; k" := (bindM c (fun _ => k))
  (at level 100, right associativity).

(** ** The script *)

Section Functions.
Context `{E : Externals}.

Definition raise {A} (e : Exn) : M A := liftO (Raise e).

(** [refresh_access_token]. *)
Definition refresh_access_token : M (PyVal * PyVal * PyVal) :=
  emit EvPost ;;;
  let r := post_token in
  if bool_decide (status_code r ≠ 200) then
    raise (RuntimeError ("Token refresh failed: " +:+ pretty (status_code r)
                         +:+ " " +:+ text r))
  else
    let tokens := body r in
    access_token <- liftO (subscript tokens "access_token") ;;
    refresh_token <- liftO (subscript tokens "refresh_token") ;;
    expires_at <- liftO (subscript tokens "expires_at") ;;
    retM (access_token, refresh_token, expires_at).

(** [strava_get_activities]. *)
Definition strava_get_activities (access_token : PyVal) (page per_page : Z)
    (after : option Z) : M (list Row) :=
  emit (EvGet page per_page after) ;;;
  let r := get_activities access_token page per_page after in
  if bool_decide (status_code r ≠ 200) then
    raise (RuntimeError ("Fetch activities failed: " +:+ pretty (status_code r)
                         +:+ " " +:+ text r))
  else retM (body r).

(** [decode_summary_polyline]; [activity] is a row of the table, so
    [activity.get("map", {})] is the cell under ["map"] when the table
    has that column and [{}] when it has not. *)
Definition decode_summary_polyline (activity : Row) : Outcome PyVal :=
  geom ← py_get (default (VDict []) (dict_get "map" activity)) "summary_polyline";
  if negb (truthy geom) then Ok VNone
  else
    coords ← polyline_decode geom;
    if bool_decide (length coords < 2)%nat then Ok VNone
    else
      let lonlat := fmap (fun c => (c.2, c.1)) coords in
      Ok (VLine lonlat).

(** [load_existing_geojson]. *)
Definition empty_gdf : DataFrame := mkDF ["id"; "geometry"] [].

Definition load_existing_geojson (path : string) (w : World) : DataFrame :=
  match files w !! path with
  | Some content =>
      match read_file content with
      | Some gdf => gdf
      | None => empty_gdf
      end
  | None => empty_gdf
  end.

(** [tidy_columns]. *)
Definition wanted : list string :=
  [ "id"; "name"; "type"; "distance"; "moving_time"; "elapsed_time";
    "total_elevation_gain"; "start_date"; "sport_type"; "average_speed";
    "max_speed"; "kudos_count"; "map" ].

(** [dt.dt.date.astype(str)], [dt.dt.year] and [dt.dt.month] on one
    entry.  What [astype(str)] gives for [NaT] is the library's choice
    [NaT_astype_str]: a string, or a value that stays missing; the year
    and the month of [NaT] are [nan]. *)
Definition date_astype_str (d : option Z) : PyVal :=
  match d with
  | Some t => VStr (date_str t)
  | None =>
      match NaT_astype_str with
      | Some s => VStr s
      | None => VNaN
      end
  end.

Definition year_of (d : option Z) : PyVal :=
  match d with
  | Some t => VInt (dt_year t)
  | None => VNaN
  end.

Definition month_of (d : option Z) : PyVal :=
  match d with
  | Some t => VInt (dt_month t)
  | None => VNaN
  end.

Definition expand_dates (slim : DataFrame) : Outcome DataFrame :=
  if bool_decide ("start_date" ∈ columns slim) then
    match to_datetime (column slim "start_date") with
    | None => Raise ValueError
    | Some dt =>
        let slim := set_column slim "date" (fmap date_astype_str dt) in
        let slim := set_column slim "year" (fmap year_of dt) in
        let slim := set_column slim "month" (fmap month_of dt) in
        Ok slim
    end
  else Ok slim.

(** One round of the loop over [list(slim.columns)]. *)
Definition stringify_column (slim : DataFrame) (c : string) : DataFrame :=
  if decide (c = "map") then slim
  else
    match rows slim with
    | first :: _ =>
        if is_list_or_dict (cell first c) then
          set_column slim c
            (fmap (fun x => if is_list_or_dict x then VStr (json_dumps x) else x)
                 (column slim c))
        else slim
    | [] => slim
    end.

Definition tidy_columns (df : DataFrame) : Outcome DataFrame :=
  let cols := filter (fun c => c ∈ columns df) wanted in
  let slim := select_columns df cols in
  slim ← expand_dates slim;
  Ok (foldl stringify_column slim (columns slim)).

(** [build_geodataframe]. *)
Definition has_valid_geometry (r : Row) : bool :=
  match cell r "geometry" with
  | VLine pts => is_valid pts
  | _ => false
  end.

Definition build_geodataframe (records : list Row) : Outcome DataFrame :=
  let df := DataFrame_of_records records in
  df ← tidy_columns df;
  geometry ← mapM decode_summary_polyline (rows df);
  let df := set_column df "geometry" geometry in
  let gdf := mkDF (columns df) (filter (fun r => has_valid_geometry r) (rows df)) in
  Ok (if bool_decide ("map" ∈ columns gdf) then drop_column gdf "map" else gdf).

(** The main block, lines 132-148: the lower time bound of the fetch. *)
Definition series_max (dt : list (option Z)) : option Z :=
  foldr (fun d acc =>
           match d, acc with
           | Some a, Some b => Some (Z.max a b)
           | Some a, None => Some a
           | None, _ => acc
           end) None dt.

Definition compute_after_ts (existing : DataFrame) : option Z :=
  if bool_decide (rows existing ≠ []) then
    let last_date :=
      if bool_decide ("date" ∈ columns existing) then
        match to_datetime (column existing "date") with
        | Some dt => series_max dt
        | None => None
        end
      else None in
    match last_date with
    | Some t => Some (t - 24 * 3600)
    | None => None
    end
  else None.

(** Lines 151-162: the pagination loop; [fuel] bounds the number of
    rounds of [while True]. *)
Fixpoint pull_pages (fuel : nat) (access_token : PyVal) (after_ts : option Z)
    (page : Z) (new_rows : list Row) : M (list Row) :=
  match fuel with
  | O => liftO OutOfFuel
  | S fuel' =>
      items <- strava_get_activities access_token page PER_PAGE after_ts ;;
      if bool_decide (items = []) then retM new_rows
      else
        let new_rows := new_rows ++ items in
        if bool_decide (Z.of_nat (length items) < PER_PAGE) then retM new_rows
        else
          emit EvSleep ;;;
          pull_pages fuel' access_token after_ts (page + 1) new_rows
  end.

(** Lines 170-179: merge with the existing table by id. *)
Definition merge (existing new_gdf : DataFrame) : Outcome DataFrame :=
  if bool_decide (rows existing ≠ []) then
    if bool_decide ("id" ∈ columns existing) then
      let combined := concat existing new_gdf in
      drop_duplicates combined "id"
    else Ok new_gdf
  else Ok new_gdf.

(** Lines 182-202: write the two files, or say there is nothing to do. *)
Definition rename_map : list (string * string) :=
  [ ("start_date", "start_dt"); ("average_speed", "avg_speed");
    ("total_elevation_gain", "elev_gain") ].

Definition shapefile_safe (combined_gdf : DataFrame) : DataFrame :=
  foldl (fun safe kv =>
           if bool_decide (kv.1 ∈ columns safe) then rename_column safe kv.1 kv.2
           else safe) combined_gdf rename_map.

Definition write_outputs (combined_gdf : DataFrame) : M unit :=
  if bool_decide (rows combined_gdf ≠ []) then
    to_file GEOJSON_PATH (to_file_geojson combined_gdf) ;;;
    print ("[ok] wrote " +:+ GEOJSON_PATH) ;;;
    let shp_path := SHAPE_DIR +:+ "/" +:+ SHAPE_BASENAME +:+ ".shp" in
    let safe := shapefile_safe combined_gdf in
    to_file shp_path (to_file_shapefile safe) ;;;
    print ("[ok] wrote " +:+ shp_path +:+ " (and companion files)")
  else print "[info] nothing to update".

Definition show_after (after_ts : option Z) : string :=
  match after_ts with
  | Some t => pretty t
  | None => "None"
  end.

(** The whole main block. *)
Definition main (fuel : nat) : M unit :=
  tokens <- refresh_access_token ;;
  let '(access_token, new_refresh, exp) := tokens in
  (if truthy new_refresh
      && negb (bool_decide (new_refresh = getenv "STRAVA_REFRESH_TOKEN"))
   then print "[info] Strava issued a new refresh token this run. Store it in your GitHub Secrets if you want to rotate."
   else retM tt) ;;;
  existing <- (fun w => (Ok (load_existing_geojson GEOJSON_PATH w), w)) ;;
  let after_ts := compute_after_ts existing in
  print ("[info] Incremental fetch using after=" +:+ show_after after_ts) ;;;
  new_rows <- pull_pages fuel access_token after_ts 1 [] ;;
  print ("[info] fetched " +:+ pretty (length new_rows)
         +:+ " activities (raw) this run") ;;;
  new_gdf <- liftO (build_geodataframe new_rows) ;;
  combined_gdf <- liftO (merge existing new_gdf) ;;
  write_outputs combined_gdf.

End Functions.

(** ** A concrete environment

    One way to fill in [Externals], used to run the script on examples:
    ISO-8601 timestamps of the form YYYY-MM-DD or YYYY-MM-DDTHH:MM:SSZ,
    the proleptic Gregorian calendar, a missing date turned into the
    string ["NaT"] by [astype(str)] (pandas before 3.0), a line being
    valid when it has two distinct points, and files that hold the table
    written to them. *)
Module Demo.

Definition digit (c : ascii) : option Z :=
  let n := Z.of_N (N_of_ascii c) - 48 in
  if bool_decide (0 <= n <= 9) then Some n else None.

(** Read [n] decimal digits. *)
Fixpoint number (n : nat) (s : string) (acc : Z) : option (Z * string) :=
  match n with
  | O => Some (acc, s)
  | S n' =>
      match s with
      | String c rest => d ← digit c; number n' rest (10 * acc + d)
      | EmptyString => None
      end
  end.

Definition expect (c : ascii) (s : string) : option string :=
  match s with
  | String c' rest => if decide (c' = c) then Some rest else None
  | EmptyString => None
  end.

Definition days_from_civil (y m d : Z) : Z :=
  let y := if bool_decide (m <= 2) then y - 1 else y in
  let era := y `div` 400 in
  let yoe := y - era * 400 in
  let doy := (153 * (m + (if bool_decide (2 < m) then -3 else 9)) + 2) `div` 5 + d - 1 in
  let doe := yoe * 365 + yoe `div` 4 - yoe `div` 100 + doy in
  era * 146097 + doe - 719468.

Definition civil_from_days (z : Z) : Z * Z * Z :=
  let z := z + 719468 in
  let era := z `div` 146097 in
  let doe := z - era * 146097 in
  let yoe := (doe - doe `div` 1460 + doe `div` 36524 - doe `div` 146096) `div` 365 in
  let y := yoe + era * 400 in
  let doy := doe - (365 * yoe + yoe `div` 4 - yoe `div` 100) in
  let mp := (5 * doy + 2) `div` 153 in
  let d := doy - (153 * mp + 2) `div` 5 + 1 in
  let m := if bool_decide (mp < 10) then mp + 3 else mp - 9 in
  (if bool_decide (m <= 2) then y + 1 else y, m, d).

Definition parse_time (s : string) : option Z :=
  match s with
  | EmptyString => Some 0
  | _ =>
      s ← expect "T" s;
      '(hh, s) ← number 2 s 0;
      s ← expect ":" s;
      '(mm, s) ← number 2 s 0;
      s ← expect ":" s;
      '(ss, s) ← number 2 s 0;
      s ← expect "Z" s;
      if bool_decide (s = EmptyString ∧ hh < 24 ∧ mm < 60 ∧ ss < 60)
      then Some (hh * 3600 + mm * 60 + ss) else None
  end.

Definition parse_iso (s : string) : option Z :=
  '(y, s) ← number 4 s 0;
  s ← expect "-" s;
  '(m, s) ← number 2 s 0;
  s ← expect "-" s;
  '(d, s) ← number 2 s 0;
  secs ← parse_time s;
  if bool_decide (1 <= m <= 12 ∧ 1 <= d <= 31)
  then Some (days_from_civil y m d * 86400 + secs) else None.

Definition parse (v : PyVal) : option Z :=
  match v with
  | VStr s => parse_iso s
  | _ => None
  end.

Definition pad2 (n : Z) : string :=
  if bool_decide (n < 10) then "0" +:+ pretty n else pretty n.

Definition pad4 (n : Z) : string :=
  if bool_decide (n < 10) then "000" +:+ pretty n
  else if bool_decide (n < 100) then "00" +:+ pretty n
  else if bool_decide (n < 1000) then "0" +:+ pretty n
  else pretty n.

Definition iso_date (t : Z) : string :=
  let '(y, m, d) := civil_from_days (t `div` 86400) in
  pad4 y +:+ "-" +:+ pad2 m +:+ "-" +:+ pad2 d.

Definition year (t : Z) : Z := (civil_from_days (t `div` 86400)).1.1.
Definition month (t : Z) : Z := (civil_from_days (t `div` 86400)).1.2.

Definition quote : string := String (ascii_of_nat 34) EmptyString.

Definition join (sep : string) (parts : list string) : string :=
  match parts with
  | [] => EmptyString
  | p :: more => foldl (fun acc q => acc +:+ sep +:+ q) p more
  end.

Fixpoint dumps (v : PyVal) : string :=
  match v with
  | VNone => "null"
  | VNaN => "NaN"
  | VBool b => if b then "true" else "false"
  | VInt n => pretty n
  | VStr s => quote +:+ s +:+ quote
  | VList xs => "[" +:+ join ", " (map dumps xs) +:+ "]"
  | VDict kvs =>
      "{" +:+ join ", " (map (fun kv => quote +:+ kv.1 +:+ quote +:+ ": "
                                       +:+ dumps kv.2) kvs) +:+ "}"
  | VLine pts =>
      "[" +:+ join ", " (map (fun p => "[" +:+ pretty p.1 +:+ ", "
                                      +:+ pretty p.2 +:+ "]") pts) +:+ "]"
  end.

Definition two_distinct (pts : list (Z * Z)) : bool :=
  match pts with
  | [] => false
  | p :: more => bool_decide (Exists (fun q => q ≠ p) more)
  end.

Inductive File : Type :=
| Table (df : DataFrame)
| Garbage.

Definition read (f : File) : option DataFrame :=
  match f with
  | Table df => Some df
  | Garbage => None
  end.

Definition token_response : Response Row :=
  mkResponse 200 "" [("access_token", VStr "access"); ("refresh_token", VStr "refresh");
                     ("expires_at", VInt 0)].

Definition environ (name : string) : PyVal :=
  if decide (name = "STRAVA_REFRESH_TOKEN") then VStr "refresh" else VNone.

Lemma parse_column_length (l : list PyVal) (r : list (option Z)) :
  Some (fmap parse l) = Some r -> length r = length l.
Proof. intros [= <-]. apply length_fmap. Qed.

(** The environment in which the activity list answers [api page after]. *)
Definition externals (api : Z -> option Z -> Response (list Row)) : Externals :=
  {| to_datetime := fun l => Some (fmap parse l);
     to_datetime_length := parse_column_length;
     date_str := iso_date;
     NaT_astype_str := Some "NaT";
     dt_year := year;
     dt_month := month;
     json_dumps := dumps;
     is_valid := two_distinct;
     FileContent := File;
     read_file := read;
     to_file_geojson := Table;
     to_file_shapefile := Table;
     getenv := environ;
     post_token := token_response;
     get_activities := fun _ page _ after => api page after |}.

(** An API with nothing to return. *)
Definition no_activities : Z -> option Z -> Response (list Row) :=
  fun _ _ => mkResponse 200 "" [].

End Demo.

(** ** What the pagination loop is expected to do *)

Section Expected.
Context `{E : Externals}.

(** The items of pages [p], [p+1], ..., [p+n], in order. *)
Fixpoint pages_items (access_token : PyVal) (after : option Z) (p : Z) (n : nat)
    : list Row :=
  match n with
  | O => body (get_activities access_token p PER_PAGE after)
  | S n' =>
      body (get_activities access_token p PER_PAGE after)
      ++ pages_items access_token after (p + 1) n'
  end.

(** One request per page from [p] to [p+n], a pause between two
    requests, and nothing after the last one. *)
Fixpoint pages_trace (after : option Z) (p : Z) (n : nat) : list Event :=
  match n with
  | O => [EvGet p PER_PAGE after]
  | S n' => EvGet p PER_PAGE after :: EvSleep :: pages_trace after (p + 1) n'
  end.

End Expected.

(** ** What a run is expected to do before it writes *)

(** An event of a run that has not written yet: no write, and a request
    only for [PER_PAGE] items after the cutoff [after]. *)
Definition before_write (after : option Z) (ev : Event) : Prop :=
  match ev with
  | EvWrite _ => False
  | EvGet _ per_page a => per_page = PER_PAGE ∧ a = after
  | _ => True
  end.

Section RunDefs.
Context `{E : Externals}.

(** From [w0] to [w1] the files did not change and only such events were
    added. *)
Definition no_write_yet (after : option Z) (w0 w1 : World) : Prop :=
  files w1 = files w0
  ∧ exists evs, trace w1 = trace w0 ++ evs ∧ Forall (before_write after) evs.

(** A statement that never writes. *)
Definition quiet (after : option Z) {A} (m : M A) : Prop :=
  forall w, no_write_yet after w (m w).2.

(** Where a run can end: before any write, or right after
    [write_outputs] ran on a table with rows. *)
Definition finished (after : option Z) (w0 w' : World) : Prop :=
  no_write_yet after w0 w'
  ∨ exists combined_gdf w1,
      rows combined_gdf ≠ [] ∧ no_write_yet after w0 w1
      ∧ w' = (write_outputs combined_gdf w1).2.
End RunDefs.

(** ** Sample data *)

Module Samples.

(** The polyline of the format's documentation: three points. *)
Definition P1 : string := "_p~iF~ps|U_ulLnnqC_mqNvxq`@".

Definition line_P1 : PyVal :=
  VLine [(-12020000, 3850000); (-12095000, 4070000); (-12645300, 4325200)].

(** An activity as the API lists it. *)
Definition activity (id : Z) (start_date : string) (kudos : Z) : Row :=
  [ ("id", VInt id); ("name", VStr "Morning Run"); ("start_date", VStr start_date);
    ("kudos_count", VInt kudos);
    ("map", VDict [("id", VStr "a"); ("summary_polyline", VStr P1)]) ].

(** A row as an earlier run stored it. *)
Definition stored_columns : list string :=
  ["id"; "name"; "start_date"; "kudos_count"; "date"; "year"; "month"; "geometry"].

Definition stored_row (id : Z) (start_date date : string) (year month kudos : Z)
    : Row :=
  [ ("id", VInt id); ("name", VStr "Morning Run"); ("start_date", VStr start_date);
    ("kudos_count", VInt kudos); ("date", VStr date); ("year", VInt year);
    ("month", VInt month); ("geometry", line_P1) ].

(** The store of the spec's scenario A: activity 1 of 2024-01-01. *)
Definition store_A : DataFrame :=
  mkDF stored_columns [stored_row 1 "2024-01-01T08:00:00Z" "2024-01-01" 2024 1 0].

(** What scenario A fetches: activity 1 again, with 5 kudos, and a new
    activity 2. *)
Definition fetched_A : list Row :=
  [ activity 1 "2024-01-01T08:00:00Z" 5; activity 2 "2024-01-02T08:00:00Z" 0 ].

Definition new_gdf_A : DataFrame :=
  mkDF stored_columns
    [ stored_row 1 "2024-01-01T08:00:00Z" "2024-01-01" 2024 1 5;
      stored_row 2 "2024-01-02T08:00:00Z" "2024-01-02" 2024 1 0 ].

(** The same activity listed twice by the API. *)
Definition fetched_twice : list Row :=
  [ activity 7 "2024-03-01T08:00:00Z" 1; activity 7 "2024-03-01T08:00:00Z" 1 ].

Definition new_gdf_twice : DataFrame :=
  mkDF stored_columns
    [ stored_row 7 "2024-03-01T08:00:00Z" "2024-03-01" 2024 3 1;
      stored_row 7 "2024-03-01T08:00:00Z" "2024-03-01" 2024 3 1 ].

(** A stored table whose features carry no id property. *)
Definition old_ride : Row :=
  [("name", VStr "Old Ride"); ("date", VStr "2023-12-31"); ("geometry", line_P1)].

Definition store_without_id : DataFrame :=
  mkDF ["name"; "date"; "geometry"] [old_ride].

(** A stored table with a date that does not parse among two that do. *)
Definition store_dates : DataFrame :=
  mkDF stored_columns
    [ stored_row 1 "2024-01-01T08:00:00Z" "2024-01-01" 2024 1 0;
      stored_row 2 "2024-01-05T08:00:00Z" "2024-01-05" 2024 1 0;
      stored_row 3 "?" "NaT" 0 0 0 ].

(** A full page of 200 activities, then a page of one. *)
Definition two_pages : Z -> option Z -> Response (list Row) :=
  fun page _ =>
    mkResponse 200 ""
      (if decide (page = 1) then replicate 200 (activity 1 "2024-01-01T08:00:00Z" 0)
       else if decide (page = 2) then [activity 2 "2024-01-02T08:00:00Z" 0]
       else []).

(** Two fetched activities: one with a map, one with no map field. *)
Definition fetched_mixed : list Row :=
  [ [("id", VInt 1); ("map", VDict [("summary_polyline", VStr P1)])];
    [("id", VInt 2)] ].

(** One fetched activity with no map field. *)
Definition fetched_no_map : list Row := [ [("id", VInt 2)] ].

(** A fetched activity whose start date is not a date. *)
Definition fetched_bad_date : list Row :=
  [ [("id", VInt 9); ("start_date", VStr "yesterday")] ].

(** A disk without files, in the environment of the API [api]. *)
Definition world_empty (api : Z -> option Z -> Response (list Row))
    : @World (Demo.externals api) :=
  @mkWorld (Demo.externals api) (∅ : gmap string Demo.File) [].

(** A disk that holds the table [df] as the stored GeoJSON file. *)
Definition world_with (api : Z -> option Z -> Response (list Row)) (df : DataFrame)
    : @World (Demo.externals api) :=
  @mkWorld (Demo.externals api)
    (<[GEOJSON_PATH := Demo.Table df]> (∅ : gmap string Demo.File)) [].

(** A disk where the stored table cannot be read. *)
Definition world_unreadable : @World (Demo.externals Demo.no_activities) :=
  @mkWorld (Demo.externals Demo.no_activities)
    (<[GEOJSON_PATH := Demo.Garbage]> (∅ : gmap string Demo.File)) [].

(** An API that lists [items] on page 1 and nothing after. *)
Definition one_page (items : list Row) : Z -> option Z -> Response (list Row) :=
  fun page _ => mkResponse 200 "" (if decide (page = 1) then items else []).

End Samples.

(** ** More sample data *)

Module Cases.

(** The environment of [Demo.externals] with the token endpoint answering
    [token]. *)
Definition externals_with_token (token : Response Row)
    (api : Z -> option Z -> Response (list Row)) : Externals :=
  {| to_datetime := fun l => Some (fmap Demo.parse l);
     to_datetime_length := Demo.parse_column_length;
     date_str := Demo.iso_date;
     NaT_astype_str := Some "NaT";
     dt_year := Demo.year;
     dt_month := Demo.month;
     json_dumps := Demo.dumps;
     is_valid := Demo.two_distinct;
     FileContent := Demo.File;
     read_file := Demo.read;
     to_file_geojson := Demo.Table;
     to_file_shapefile := Demo.Table;
     getenv := Demo.environ;
     post_token := token;
     get_activities := fun _ page _ after => api page after |}.

(** A token endpoint that refuses the credentials. *)
Definition token_refused : Response Row :=
  mkResponse 401 "Unauthorized" [].

(** An API whose every page is full. *)
Definition endless : Z -> option Z -> Response (list Row) :=
  fun _ _ => mkResponse 200 ""
               (replicate 200 (Samples.activity 1 "2024-01-01T08:00:00Z" 0)).

(** An API whose first page is full and whose second page fails. *)
Definition second_page_fails : Z -> option Z -> Response (list Row) :=
  fun page _ =>
    if decide (page = 1)
    then mkResponse 200 "" (replicate 200 (Samples.activity 1 "2024-01-01T08:00:00Z" 0))
    else mkResponse 429 "Rate Limit Exceeded" [].

(** A token endpoint that hands out a new refresh token. *)
Definition token_rotated : Response Row :=
  mkResponse 200 "" [("access_token", VStr "access"); ("refresh_token", VStr "rotated");
                     ("expires_at", VInt 0)].

(** Fetched records whose type is a list in the first two records. *)
Definition fetched_nested : list Row :=
  [ [("id", VInt 1); ("type", VList [VInt 1])];
    [("id", VInt 2); ("type", VList [VInt 2; VInt 3])];
    [("id", VInt 3); ("type", VStr "Ride")] ].

Definition tidy_nested : DataFrame :=
  mkDF ["id"; "type"]
    [ [("id", VInt 1); ("type", VStr "[1]")];
      [("id", VInt 2); ("type", VStr "[2, 3]")];
      [("id", VInt 3); ("type", VStr "Ride")] ].

(** A fetched record without a map field. *)
Definition fetched_without_map : list Row :=
  [ [("id", VInt 9); ("name", VStr "Swim")] ].

(** The normalised table of [Samples.fetched_A]. *)
Definition tidy_A : DataFrame :=
  mkDF ["id"; "name"; "start_date"; "kudos_count"; "map"; "date"; "year"; "month"]
    [ [("id", VInt 1); ("name", VStr "Morning Run");
       ("start_date", VStr "2024-01-01T08:00:00Z"); ("kudos_count", VInt 5);
       ("map", VDict [("id", VStr "a"); ("summary_polyline", VStr Samples.P1)]);
       ("date", VStr "2024-01-01"); ("year", VInt 2024); ("month", VInt 1)];
      [("id", VInt 2); ("name", VStr "Morning Run");
       ("start_date", VStr "2024-01-02T08:00:00Z"); ("kudos_count", VInt 0);
       ("map", VDict [("id", VStr "a"); ("summary_polyline", VStr Samples.P1)]);
       ("date", VStr "2024-01-02"); ("year", VInt 2024); ("month", VInt 1)] ].

End Cases.

(** The line printed when the refresh token changed (line 129). *)
Definition rotation_notice : string :=
  "[info] Strava issued a new refresh token this run. Store it in your GitHub Secrets if you want to rotate.".



(** ** Well-formed tables *)

(** Every row has exactly the columns of the table, in the table's
    order. *)
Definition well_formed (df : DataFrame) : Prop :=
  forall r, r ∈ rows df -> r.*1 = columns df.

(** What [rename_column] does to one row. *)
Definition rename_row (k v : string) (r : Row) : Row :=
  (fun kv => (if decide (kv.1 = k) then v else kv.1, kv.2)) <$> r.

(** One round of the renaming loop. *)
Definition rename_if_present (df : DataFrame) (k v : string) : DataFrame :=
  if bool_decide (k ∈ columns df) then rename_column df k v else df.

(** What the loop over the columns does to one cell of column [c], in a
    table whose first row is [first]: a list or a dict becomes its JSON
    text when the first cell of the column is a list or a dict, and
    never in the map column. *)
Definition stringified `{E : Externals} (first : Row) (c : string) (x : PyVal)
    : PyVal :=
  if decide (c = "map") then x
  else if is_list_or_dict (cell first c) && is_list_or_dict x
       then VStr (json_dumps x) else x.

(** ** More about what a run is expected to do *)

Section RunMore.
Context `{E : Externals}.

(** Where a run ends, with what it returns: before any write, or with
    [Ok] right after [write_outputs] ran on a table with rows. *)
Definition ended (after : option Z) (w0 : World) (r : Outcome unit * World) : Prop :=
  no_write_yet after w0 r.2
  ∨ exists combined_gdf w1,
      rows combined_gdf ≠ [] ∧ no_write_yet after w0 w1
      ∧ r = write_outputs combined_gdf w1.

(** A statement all of whose events satisfy [P]. *)
Definition emits (P : Event -> Prop) {A} (m : M A) : Prop :=
  forall w, exists evs, trace (m w).2 = trace w ++ evs ∧ Forall P evs.

End RunMore.

(** * Properties *)

(** ** Tables *)

Section TableFacts.

Lemma dict_get_reindex (cols : list string) (r : Row) (c : string) :
  dict_get c (reindex cols r)
  = if bool_decide (c ∈ cols) then Some (cell r c) else None.
Proof.
  unfold reindex. induction cols as [|k cols IH]; [done|].
  rewrite fmap_cons. cbn [dict_get].
  - destruct (decide (k = c)) as [->|Hne].
    + by rewrite bool_decide_eq_true_2 by apply list_elem_of_here.
    + rewrite IH. apply (f_equal (fun b : bool => if b then _ else _)).
      apply bool_decide_ext. rewrite elem_of_cons. naive_solver.
Qed.

Lemma cell_reindex (cols : list string) (r : Row) (c : string) :
  c ∈ cols -> cell (reindex cols r) c = cell r c.
Proof.
  intros Hc. unfold cell at 1. rewrite dict_get_reindex.
  by rewrite bool_decide_eq_true_2.
Qed.

Lemma cell_reindex_missing (cols : list string) (r : Row) (c : string) :
  c ∉ cols -> cell (reindex cols r) c = VNaN.
Proof.
  intros Hc. unfold cell at 1. rewrite dict_get_reindex.
  by rewrite bool_decide_eq_false_2.
Qed.

Lemma elem_of_add_column_names (cols ks : list string) (k : string) :
  k ∈ add_column_names cols ks <-> k ∈ cols ∨ k ∈ ks.
Proof.
  unfold add_column_names. revert cols.
  induction ks as [|x ks IH]; intros cols; simpl.
  - rewrite elem_of_nil. naive_solver.
  - rewrite IH, elem_of_cons. case_bool_decide as Hx.
    + naive_solver.
    + rewrite elem_of_app, list_elem_of_singleton. naive_solver.
Qed.

(** *** [keep="last"] *)

Lemma keep_last_subseteq (c : string) (rs : list Row) (r : Row) :
  r ∈ keep_last c rs -> r ∈ rs.
Proof.
  induction rs as [|x rs IH]; simpl; [done|].
  case_bool_decide; rewrite ?elem_of_cons; naive_solver.
Qed.

Lemma keep_last_NoDup (c : string) (rs : list Row) :
  NoDup ((fun r => cell r c) <$> keep_last c rs).
Proof.
  induction rs as [|x rs IH]; simpl; [constructor|].
  case_bool_decide as Hx; [done|].
  rewrite fmap_cons. constructor; [|done].
  intros (r & Hr & Hin)%list_elem_of_fmap. apply Hx.
  apply Exists_exists. exists r. split; [|done].
  by eapply keep_last_subseteq.
Qed.

(** The rows kept under a key: the last row of the input with it. *)
Lemma keep_last_filter (c : string) (rs : list Row) (k : PyVal) :
  filter (fun r => cell r c = k) (keep_last c rs)
  = option_list (last (filter (fun r => cell r c = k) rs)).
Proof.
  induction rs as [|x rs IH]; simpl; [done|].
  case_bool_decide as Hx.
  - rewrite IH. destruct (decide (cell x c = k)) as [Hk|Hk].
    + rewrite filter_cons_True by done.
      apply Exists_exists in Hx as (r & Hr & Heq).
      assert (r ∈ filter (fun r => cell r c = k) rs) as Hin.
      { apply list_elem_of_filter. split; [congruence|done]. }
      destruct (filter (fun r => cell r c = k) rs) as [|y l]; [by apply elem_of_nil in Hin|].
      by rewrite last_cons_cons.
    + by rewrite filter_cons_False by done.
  - destruct (decide (cell x c = k)) as [Hk|Hk].
    + rewrite !filter_cons_True by done. rewrite IH.
      assert (filter (fun r => cell r c = k) rs = []) as ->; [|done].
      destruct (filter (fun r => cell r c = k) rs) as [|y l] eqn:Hf; [done|].
      assert (y ∈ filter (fun r => cell r c = k) rs) as [Hy1 Hy2]%list_elem_of_filter
        by (rewrite Hf; left).
      exfalso. apply Hx, Exists_exists. exists y. split; [done|congruence].
    + by rewrite !filter_cons_False by done.
Qed.

Lemma keep_last_keys (c : string) (rs : list Row) (k : PyVal) :
  k ∈ (fun r => cell r c) <$> keep_last c rs
  <-> k ∈ (fun r => cell r c) <$> rs.
Proof.
  split.
  - intros (r & -> & Hr)%list_elem_of_fmap. apply list_elem_of_fmap.
    exists r. split; [done|]. by eapply keep_last_subseteq.
  - induction rs as [|x rs IH]; cbn [keep_last]; [done|].
    rewrite fmap_cons, elem_of_cons. intros [->|Hin].
    + case_bool_decide as Hx.
      * apply IH. apply Exists_exists in Hx as (r & Hr & Heq).
        apply list_elem_of_fmap. by exists r.
      * rewrite fmap_cons. apply list_elem_of_here.
    + case_bool_decide; [by apply IH|].
      rewrite fmap_cons. apply list_elem_of_further. by apply IH.
Qed.

End TableFacts.

(** ** Merge with the existing table (lines 170-179) *)

Section MergeFacts.

Lemma filter_key_reindex (cols : list string) (c : string) (k : PyVal)
    (rs : list Row) :
  c ∈ cols ->
  filter (fun r => cell r c = k) (reindex cols <$> rs)
  = reindex cols <$> filter (fun r => cell r c = k) rs.
Proof.
  intros Hc. induction rs as [|r rs IH]; [done|].
  rewrite fmap_cons. destruct (decide (cell r c = k)) as [Hk|Hk].
  - rewrite !filter_cons_True, fmap_cons, IH; rewrite ?cell_reindex; done.
  - rewrite !filter_cons_False, IH; rewrite ?cell_reindex; done.
Qed.

Lemma column_reindex (cols : list string) (c : string) (rs : list Row) :
  c ∈ cols ->
  (fun r => cell r c) <$> (reindex cols <$> rs) = (fun r => cell r c) <$> rs.
Proof.
  intros Hc. rewrite <- list_fmap_compose. apply list_fmap_ext.
  intros _ r _. simpl. by apply cell_reindex.
Qed.

Lemma id_in_concat (existing new_gdf : DataFrame) :
  "id" ∈ columns existing -> "id" ∈ columns (concat existing new_gdf).
Proof. intros H. apply elem_of_add_column_names. by left. Qed.

(** With a non-empty existing table that has an id column, the merge is
    the concatenation with the later row of each id kept. *)
Lemma merge_unfold (existing new_gdf : DataFrame) :
  rows existing ≠ [] -> "id" ∈ columns existing ->
  merge existing new_gdf
  = Ok (mkDF (columns (concat existing new_gdf))
             (keep_last "id" (rows (concat existing new_gdf)))).
Proof.
  intros Hlen Hid. unfold merge, drop_duplicates.
  rewrite !bool_decide_eq_true_2; auto using id_in_concat.
Qed.

Lemma column_merged (existing new_gdf : DataFrame) (i : PyVal) :
  "id" ∈ columns existing ->
  i ∈ (fun r => cell r "id") <$> keep_last "id" (rows (concat existing new_gdf))
  <-> i ∈ column existing "id" ∨ i ∈ column new_gdf "id".
Proof.
  intros Hid. rewrite keep_last_keys. cbn [concat rows].
  rewrite column_reindex by (by apply (id_in_concat existing new_gdf)).
  unfold column. by rewrite fmap_app, elem_of_app.
Qed.

End MergeFacts.


Example build_geodataframe_A :
  build_geodataframe (E := Demo.externals (Samples.one_page Samples.fetched_A))
    Samples.fetched_A = Ok Samples.new_gdf_A.
Proof. vm_compute. reflexivity. Qed.


(** Scenario A of the spec: two rows come out and activity 1 has the
    fetched kudos count. *)
Example merge_scenario_A :
  merge Samples.store_A Samples.new_gdf_A = Ok Samples.new_gdf_A.
Proof. vm_compute. reflexivity. Qed.


(** C5 as stated fails: the stored table of the sample has a row and no
    id column; the merged table is the fetched one, in which neither the
    id cell of the stored row nor its name is found. *)
Lemma merge_drops_records_without_id_column :
  Samples.old_ride ∈ rows Samples.store_without_id
  ∧ merge Samples.store_without_id Samples.new_gdf_A = Ok Samples.new_gdf_A
  ∧ (cell Samples.old_ride "id" ∉ column Samples.new_gdf_A "id")
  ∧ (cell Samples.old_ride "name" ∉ column Samples.new_gdf_A "name").
Proof.
  split; [left|]. split; [reflexivity|]. split; compute_done.
Qed.

(** C5 (as amended).  A row of an existing table that has an id column
    keeps its id in the merged table, whatever was fetched. *)
Theorem merge_keeps_stored_ids (existing new_gdf : DataFrame) (r : Row) :
  r ∈ rows existing -> "id" ∈ columns existing ->
  exists combined,
    merge existing new_gdf = Ok combined
    ∧ cell r "id" ∈ column combined "id".
Proof.
  intros Hr Hid.
  assert (rows existing ≠ []) as Hlen by (intros Hnil; rewrite Hnil in Hr; by apply elem_of_nil in Hr).
  eexists. split; [by apply merge_unfold|].
  unfold column; cbn [rows]. apply column_merged; [done|]. left.
  apply list_elem_of_fmap. by exists r.
Qed.

Lemma merge_keeps_stored_ids_witness :
  exists combined,
    merge Samples.store_A (mkDF ["geometry"] []) = Ok combined
    ∧ VInt 1 ∈ column combined "id".
Proof.
  apply (merge_keeps_stored_ids Samples.store_A (mkDF ["geometry"] [])
           (Samples.stored_row 1 "2024-01-01T08:00:00Z" "2024-01-01" 2024 1 0)).
  - left.
  - compute_done.
Defined.

(** C10.  A non-empty existing table without an id column is left out:
    the merged table is the newly fetched one as it is. *)
Theorem merge_without_id_column (existing new_gdf : DataFrame) :
  rows existing ≠ [] -> "id" ∉ columns existing ->
  merge existing new_gdf = Ok new_gdf.
Proof.
  intros Hlen Hid. unfold merge.
  by rewrite bool_decide_eq_true_2, bool_decide_eq_false_2.
Qed.

Lemma merge_without_id_column_witness :
  merge Samples.store_without_id Samples.new_gdf_twice = Ok Samples.new_gdf_twice.
Proof.
  apply (merge_without_id_column Samples.store_without_id Samples.new_gdf_twice).
  - done.
  - compute_done.
Defined.

(** ** The lower time bound (lines 132-148) *)

Section CutoffFacts.
Context `{E : Externals}.

Lemma series_max_elem (dt : list (option Z)) (b : Z) :
  series_max dt = Some b -> Some b ∈ dt.
Proof.
  revert b. induction dt as [|d dt IH]; intros b; simpl; [done|].
  destruct d as [a|]; [|intros; right; by apply IH].
  destruct (series_max dt) as [c|] eqn:Hc.
  - intros [= <-]. destruct (Z.max_spec a c) as [[_ ->]|[_ ->]].
    + right. by apply IH.
    + left.
  - intros [= <-]. left.
Qed.

Lemma series_max_upper (dt : list (option Z)) (t : Z) :
  Some t ∈ dt -> exists b, series_max dt = Some b ∧ t <= b.
Proof.
  induction dt as [|d dt IH]; [by intros ?%elem_of_nil|].
  intros [<-|Hin]%elem_of_cons; simpl.
  - destruct (series_max dt) as [c|]; eexists; (split; [done|lia]).
  - destruct (IH Hin) as (b & -> & Hb).
    destruct d as [a|]; eexists; (split; [done|lia]).
Qed.

Lemma series_max_is_max (dt : list (option Z)) (m : Z) :
  Some m ∈ dt -> (forall t, Some t ∈ dt -> t <= m) -> series_max dt = Some m.
Proof.
  intros Hm Hub. destruct (series_max_upper dt m Hm) as (b & Hb & Hle).
  rewrite Hb. f_equal. pose proof (Hub b (series_max_elem dt b Hb)). lia.
Qed.

Lemma series_max_all_NaT (dt : list (option Z)) :
  (forall t, Some t ∉ dt) -> series_max dt = None.
Proof.
  intros Hnone. destruct (series_max dt) as [b|] eqn:Hb; [|done].
  by apply series_max_elem, Hnone in Hb.
Qed.

End CutoffFacts.

(** C2.  With no stored row the cutoff is unset; with stored rows whose
    date column parses, the cutoff is the greatest stored date, in epoch
    seconds, minus 86400. *)
Theorem after_ts_cutoff `{E : Externals} (existing : DataFrame) :
  (rows existing = [] -> compute_after_ts existing = None)
  ∧ (forall dt m,
       rows existing ≠ [] -> "date" ∈ columns existing ->
       to_datetime (column existing "date") = Some dt ->
       Some m ∈ dt -> (forall t, Some t ∈ dt -> t <= m) ->
       compute_after_ts existing = Some (m - 86400)).
Proof.
  split.
  - intros Hnil. unfold compute_after_ts. by rewrite bool_decide_eq_false_2 by tauto.
  - intros dt m Hlen Hdate Hdt Hm Hub. unfold compute_after_ts.
    rewrite !bool_decide_eq_true_2 by done.
    by rewrite Hdt, (series_max_is_max dt m Hm Hub).
Qed.

Lemma after_ts_cutoff_witness :
  compute_after_ts (E := Demo.externals Demo.no_activities) empty_gdf = None
  ∧ compute_after_ts (E := Demo.externals Demo.no_activities) Samples.store_dates
    = Some (1704412800 - 86400).
Proof.
  split.
  - by apply (after_ts_cutoff (E := Demo.externals Demo.no_activities) empty_gdf).
  - apply (proj2 (after_ts_cutoff (E := Demo.externals Demo.no_activities)
                    Samples.store_dates)
             [Some 1704067200; Some 1704412800; None] 1704412800).
    + done.
    + compute_done.
    + vm_compute. reflexivity.
    + compute_done.
    + intros t Ht. apply elem_of_cons in Ht as [[= ->]|Ht]; [lia|].
      apply elem_of_cons in Ht as [[= ->]|Ht]; [lia|].
      apply elem_of_cons in Ht as [[=]|Ht]. by apply elem_of_nil in Ht.
Defined.

(** Stored rows without a date column, or whose dates all fail to parse,
    leave the cutoff unset as well. *)
Lemma after_ts_without_dates `{E : Externals} (existing : DataFrame) :
  "date" ∉ columns existing
  ∨ to_datetime (column existing "date") = None
  ∨ (exists dt, to_datetime (column existing "date") = Some dt ∧ forall t, Some t ∉ dt) ->
  compute_after_ts existing = None.
Proof.
  intros H. unfold compute_after_ts. case_bool_decide; [|done].
  case_bool_decide; [|done].
  destruct H as [H|[->|(dt & -> & H)]]; [done|done|].
  by rewrite series_max_all_NaT.
Qed.

(** ** The whole run *)

Section RunFacts.
Context `{E : Externals}.

Lemma no_write_yet_refl (after : option Z) (w : World) : no_write_yet after w w.
Proof. split; [done|]. exists []. by rewrite app_nil_r. Qed.

Lemma no_write_yet_trans (after : option Z) (w0 w1 w2 : World) :
  no_write_yet after w0 w1 -> no_write_yet after w1 w2 -> no_write_yet after w0 w2.
Proof.
  intros [Hf1 (evs1 & Ht1 & Hp1)] [Hf2 (evs2 & Ht2 & Hp2)].
  split; [congruence|]. exists (evs1 ++ evs2).
  split; [by rewrite Ht2, Ht1, app_assoc|by apply Forall_app].
Qed.

Lemma quiet_retM (after : option Z) {A} (a : A) : quiet after (retM a).
Proof. intros w. apply no_write_yet_refl. Qed.

Lemma quiet_liftO (after : option Z) {A} (o : Outcome A) : quiet after (liftO o).
Proof. intros w. apply no_write_yet_refl. Qed.

Lemma quiet_emit (after : option Z) (ev : Event) :
  before_write after ev -> quiet after (emit ev).
Proof.
  intros Hev w. split; [done|]. exists [ev]. split; [done|].
  by apply Forall_singleton.
Qed.

Lemma quiet_bindM (after : option Z) {A B} (m : M A) (f : A -> M B) :
  quiet after m -> (forall a, quiet after (f a)) -> quiet after (bindM m f).
Proof.
  intros Hm Hf w. unfold bindM. specialize (Hm w).
  destruct (m w) as [[a|e|] w1]; [|done..].
  eapply no_write_yet_trans; [exact Hm|apply Hf].
Qed.

Lemma quiet_refresh_access_token (after : option Z) :
  quiet after refresh_access_token.
Proof.
  unfold refresh_access_token. apply quiet_bindM; [by apply quiet_emit|].
  intros _. case_bool_decide; [apply quiet_liftO|].
  repeat (apply quiet_bindM; [apply quiet_liftO|intros ?]). apply quiet_retM.
Qed.

Lemma quiet_strava_get_activities (access_token : PyVal) (page : Z)
    (after : option Z) :
  quiet after (strava_get_activities access_token page PER_PAGE after).
Proof.
  unfold strava_get_activities. apply quiet_bindM; [by apply quiet_emit|].
  intros _. case_bool_decide; [apply quiet_liftO|apply quiet_retM].
Qed.

Lemma quiet_pull_pages (fuel : nat) :
  forall (access_token : PyVal) (after : option Z) (page : Z) (new_rows : list Row),
    quiet after (pull_pages fuel access_token after page new_rows).
Proof.
  induction fuel as [|fuel IH]; intros access_token after page new_rows;
    cbn [pull_pages]; [apply quiet_liftO|].
  apply quiet_bindM; [apply quiet_strava_get_activities|]. intros items.
  case_bool_decide; [apply quiet_retM|].
  case_bool_decide; [apply quiet_retM|].
  apply quiet_bindM; [by apply quiet_emit|]. intros _. apply IH.
Qed.

Lemma load_existing_geojson_files (path : string) (w0 w1 : World) :
  files w1 = files w0 -> load_existing_geojson path w1 = load_existing_geojson path w0.
Proof. intros H. unfold load_existing_geojson. by rewrite H. Qed.


Lemma finished_bindM (after : option Z) (w0 w1 : World) {A B} (m : M A)
    (f : A -> M B) :
  no_write_yet after w0 w1 -> quiet after m ->
  (forall a w2, m w1 = (Ok a, w2) -> no_write_yet after w0 w2 ->
                finished after w0 (f a w2).2) ->
  finished after w0 (bindM m f w1).2.
Proof.
  intros H01 Hm Hf. unfold bindM. specialize (Hm w1).
  destruct (m w1) as [[a|e|] w2] eqn:Hmw;
    [|left; by eapply no_write_yet_trans..].
  apply (Hf a w2); [done|]. by eapply no_write_yet_trans.
Qed.

Lemma finished_write_outputs (after : option Z) (w0 w1 : World)
    (combined_gdf : DataFrame) :
  no_write_yet after w0 w1 -> finished after w0 (write_outputs combined_gdf w1).2.
Proof.
  intros H01. destruct (decide (rows combined_gdf = [])) as [Hnil|Hne].
  - left. eapply no_write_yet_trans; [exact H01|].
    unfold write_outputs. rewrite bool_decide_eq_false_2 by tauto.
    by apply quiet_emit.
  - right. by exists combined_gdf, w1.
Qed.

(** The whole run: until the files are written nothing is written, and
    every request asks for [PER_PAGE] items after the cutoff computed
    from the table found on disk; the files are written only at the end,
    and only for a table that has rows. *)
Lemma main_run (fuel : nat) (w : World) :
  finished (compute_after_ts (load_existing_geojson GEOJSON_PATH w)) w (main fuel w).2.
Proof.
  set (after := compute_after_ts (load_existing_geojson GEOJSON_PATH w)).
  unfold main.
  apply finished_bindM; [apply no_write_yet_refl|apply quiet_refresh_access_token|].
  intros [[access_token new_refresh] exp] w1 _ H1.
  apply finished_bindM; [done| |].
  { destruct (_ && _); [by apply quiet_emit|apply quiet_retM]. }
  intros _ w2 _ H2.
  apply finished_bindM; [done|intros w'; apply no_write_yet_refl|].
  intros existing w3 [= <- <-] H3.
  rewrite (load_existing_geojson_files GEOJSON_PATH w w2) by apply H2.
  fold after.
  apply finished_bindM; [done|by apply quiet_emit|]. intros _ w4 _ H4.
  apply finished_bindM; [done|apply quiet_pull_pages|]. intros new_rows w5 _ H5.
  apply finished_bindM; [done|by apply quiet_emit|]. intros _ w6 _ H6.
  apply finished_bindM; [done|apply quiet_liftO|]. intros new_gdf w7 _ H7.
  apply finished_bindM; [done|apply quiet_liftO|]. intros combined_gdf w8 _ H8.
  by apply finished_write_outputs.
Qed.

End RunFacts.

(** ** Loading the existing table (lines 66-73) *)

(** C7.  When the file is absent, or present and unreadable, the existing
    table is the empty table, the cutoff computed from it is unset, and
    every request of the run is made without a lower time bound. *)
Theorem load_existing_recovers `{E : Externals} (w : World) :
  files w !! GEOJSON_PATH = None
  ∨ (exists content, files w !! GEOJSON_PATH = Some content ∧ read_file content = None) ->
  load_existing_geojson GEOJSON_PATH w = empty_gdf
  ∧ rows (load_existing_geojson GEOJSON_PATH w) = []
  ∧ compute_after_ts (load_existing_geojson GEOJSON_PATH w) = None
  ∧ forall fuel, finished None w (main fuel w).2.
Proof.
  intros H.
  assert (load_existing_geojson GEOJSON_PATH w = empty_gdf) as Hload.
  { unfold load_existing_geojson. destruct H as [->|(content & -> & ->)]; done. }
  assert (compute_after_ts (load_existing_geojson GEOJSON_PATH w) = None) as Hafter.
  { rewrite Hload. unfold compute_after_ts. by rewrite bool_decide_eq_false_2 by tauto. }
  split; [done|]. split; [by rewrite Hload|]. split; [done|].
  intros fuel. rewrite <- Hafter. apply main_run.
Qed.

Lemma load_existing_recovers_witness :
  load_existing_geojson GEOJSON_PATH Samples.world_unreadable = empty_gdf
  ∧ rows (load_existing_geojson GEOJSON_PATH Samples.world_unreadable) = []
  ∧ compute_after_ts (E := Demo.externals Demo.no_activities)
      (load_existing_geojson GEOJSON_PATH Samples.world_unreadable) = None
  ∧ forall fuel,
      finished None Samples.world_unreadable
        (main (E := Demo.externals Demo.no_activities) fuel Samples.world_unreadable).2.
Proof.
  apply (load_existing_recovers (E := Demo.externals Demo.no_activities)
           Samples.world_unreadable).
  right. exists Demo.Garbage. split; reflexivity.
Defined.

(** ** The pagination loop (lines 151-162) *)

Section FetchFacts.
Context `{E : Externals}.

(** One successful request: the page comes back and the request is on
    the trace. *)
Lemma strava_get_activities_ok (access_token : PyVal) (page per_page : Z)
    (after : option Z) (w : World) :
  status_code (get_activities access_token page per_page after) = 200 ->
  strava_get_activities access_token page per_page after w
  = (Ok (body (get_activities access_token page per_page after)),
     mkWorld (files w) (trace w ++ [EvGet page per_page after])).
Proof.
  intros Hst. unfold strava_get_activities, bindM, emit, retM. simpl.
  by rewrite bool_decide_eq_false_2 by (rewrite Hst; tauto).
Qed.

(** A failed request aborts the run with the status and the body. *)
Lemma strava_get_activities_fails (access_token : PyVal) (page per_page : Z)
    (after : option Z) (w : World) :
  status_code (get_activities access_token page per_page after) ≠ 200 ->
  exists msg,
    strava_get_activities access_token page per_page after w
    = (Raise (RuntimeError msg),
       mkWorld (files w) (trace w ++ [EvGet page per_page after])).
Proof.
  intros Hst. unfold strava_get_activities, bindM, emit, raise, liftO. simpl.
  rewrite bool_decide_eq_true_2 by done. by eexists.
Qed.

Lemma pull_pages_run (access_token : PyVal) (after : option Z) (n : nat) :
  forall (fuel : nat) (p : Z) (acc : list Row) (w : World),
    (n < fuel)%nat ->
    (forall j : nat, (j < n)%nat ->
       status_code (get_activities access_token (p + Z.of_nat j) PER_PAGE after) = 200
       ∧ PER_PAGE <= Z.of_nat (length (body (get_activities access_token
                                               (p + Z.of_nat j) PER_PAGE after)))) ->
    status_code (get_activities access_token (p + Z.of_nat n) PER_PAGE after) = 200 ->
    Z.of_nat (length (body (get_activities access_token
                              (p + Z.of_nat n) PER_PAGE after))) < PER_PAGE ->
    pull_pages fuel access_token after p acc w
    = (Ok (acc ++ pages_items access_token after p n),
       mkWorld (files w) (trace w ++ pages_trace after p n)).
Proof.
  induction n as [|n IH]; intros fuel p acc w Hfuel Hfull Hst Hshort;
    (destruct fuel as [|fuel]; [lia|]); cbn [pull_pages pages_items pages_trace];
    unfold bindM.
  - rewrite Z.add_0_r in Hst, Hshort.
    rewrite strava_get_activities_ok by done.
    case_bool_decide as Hnil.
    + rewrite Hnil, app_nil_r. done.
    + rewrite bool_decide_eq_true_2 by done. done.
  - destruct (Hfull 0%nat ltac:(lia)) as [Hst0 Hlen0].
    rewrite Z.add_0_r in Hst0, Hlen0.
    rewrite strava_get_activities_ok by done.
    rewrite bool_decide_eq_false_2.
    2:{ intros Hnil. rewrite Hnil in Hlen0. unfold PER_PAGE in Hlen0. simpl in Hlen0. lia. }
    rewrite bool_decide_eq_false_2 by lia.
    unfold emit at 1. cbn [files trace].
    rewrite (IH fuel (p + 1) _ _).
    + cbn [files trace]. by rewrite <- !app_assoc.
    + lia.
    + intros j Hj. replace (p + 1 + Z.of_nat j) with (p + Z.of_nat (S j)) by lia.
      apply Hfull. lia.
    + by replace (p + 1 + Z.of_nat n) with (p + Z.of_nat (S n)) by lia.
    + by replace (p + 1 + Z.of_nat n) with (p + Z.of_nat (S n)) by lia.
Qed.

End FetchFacts.

(** C3.  When pages 1 to [n] answer with at least [PER_PAGE] items and
    page [n+1] answers with fewer (possibly none), the loop returns the
    items of pages 1 to [n+1] in order and has requested exactly these
    pages, with a pause between two requests. *)
Theorem pull_pages_stops_at_first_short_page `{E : Externals}
    (access_token : PyVal) (after : option Z) (n fuel : nat) (w : World) :
  (n < fuel)%nat ->
  (forall j : nat, (j < n)%nat ->
     status_code (get_activities access_token (1 + Z.of_nat j) PER_PAGE after) = 200
     ∧ PER_PAGE <= Z.of_nat (length (body (get_activities access_token
                                             (1 + Z.of_nat j) PER_PAGE after)))) ->
  status_code (get_activities access_token (1 + Z.of_nat n) PER_PAGE after) = 200 ->
  Z.of_nat (length (body (get_activities access_token
                            (1 + Z.of_nat n) PER_PAGE after))) < PER_PAGE ->
  pull_pages fuel access_token after 1 [] w
  = (Ok (pages_items access_token after 1 n),
     mkWorld (files w) (trace w ++ pages_trace after 1 n)).
Proof.
  intros Hfuel Hfull Hst Hshort.
  by rewrite (pull_pages_run access_token after n fuel 1 [] w).
Qed.

Lemma pull_pages_stops_at_first_short_page_witness :
  pull_pages (E := Demo.externals Samples.two_pages) 5 (VStr "access") None 1 []
    (Samples.world_empty Samples.two_pages)
  = (Ok (pages_items (E := Demo.externals Samples.two_pages) (VStr "access") None 1 1),
     mkWorld (files (Samples.world_empty Samples.two_pages))
       (trace (Samples.world_empty Samples.two_pages)
        ++ pages_trace None 1 1)).
Proof.
  apply (pull_pages_stops_at_first_short_page (E := Demo.externals Samples.two_pages)
           (VStr "access") None 1 5 (Samples.world_empty Samples.two_pages)).
  - lia.
  - intros j Hj. assert (j = 0%nat) as -> by lia. split; [reflexivity|].
    vm_compute. discriminate.
  - reflexivity.
  - reflexivity.
Defined.

(** The same run, spelled out: 201 items, pages 1 and 2 requested, page
    3 never asked for. *)
Example pull_pages_two_pages :
  pull_pages (E := Demo.externals Samples.two_pages) 5 (VStr "access") None 1 []
    (Samples.world_empty Samples.two_pages)
  = (Ok (replicate 200 (Samples.activity 1 "2024-01-01T08:00:00Z" 0)
         ++ [Samples.activity 2 "2024-01-02T08:00:00Z" 0]),
     mkWorld ∅ [EvGet 1 200 None; EvSleep; EvGet 2 200 None]).
Proof.
  rewrite (pull_pages_run (E := Demo.externals Samples.two_pages)
             (VStr "access") None 1 5 1 [] (Samples.world_empty Samples.two_pages)).
  - reflexivity.
  - lia.
  - intros j Hj. assert (j = 0%nat) as -> by lia. split; [reflexivity|].
    vm_compute. discriminate.
  - reflexivity.
  - reflexivity.
Qed.

(** A full page followed by an empty page: the empty page adds nothing
    and ends the loop. *)
Example pull_pages_empty_last_page :
  pull_pages (E := Demo.externals
                     (Samples.one_page (replicate 200 (Samples.activity 1 "2024-01-01T08:00:00Z" 0))))
    5 (VStr "access") None 1 [] (Samples.world_empty _)
  = (Ok (replicate 200 (Samples.activity 1 "2024-01-01T08:00:00Z" 0) ++ []),
     mkWorld ∅ [EvGet 1 200 None; EvSleep; EvGet 2 200 None]).
Proof.
  rewrite (pull_pages_run (E := Demo.externals
                     (Samples.one_page (replicate 200 (Samples.activity 1 "2024-01-01T08:00:00Z" 0))))
             (VStr "access") None 1 5 1 [] (Samples.world_empty _)).
  - reflexivity.
  - lia.
  - intros j Hj. assert (j = 0%nat) as -> by lia. split; [reflexivity|].
    vm_compute. discriminate.
  - reflexivity.
  - reflexivity.
Qed.

(** ** Writing the files (lines 182-202) *)

(** C6.  With no row to write, the files are left as they were and the
    only thing done is to print one line; with rows, the GeoJSON file and
    the shapefile are both written. *)
Theorem write_outputs_effect `{E : Externals} (combined_gdf : DataFrame) (w : World) :
  (rows combined_gdf = [] ->
   write_outputs combined_gdf w
   = (Ok tt, mkWorld (files w) (trace w ++ [EvPrint "[info] nothing to update"])))
  ∧ (rows combined_gdf ≠ [] ->
     exists w',
       write_outputs combined_gdf w = (Ok tt, w')
       ∧ files w' !! GEOJSON_PATH = Some (to_file_geojson combined_gdf)
       ∧ files w' !! "docs/data/shapefile/activities.shp"
         = Some (to_file_shapefile (shapefile_safe combined_gdf))
       ∧ trace w'
         = trace w ++ [ EvWrite GEOJSON_PATH;
                        EvPrint "[ok] wrote docs/data/activities.geojson";
                        EvWrite "docs/data/shapefile/activities.shp";
                        EvPrint "[ok] wrote docs/data/shapefile/activities.shp (and companion files)" ]).
Proof.
  split; intros Hrows; unfold write_outputs.
  - by rewrite bool_decide_eq_false_2 by tauto.
  - rewrite bool_decide_eq_true_2 by done.
    eexists. split; [reflexivity|]. cbn [files trace].
    split; [|split].
    + rewrite lookup_insert_ne by done. apply lookup_insert_eq.
    + apply lookup_insert_eq.
    + by rewrite <- !app_assoc.
Qed.

(** ** Column normalisation (lines 76-110) *)

Section TidyFacts.
Context `{E : Externals}.

Lemma cell_row_set_eq (c : string) (v : PyVal) (r : Row) :
  cell (row_set c v r) c = v.
Proof.
  unfold cell. induction r as [|[k x] r IH]; simpl.
  - by rewrite decide_True.
  - destruct (decide (k = c)) as [->|Hne]; simpl.
    + by rewrite decide_True.
    + by rewrite decide_False.
Qed.

Lemma cell_row_set_ne (c c' : string) (v : PyVal) (r : Row) :
  c' ≠ c -> cell (row_set c v r) c' = cell r c'.
Proof.
  intros Hne. unfold cell. induction r as [|[k x] r IH]; simpl.
  - by rewrite decide_False.
  - destruct (decide (k = c)) as [->|Hkc]; simpl.
    + by rewrite !decide_False.
    + destruct (decide (k = c')); [done|apply IH].
Qed.

Lemma lookup_set_column (df : DataFrame) (c : string) (values : list PyVal)
    (i : nat) (r : Row) (v : PyVal) :
  rows df !! i = Some r -> values !! i = Some v ->
  rows (set_column df c values) !! i = Some (row_set c v r).
Proof.
  intros Hr Hv. unfold set_column. cbn [rows].
  by rewrite lookup_zip_with, Hr, Hv.
Qed.

Lemma lookup_column (df : DataFrame) (c : string) (i : nat) (r : Row) :
  rows df !! i = Some r -> column df c !! i = Some (cell r c).
Proof. intros Hr. unfold column. by rewrite list_lookup_fmap, Hr. Qed.

(** A row whose start date did not parse gets [nan] as year and month,
    and as date what [astype(str)] makes of a missing date. *)
Lemma expand_dates_NaT (slim : DataFrame) (dt : list (option Z)) (i : nat) (r : Row) :
  "start_date" ∈ columns slim ->
  to_datetime (column slim "start_date") = Some dt ->
  dt !! i = Some None ->
  rows slim !! i = Some r ->
  exists slim' r',
    expand_dates slim = Ok slim'
    ∧ rows slim' !! i = Some r'
    ∧ cell r' "date" = date_astype_str None
    ∧ cell r' "year" = VNaN ∧ cell r' "month" = VNaN.
Proof.
  intros Hcol Hdt Hi Hr. unfold expand_dates.
  rewrite bool_decide_eq_true_2 by done. rewrite Hdt.
  do 2 eexists. split; [done|]. split.
  - apply lookup_set_column; [|by rewrite list_lookup_fmap, Hi].
    apply lookup_set_column; [|by rewrite list_lookup_fmap, Hi].
    apply lookup_set_column; [done|by rewrite list_lookup_fmap, Hi].
  - simpl. split; [|split].
    + by rewrite (cell_row_set_ne "month"), (cell_row_set_ne "year"), cell_row_set_eq.
    + by rewrite (cell_row_set_ne "month"), cell_row_set_eq.
    + by rewrite cell_row_set_eq.
Qed.

(** The loop that turns lists and dicts into strings leaves every other
    cell as it is. *)
Lemma stringify_column_lookup (slim : DataFrame) (c : string) (i : nat) (r : Row) :
  rows slim !! i = Some r ->
  exists r',
    rows (stringify_column slim c) !! i = Some r'
    ∧ forall c', is_list_or_dict (cell r c') = false -> cell r' c' = cell r c'.
Proof.
  intros Hr. unfold stringify_column.
  destruct (decide (c = "map")); [by exists r|].
  destruct (rows slim) as [|first rest] eqn:Hrows; [by exists r|].
  destruct (is_list_or_dict (cell first c)); [|exists r; by rewrite Hrows].
  rewrite <- Hrows in Hr. eexists. split.
  - apply lookup_set_column; [done|].
    rewrite list_lookup_fmap. by erewrite lookup_column.
  - intros c' Hscalar. destruct (decide (c' = c)) as [->|Hne].
    + by rewrite cell_row_set_eq, Hscalar.
    + by rewrite cell_row_set_ne.
Qed.

Lemma foldl_stringify_column_lookup (cols : list string) :
  forall (slim : DataFrame) (i : nat) (r : Row),
    rows slim !! i = Some r ->
    exists r',
      rows (foldl stringify_column slim cols) !! i = Some r'
      ∧ forall c', is_list_or_dict (cell r c') = false -> cell r' c' = cell r c'.
Proof.
  induction cols as [|c cols IH]; intros slim i r Hr; [by exists r|].
  destruct (stringify_column_lookup slim c i r Hr) as (r1 & Hr1 & Hkeep1).
  destruct (IH _ i r1 Hr1) as (r2 & Hr2 & Hkeep2).
  exists r2. split; [done|]. intros c' Hscalar.
  rewrite Hkeep2, Hkeep1; [done|done|by rewrite Hkeep1].
Qed.

End TidyFacts.

(** C8.  For a row whose start date does not parse, the derived year and
    month are null ([nan]).  The derived date is what [astype(str)] makes
    of the missing date, so it is null exactly where the library keeps a
    missing value missing; where the library renders it as a string (as
    pandas before 3.0 does, with ["NaT"]) the date of that row is a string
    and not null, unlike the year and the month built from the same
    parsed column. *)
Theorem tidy_columns_unparsable_date `{E : Externals} (df : DataFrame)
    (dt : list (option Z)) (i : nat) :
  "start_date" ∈ columns df ->
  to_datetime (column df "start_date") = Some dt ->
  dt !! i = Some None ->
  exists slim r,
    tidy_columns df = Ok slim
    ∧ rows slim !! i = Some r
    ∧ isnull (cell r "year") = true
    ∧ isnull (cell r "month") = true
    ∧ cell r "date" = date_astype_str None
    ∧ (isnull (cell r "date") = true <-> NaT_astype_str = None)
    ∧ (forall s, NaT_astype_str = Some s ->
         cell r "date" = VStr s ∧ isnull (cell r "date") = false).
Proof.
  intros Hcol Hdt Hi. unfold tidy_columns.
  set (cols := filter (fun c => c ∈ columns df) wanted).
  assert ("start_date" ∈ cols) as Hin.
  { apply list_elem_of_filter. split; [done|compute_done]. }
  assert (is_Some (rows df !! i)) as [r0 Hr0].
  { apply lookup_lt_is_Some. apply to_datetime_length in Hdt.
    unfold column in Hdt. rewrite length_fmap in Hdt. rewrite <- Hdt.
    apply lookup_lt_is_Some. by eexists. }
  destruct (expand_dates_NaT (select_columns df cols) dt i (reindex cols r0))
    as (slim1 & r1 & -> & Hr1 & Hdate & Hyear & Hmonth).
  - done.
  - unfold column, select_columns. cbn [rows]. by rewrite column_reindex.
  - done.
  - unfold select_columns. cbn [rows]. by rewrite list_lookup_fmap, Hr0.
  - destruct (foldl_stringify_column_lookup (columns slim1) slim1 i r1 Hr1)
      as (r2 & Hr2 & Hkeep).
    assert (is_list_or_dict (date_astype_str None) = false) as Hscalar
      by (unfold date_astype_str; by destruct NaT_astype_str).
    exists (foldl stringify_column slim1 (columns slim1)), r2.
    split; [done|]. split; [done|].
    rewrite !Hkeep by (by rewrite ?Hdate, ?Hyear, ?Hmonth).
    rewrite Hdate, Hyear, Hmonth. unfold date_astype_str.
    split; [done|]. split; [done|]. split; [done|].
    destruct NaT_astype_str as [s0|]; (split; [|intros s; by intros [= <-]]).
    + split; intros; done.
    + done.
Qed.

Lemma tidy_columns_unparsable_date_witness :
  exists slim r,
    tidy_columns (E := Demo.externals Demo.no_activities)
      (DataFrame_of_records Samples.fetched_bad_date) = Ok slim
    ∧ rows slim !! 0%nat = Some r
    ∧ isnull (cell r "year") = true
    ∧ isnull (cell r "month") = true
    ∧ cell r "date" = date_astype_str (E := Demo.externals Demo.no_activities) None
    ∧ (isnull (cell r "date") = true
       <-> NaT_astype_str (Externals := Demo.externals Demo.no_activities) = None)
    ∧ (forall s, NaT_astype_str (Externals := Demo.externals Demo.no_activities) = Some s ->
         cell r "date" = VStr s ∧ isnull (cell r "date") = false).
Proof.
  apply (tidy_columns_unparsable_date (E := Demo.externals Demo.no_activities)
           (DataFrame_of_records Samples.fetched_bad_date) [None] 0).
  - compute_done.
  - reflexivity.
  - reflexivity.
Defined.

(** The sample with a start date that does not parse, run where a missing
    date becomes the string ["NaT"]: year and month are [nan], the date
    is that string, which is not null. *)
Lemma tidy_columns_date_of_NaT_is_not_null :
  to_datetime (Externals := Demo.externals Demo.no_activities)
    (column (DataFrame_of_records Samples.fetched_bad_date) "start_date") = Some [None]
  ∧ tidy_columns (E := Demo.externals Demo.no_activities)
      (DataFrame_of_records Samples.fetched_bad_date)
    = Ok (mkDF ["id"; "start_date"; "date"; "year"; "month"]
            [ [("id", VInt 9); ("start_date", VStr "yesterday");
               ("date", VStr "NaT"); ("year", VNaN); ("month", VNaN)] ])
  ∧ isnull (VStr "NaT") = false.
Proof. split; [reflexivity|]. split; [vm_compute; reflexivity|reflexivity]. Qed.

(** ** Geometry decoding (lines 54-63 and 113-122) *)

Section GeometryFacts.
Context `{E : Externals}.

(** No ["map"] column in the table: no geometry, no error. *)
Lemma decode_summary_polyline_no_map_column (activity : Row) :
  dict_get "map" activity = None -> decode_summary_polyline activity = Ok VNone.
Proof. intros H. unfold decode_summary_polyline. by rewrite H. Qed.

(** A map without a polyline, with a null one or with an empty one: no
    geometry, no error. *)
Lemma decode_summary_polyline_no_polyline (activity d : Row) :
  dict_get "map" activity = Some (VDict d) ->
  dict_get "summary_polyline" d = None
  ∨ dict_get "summary_polyline" d = Some VNone
  ∨ dict_get "summary_polyline" d = Some (VStr EmptyString) ->
  decode_summary_polyline activity = Ok VNone.
Proof.
  intros Hmap H. unfold decode_summary_polyline. rewrite Hmap. simpl.
  by destruct H as [->|[->| ->]].
Qed.

(** A polyline of fewer than two points: no geometry, no error. *)
Lemma decode_summary_polyline_short (activity d : Row) (s : string)
    (coords : list (Z * Z)) :
  dict_get "map" activity = Some (VDict d) ->
  dict_get "summary_polyline" d = Some (VStr s) ->
  Polyline.decode s = Ok coords -> (length coords < 2)%nat ->
  decode_summary_polyline activity = Ok VNone.
Proof.
  intros Hmap Hpoly Hdec Hlen. unfold decode_summary_polyline.
  rewrite Hmap. simpl. rewrite Hpoly. simpl.
  destruct (decide (s = EmptyString)) as [->|Hs]; [done|].
  rewrite bool_decide_eq_false_2 by done. simpl. rewrite Hdec. simpl.
  by rewrite bool_decide_eq_true_2.
Qed.

(** The cell under ["map"] is not a dict (the [nan] of a record that
    had no map, or a null): the lookup of the polyline raises. *)
Lemma decode_summary_polyline_map_not_dict (activity : Row) (v : PyVal) :
  dict_get "map" activity = Some v ->
  (forall d, v ≠ VDict d) ->
  decode_summary_polyline activity = Raise AttributeError.
Proof.
  intros Hmap Hv. unfold decode_summary_polyline. rewrite Hmap. simpl.
  destruct v; try done. by destruct (Hv kvs).
Qed.

Lemma cell_drop_key (r : Row) (c c' : string) :
  c' ≠ c -> cell (filter (fun kv => kv.1 ≠ c) r) c' = cell r c'.
Proof.
  intros Hne. unfold cell. f_equal.
  induction r as [|[k x] r IH]; [done|].
  destruct (decide (k = c)) as [->|Hk].
  - rewrite filter_cons_False by (simpl; tauto). simpl.
    by rewrite decide_False.
  - rewrite filter_cons_True by done. simpl. by rewrite IH.
Qed.

(** Every row that [build_geodataframe] returns has a valid line. *)
Lemma build_geodataframe_rows_have_geometry (records : list Row)
    (gdf : DataFrame) (r : Row) :
  build_geodataframe records = Ok gdf -> r ∈ rows gdf ->
  exists pts, cell r "geometry" = VLine pts ∧ is_valid pts = true.
Proof.
  unfold build_geodataframe.
  destruct (tidy_columns _) as [df| |]; simpl; [|done..].
  destruct (mapM _ _) as [geometry| |]; simpl; [|done..].
  intros [= <-] Hr.
  assert (exists r0, has_valid_geometry r0 = true
                     ∧ cell r "geometry" = cell r0 "geometry") as (r0 & Hv & ->).
  { case_bool_decide; cbn [rows drop_column] in Hr.
    - apply list_elem_of_fmap in Hr as (r0 & -> & Hr0).
      apply list_elem_of_filter in Hr0 as [Hv _].
      exists r0. split; [by apply Is_true_true|]. by apply cell_drop_key.
    - apply list_elem_of_filter in Hr as [Hv _].
      exists r. split; [by apply Is_true_true|done]. }
  unfold has_valid_geometry in Hv.
  destruct (cell r0 "geometry"); try done. by eexists.
Qed.

End GeometryFacts.

(** C4 fails on the code.  One fetched activity has a map and the next
    has no map field: the table then has a ["map"] column whose cell for
    the second activity is [nan], and decoding the geometries raises
    [AttributeError] instead of leaving that activity out. *)
Theorem build_geodataframe_missing_map_raises `{E : Externals} :
  build_geodataframe Samples.fetched_mixed = Raise AttributeError.
Proof. reflexivity. Qed.

(** When no fetched activity has a map field the table has no such
    column, and the activity is left out without an error. *)
Example build_geodataframe_no_map_at_all `{E : Externals} :
  build_geodataframe Samples.fetched_no_map = Ok (mkDF ["id"; "geometry"] []).
Proof. reflexivity. Qed.

(** The run on the mixed page: it aborts before anything is written. *)
Example main_missing_map_aborts :
  (main (E := Demo.externals (Samples.one_page Samples.fetched_mixed)) 5
     (Samples.world_empty _)).1 = Raise AttributeError
  ∧ map_to_list
      (files (main (E := Demo.externals (Samples.one_page Samples.fetched_mixed)) 5
                (Samples.world_empty _)).2) = [].
Proof. split; vm_compute; reflexivity. Qed.

(** ** The polyline codec *)

Section PolylineFacts.
Import Polyline.

Lemma land_1 (x : Z) : Z.land x 1 = x `mod` 2.
Proof. change 1 with (Z.ones 1). by rewrite Z.land_ones. Qed.

Lemma zigzag_unzigzag (n : Z) : 0 <= n -> zigzag (unzigzag n) = n.
Proof.
  intros Hn. unfold zigzag, unzigzag. rewrite land_1.
  rewrite Z.shiftr_div_pow2 by lia. change (2 ^ 1) with 2.
  pose proof (Z.div_mod n 2 ltac:(lia)) as Hdm.
  pose proof (Z.mod_pos_bound n 2 ltac:(lia)) as Hmod.
  destruct (decide (n `mod` 2 = 0)) as [Hpar|Hpar].
  - rewrite (bool_decide_eq_true_2 (n `mod` 2 = 0)) by done.
    rewrite Z.shiftl_mul_pow2 by lia. change (2 ^ 1) with 2.
    rewrite bool_decide_eq_true_2 by lia. lia.
  - rewrite (bool_decide_eq_false_2 (n `mod` 2 = 0)) by done.
    rewrite Z.shiftl_mul_pow2 by lia. change (2 ^ 1) with 2.
    unfold Z.lnot. rewrite bool_decide_eq_false_2 by lia. lia.
Qed.

Lemma land_low_high (r b sh : Z) :
  0 <= sh -> 0 <= r < 2 ^ sh -> Z.land r (b * 2 ^ sh) = 0.
Proof.
  intros Hsh Hr. apply Z.bits_inj'. intros n Hn.
  rewrite Z.land_spec, Z.bits_0.
  destruct (decide (n < sh)) as [Hlt|Hge].
  - by rewrite Z.mul_pow2_bits_low, andb_false_r.
  - assert (Z.testbit r n = false) as ->; [|done].
    destruct (decide (r = 0)) as [->|Hr0]; [apply Z.bits_0|].
    apply Z.bits_above_log2; [lia|].
    assert (Z.log2 r < sh) by (apply Z.log2_lt_pow2; lia). lia.
Qed.

Lemma lor_low_high (r b sh : Z) :
  0 <= sh -> 0 <= r < 2 ^ sh -> Z.lor r (Z.shiftl b sh) = r + 2 ^ sh * b.
Proof.
  intros Hsh Hr. rewrite Z.shiftl_mul_pow2 by done.
  pose proof (Z.add_lor_land r (b * 2 ^ sh)) as H.
  rewrite land_low_high in H by done. lia.
Qed.

Lemma lor_32 (b : Z) : 0 <= b < 32 -> Z.lor 32 b = 32 + b.
Proof.
  intros Hb. rewrite Z.lor_comm.
  replace (Z.lor b 32) with (Z.lor b (Z.shiftl 1 5)) by reflexivity.
  rewrite lor_low_high by (change (2 ^ 5) with 32; lia).
  change (2 ^ 5) with 32. lia.
Qed.

Lemma land_31 (x : Z) : Z.land x 31 = x `mod` 32.
Proof. change 31 with (Z.ones 5). by rewrite Z.land_ones. Qed.

Lemma ord_chr (n : Z) : 0 <= n < 256 -> ord (chr n) = n.
Proof.
  intros Hn. unfold ord, chr. rewrite N_ascii_embedding; lia.
Qed.

Lemma chr_ord (c : ascii) : chr (ord c) = c.
Proof. unfold ord, chr. by rewrite N2Z.id, ascii_N_embedding. Qed.

Lemma ord_bound (c : ascii) : 0 <= ord c < 256.
Proof.
  unfold ord. pose proof (N_ascii_bounded c). lia.
Qed.

Lemma trans_go_valid (s : string) :
  forall (r sh : Z) (inv par : bool),
    valid_go s inv par = true -> inv = true ∨ s ≠ EmptyString ->
    0 <= sh -> 0 <= r < 2 ^ sh ->
    exists (N : Z) (chunk rest : string),
      s = chunk +:+ rest
      ∧ (String.length rest < String.length s)%nat
      ∧ trans_go s r sh = Ok (unzigzag (r + 2 ^ sh * N), rest)
      ∧ valid_go rest false (negb par) = true
      ∧ 0 <= N ∧ (inv = true -> 0 < N)
      ∧ forall fuel, (Z.to_nat (Z.log2 N) < fuel)%nat -> write_go fuel N = chunk.
Proof.
  induction s as [|c s IH]; intros r sh inv par Hvalid Hne Hsh Hr.
  - simpl in Hvalid. destruct Hne as [->|]; done.
  - cbn [valid_go trans_go] in *. cbv zeta in *.
    pose proof (ord_bound c) as Hc.
    set (byte := ord c - 63) in *.
    assert (0 < 2 ^ sh) as Hpow by (apply Z.pow_pos_nonneg; lia).
    destruct (decide (32 <= byte < 64)) as [Hcont|Hncont].
    + rewrite bool_decide_eq_true_2 in Hvalid by done.
      rewrite (bool_decide_eq_true_2 (32 <= byte)) by lia.
      rewrite land_31, lor_low_high by done.
      assert (byte `mod` 32 = byte - 32) as Hb.
      { symmetry. apply (Z.mod_unique byte 32 1); lia. }
      rewrite Hb.
      destruct (IH (r + 2 ^ sh * (byte - 32)) (sh + 5) true par Hvalid
                  (or_introl eq_refl))
        as (N' & chunk' & rest & -> & Hlen & Htrans & Hval & HN' & Hpos & Hwrite).
      { lia. }
      { rewrite Z.pow_add_r by lia. change (2 ^ 5) with 32. nia. }
      specialize (Hpos eq_refl).
      exists (byte - 32 + N' * 32), (String c chunk'), rest.
      split; [done|]. split; [simpl; lia|]. split.
      { rewrite Htrans. do 3 f_equal. rewrite Z.pow_add_r by lia.
        change (2 ^ 5) with 32. lia. }
      split; [done|]. split; [lia|]. split; [lia|].
      intros fuel Hfuel.
      assert (Z.log2 N' + 5 <= Z.log2 (byte - 32 + N' * 32)) as Hlog.
      { rewrite Z.add_comm. change 32 with (2 ^ 5) at 2.
        rewrite <- Z.log2_mul_pow2 by lia. apply Z.log2_le_mono.
        change (2 ^ 5) with 32. lia. }
      pose proof (Z.log2_nonneg N') as Hlog0.
      destruct fuel as [|fuel]; [lia|]. cbn [write_go].
      rewrite bool_decide_eq_true_2 by lia.
      rewrite land_31, Z.mod_add, Z.mod_small by lia.
      rewrite Z.shiftr_div_pow2 by lia. change (2 ^ 5) with 32.
      rewrite Z.div_add, Z.div_small, Z.add_0_l by lia.
      rewrite Hwrite by lia. f_equal.
      rewrite lor_32 by lia.
      replace (32 + (byte - 32) + 63) with (ord c) by (unfold byte; lia).
      apply chr_ord.
    + rewrite bool_decide_eq_false_2 in Hvalid by done.
      destruct (decide (0 <= byte < 32)) as [Hfin|Hnfin].
      2:{ by rewrite bool_decide_eq_false_2 in Hvalid by done. }
      rewrite bool_decide_eq_true_2 in Hvalid by done.
      apply andb_true_iff in Hvalid as [Hzero Hvalid].
      rewrite (bool_decide_eq_false_2 (32 <= byte)) by lia.
      rewrite land_31, lor_low_high, Z.mod_small by done.
      exists byte, (String c EmptyString), s.
      split; [done|]. split; [simpl; lia|]. split; [done|].
      split; [done|]. split; [lia|]. split.
      { intros ->. simpl in Hzero. apply negb_true_iff, bool_decide_eq_false in Hzero. lia. }
      intros fuel Hfuel. destruct fuel as [|fuel]; [lia|]. cbn [write_go].
      rewrite bool_decide_eq_false_2 by lia. f_equal.
      replace (byte + 63) with (ord c) by (unfold byte; lia). apply chr_ord.
Qed.


Lemma write_unzigzag (lat N : Z) (chunk : string) :
  0 <= N ->
  (forall fuel, (Z.to_nat (Z.log2 N) < fuel)%nat -> write_go fuel N = chunk) ->
  write (lat + unzigzag N) lat = chunk.
Proof.
  intros HN Hwrite. unfold write.
  replace (lat + unzigzag N - lat) with (unzigzag N) by lia.
  change (write_go (S (Z.to_nat (Z.log2 (zigzag (unzigzag N)))))
            (zigzag (unzigzag N)) = chunk).
  rewrite zigzag_unzigzag by done. apply Hwrite. lia.
Qed.

Lemma decode_go_valid (fuel : nat) :
  forall (s : string) (lat lng : Z) (coords : list (Z * Z)),
    valid_go s false false = true -> (String.length s <= fuel)%nat ->
    exists l,
      decode_go fuel s lat lng coords = Ok (coords ++ l)
      ∧ encode_rest (lat, lng) l = s.
Proof.
  induction fuel as [|fuel IH]; intros s lat lng coords Hvalid Hfuel.
  - destruct s; [|simpl in Hfuel; lia]. exists []. by rewrite app_nil_r.
  - destruct s as [|c s]; [exists []; by rewrite app_nil_r|].
    destruct (trans_go_valid (String c s) 0 0 false false Hvalid)
      as (N1 & chunk1 & rest1 & Hs1 & Hlen1 & Htrans1 & Hvalid1 & HN1 & _ & Hwrite1);
      [by right|done|done|].
    assert (rest1 ≠ EmptyString) as Hrest1 by (by intros ->).
    destruct (trans_go_valid rest1 0 0 false true Hvalid1)
      as (N2 & chunk2 & rest2 & Hs2 & Hlen2 & Htrans2 & Hvalid2 & HN2 & _ & Hwrite2);
      [by right|done|done|].
    replace (0 + 2 ^ 0 * N1) with N1 in Htrans1 by (change (2 ^ 0) with 1; lia).
    replace (0 + 2 ^ 0 * N2) with N2 in Htrans2 by (change (2 ^ 0) with 1; lia).
    destruct (IH rest2 (lat + unzigzag N1) (lng + unzigzag N2)
                (coords ++ [(lat + unzigzag N1, lng + unzigzag N2)]) Hvalid2)
      as (l & Hdec & Henc); [lia|].
    exists ((lat + unzigzag N1, lng + unzigzag N2) :: l). split.
    + cbn [decode_go]. unfold trans. rewrite Htrans1. simpl.
      rewrite Htrans2. simpl. rewrite Hdec. by rewrite <- app_assoc.
    + cbn [encode_rest fst snd]. rewrite Henc.
      rewrite (write_unzigzag lat N1 chunk1), (write_unzigzag lng N2 chunk2) by done.
      by rewrite Hs1, Hs2.
Qed.

Lemma decode_valid (s : string) :
  valid s = true ->
  exists coords,
    decode s = Ok coords ∧ (coords ≠ [] -> encode coords = Ok s).
Proof.
  intros Hvalid.
  destruct (decode_go_valid (String.length s) s 0 0 [] Hvalid) as (l & Hdec & Henc);
    [done|].
  exists l. split; [done|]. intros Hne. destruct l as [|first more]; [done|].
  unfold encode. by rewrite <- Henc.
Qed.


Lemma unzigzag_zigzag (x : Z) : 0 <= zigzag x ∧ unzigzag (zigzag x) = x.
Proof.
  unfold zigzag, unzigzag. rewrite Z.shiftl_mul_pow2 by lia. change (2 ^ 1) with 2.
  destruct (decide (0 <= x * 2)) as [Hx|Hx].
  - rewrite (bool_decide_eq_true_2 (0 <= x * 2)) by done.
    rewrite land_1, Z.mod_mul, Z.shiftr_div_pow2 by lia. change (2 ^ 1) with 2.
    rewrite bool_decide_eq_true_2 by done. rewrite Z.div_mul by lia. lia.
  - rewrite (bool_decide_eq_false_2 (0 <= x * 2)) by done.
    rewrite land_1, Z.shiftr_div_pow2 by lia. change (2 ^ 1) with 2.
    unfold Z.lnot.
    replace (Z.pred (- (x * 2))) with (1 + (- x - 1) * 2) by lia.
    rewrite Z.mod_add, Z.div_add by lia.
    change (1 `mod` 2) with 1. change (1 `div` 2) with 0.
    rewrite bool_decide_eq_false_2 by lia. lia.
Qed.

Lemma append_String (c : ascii) (a b : string) :
  String c a +:+ b = String c (a +:+ b).
Proof. reflexivity. Qed.

Lemma append_length (a b : string) :
  String.length (a +:+ b) = (String.length a + String.length b)%nat.
Proof. induction a as [|c a IH]; simpl; [done|by rewrite IH]. Qed.

(** What [_write] emits for [N] is read back as [N], and is valid. *)
Lemma write_go_read_back (fuel : nat) :
  forall (N r sh : Z) (inv par : bool) (rest : string),
    0 <= N -> (inv = true -> 0 < N) -> (Z.to_nat (Z.log2 N) < fuel)%nat ->
    0 <= sh -> 0 <= r < 2 ^ sh ->
    trans_go (write_go fuel N +:+ rest) r sh = Ok (unzigzag (r + 2 ^ sh * N), rest)
    ∧ valid_go (write_go fuel N +:+ rest) inv par = valid_go rest false (negb par)
    ∧ (0 < String.length (write_go fuel N))%nat.
Proof.
  induction fuel as [|fuel IH]; intros N r sh inv par rest HN Hinv Hfuel Hsh Hr;
    [lia|].
  assert (0 < 2 ^ sh) as Hpow by (apply Z.pow_pos_nonneg; lia).
  pose proof (Z.mod_pos_bound N 32 ltac:(lia)) as Hmod.
  pose proof (Z.div_mod N 32 ltac:(lia)) as Hdm.
  cbn [write_go]. destruct (decide (32 <= N)) as [Hbig|Hsmall].
  - rewrite bool_decide_eq_true_2 by done.
    rewrite land_31, lor_32 by done.
    rewrite Z.shiftr_div_pow2 by lia. change (2 ^ 5) with 32.
    rewrite append_String. cbn [trans_go valid_go String.length]. cbv zeta.
    rewrite ord_chr by lia.
    replace (32 + N `mod` 32 + 63 - 63) with (32 + N `mod` 32) by lia.
    rewrite (bool_decide_eq_true_2 (32 <= 32 + N `mod` 32)) by lia.
    rewrite (bool_decide_eq_true_2 (32 <= 32 + N `mod` 32 < 64)) by lia.
    rewrite land_31, lor_low_high by done.
    replace ((32 + N `mod` 32) `mod` 32) with (N `mod` 32)
      by (apply (Z.mod_unique (32 + N `mod` 32) 32 1 (N `mod` 32)); lia).
    assert (0 < N `div` 32) as Hdiv by lia.
    assert (Z.log2 (N `div` 32) + 5 <= Z.log2 N) as Hlog.
    { rewrite Z.add_comm. rewrite <- Z.log2_mul_pow2 by lia.
      apply Z.log2_le_mono. change (2 ^ 5) with 32. lia. }
    pose proof (Z.log2_nonneg (N `div` 32)) as Hlog0.
    destruct (IH (N `div` 32) (r + 2 ^ sh * N `mod` 32) (sh + 5) true par rest)
      as (Htrans & Hvalid & _).
    { lia. } { done. } { lia. } { lia. }
    { rewrite Z.pow_add_r by lia. change (2 ^ 5) with 32. nia. }
    rewrite Htrans, Hvalid. split; [|split; [done|lia]].
    do 3 f_equal. rewrite Z.pow_add_r by lia. change (2 ^ 5) with 32. lia.
  - rewrite bool_decide_eq_false_2 by done.
    rewrite append_String. cbn [trans_go valid_go String.length]. cbv zeta.
    rewrite ord_chr by lia. replace (N + 63 - 63) with N by lia.
    rewrite (bool_decide_eq_false_2 (32 <= N)) by done.
    rewrite (bool_decide_eq_false_2 (32 <= N < 64)) by lia.
    rewrite (bool_decide_eq_true_2 (0 <= N < 32)) by lia.
    rewrite land_31, Z.mod_small, lor_low_high by lia.
    split; [done|]. split; [|lia].
    assert (negb inv || negb (bool_decide (N = 0)) = true) as ->; [|done].
    destruct inv; [|done]. simpl. rewrite bool_decide_eq_false_2; [done|].
    specialize (Hinv eq_refl). lia.
Qed.

Lemma write_read_back (curr prev : Z) (par : bool) (rest : string) :
  trans (write curr prev +:+ rest) = Ok (curr - prev, rest)
  ∧ valid_go (write curr prev +:+ rest) false par = valid_go rest false (negb par)
  ∧ (0 < String.length (write curr prev))%nat.
Proof.
  destruct (unzigzag_zigzag (curr - prev)) as [Hpos Hback].
  destruct (write_go_read_back (S (Z.to_nat (Z.log2 (zigzag (curr - prev)))))
              (zigzag (curr - prev)) 0 0 false par rest)
    as (Htrans & Hvalid & Hlen); [done|done|lia|done|done|].
  change (2 ^ 0) with 1 in Htrans.
  replace (0 + 1 * zigzag (curr - prev)) with (zigzag (curr - prev)) in Htrans by lia.
  rewrite Hback in Htrans. done.
Qed.

Lemma decode_go_nonempty (fuel : nat) (s : string) (lat lng : Z)
    (coords : list (Z * Z)) :
  s ≠ EmptyString ->
  decode_go (S fuel) s lat lng coords
  = '(lat_change, value1) ← trans s;
    '(lng_change, value2) ← trans value1;
    decode_go fuel value2 (lat + lat_change) (lng + lng_change)
      (coords ++ [(lat + lat_change, lng + lng_change)]).
Proof. by destruct s. Qed.

Lemma decode_go_encode_rest (l : list (Z * Z)) :
  forall (fuel : nat) (lat lng : Z) (coords : list (Z * Z)),
    (String.length (encode_rest (lat, lng) l) <= fuel)%nat ->
    decode_go fuel (encode_rest (lat, lng) l) lat lng coords = Ok (coords ++ l)
    ∧ valid_go (encode_rest (lat, lng) l) false false = true.
Proof.
  induction l as [|[lat' lng'] l IH]; intros fuel lat lng coords Hfuel.
  - simpl. rewrite app_nil_r. by destruct fuel.
  - cbn [encode_rest fst snd] in *.
    set (rest := encode_rest (lat', lng') l) in *.
    destruct (write_read_back lat' lat false (write lng' lng +:+ rest))
      as (Ht1 & Hv1 & Hl1).
    destruct (write_read_back lng' lng true rest) as (Ht2 & Hv2 & Hl2).
    rewrite !append_length in Hfuel.
    destruct fuel as [|fuel]; [lia|].
    destruct (IH fuel lat' lng' (coords ++ [(lat', lng')])) as [Hdec Hvalid];
      [fold rest; lia|].
    split.
    + rewrite decode_go_nonempty.
      2:{ intros Hnil. apply (f_equal String.length) in Hnil.
          rewrite append_length in Hnil. simpl in Hnil. lia. }
      rewrite Ht1. simpl. rewrite Ht2. simpl.
      replace (lat + (lat' - lat)) with lat' by lia.
      replace (lng + (lng' - lng)) with lng' by lia.
      fold rest in Hdec. by rewrite Hdec, <- app_assoc.
    + rewrite Hv1. cbn [negb]. rewrite Hv2. cbn [negb]. exact Hvalid.
Qed.

(** What [encode] produces is valid and decodes to what was encoded. *)
Lemma encode_decode (l : list (Z * Z)) (s : string) :
  encode l = Ok s -> valid s = true ∧ decode s = Ok l.
Proof.
  destruct l as [|first more]; [done|]. intros [= <-].
  destruct (decode_go_encode_rest (first :: more)
              (String.length (encode_rest (0, 0) (first :: more))) 0 0 [])
    as [Hdec Hvalid]; [done|].
  split; [exact Hvalid|exact Hdec].
Qed.

End PolylineFacts.


(** C9.  A valid polyline string decodes, and when it has at least two
    points, encoding the decoded points gives the string back, and the
    geometry built for an activity that carries it is the line through
    the decoded points with each (latitude, longitude) pair turned into
    (longitude, latitude). *)
Theorem polyline_roundtrip_and_swap (s : string) :
  Polyline.valid s = true ->
  exists coords,
    Polyline.decode s = Ok coords
    ∧ ((2 <= length coords)%nat ->
       Polyline.encode coords = Ok s
       ∧ forall activity d : Row,
           dict_get "map" activity = Some (VDict d) ->
           dict_get "summary_polyline" d = Some (VStr s) ->
           decode_summary_polyline activity
           = Ok (VLine ((fun c => (c.2, c.1)) <$> coords))).
Proof.
  intros Hvalid. destruct (decode_valid s Hvalid) as (coords & Hdec & Henc).
  exists coords. split; [done|]. intros Hlen. split.
  - apply Henc. intros ->. simpl in Hlen. lia.
  - intros activity d Hmap Hpoly. unfold decode_summary_polyline.
    rewrite Hmap. simpl. rewrite Hpoly. simpl.
    assert (s ≠ EmptyString) as Hs.
    { intros ->. vm_compute in Hdec. injection Hdec as <-. simpl in Hlen. lia. }
    rewrite bool_decide_eq_false_2 by done. simpl. rewrite Hdec. simpl.
    by rewrite bool_decide_eq_false_2 by lia.
Qed.

Lemma polyline_roundtrip_and_swap_witness :
  exists coords,
    Polyline.decode Samples.P1 = Ok coords
    ∧ ((2 <= length coords)%nat ->
       Polyline.encode coords = Ok Samples.P1
       ∧ forall activity d : Row,
           dict_get "map" activity = Some (VDict d) ->
           dict_get "summary_polyline" d = Some (VStr Samples.P1) ->
           decode_summary_polyline activity
           = Ok (VLine ((fun c => (c.2, c.1)) <$> coords))).
Proof. apply (polyline_roundtrip_and_swap Samples.P1). reflexivity. Defined.

Example polyline_decode_doc :
  Polyline.decode "_p~iF~ps|U_ulLnnqC_mqNvxq`@"
  = Ok [(3850000, -12020000); (4070000, -12095000); (4325200, -12645300)].
Proof. vm_compute. reflexivity. Qed.

Example polyline_encode_doc :
  Polyline.encode [(3850000, -12020000); (4070000, -12095000); (4325200, -12645300)]
  = Ok "_p~iF~ps|U_ulLnnqC_mqNvxq`@".
Proof. vm_compute. reflexivity. Qed.

Example polyline_valid_doc : Polyline.valid "_p~iF~ps|U_ulLnnqC_mqNvxq`@" = true.
Proof. vm_compute. reflexivity. Qed.

Example decode_summary_polyline_P1 :
  decode_summary_polyline (Samples.activity 1 "2024-01-01T08:00:00Z" 0)
  = Ok Samples.line_P1.
Proof. vm_compute. reflexivity. Qed.

(** ** Runs of the main block on the samples *)

(** Scenario A of the spec: activity 1 is stored; the fetch returns it
    again with 5 kudos, and a new activity 2.  Both files are written
    with two rows, activity 1 carrying the fetched kudos count. *)
Example main_scenario_A :
  let run := main (E := Demo.externals (Samples.one_page Samples.fetched_A)) 5
               (Samples.world_with _ Samples.store_A) in
  run.1 = Ok tt
  ∧ files run.2 !! GEOJSON_PATH = Some (Demo.Table Samples.new_gdf_A)
  ∧ files run.2 !! "docs/data/shapefile/activities.shp"
    = Some (Demo.Table (shapefile_safe Samples.new_gdf_A))
  ∧ trace run.2
    = [ EvPost; EvPrint "[info] Incremental fetch using after=1703980800";
        EvGet 1 200 (Some 1703980800);
        EvPrint "[info] fetched 2 activities (raw) this run";
        EvWrite "docs/data/activities.geojson";
        EvPrint "[ok] wrote docs/data/activities.geojson";
        EvWrite "docs/data/shapefile/activities.shp";
        EvPrint "[ok] wrote docs/data/shapefile/activities.shp (and companion files)" ].
Proof. cbv zeta. repeat split; vm_compute; reflexivity. Qed.

(** Scenario D: nothing stored, and the only fetched activity has no
    geometry.  No file is written and the last line says so. *)
Example main_scenario_D :
  let run := main (E := Demo.externals (Samples.one_page Samples.fetched_no_map)) 5
               (Samples.world_empty _) in
  run.1 = Ok tt
  ∧ map_to_list (files run.2) = []
  ∧ trace run.2
    = [ EvPost; EvPrint "[info] Incremental fetch using after=None";
        EvGet 1 200 None;
        EvPrint "[info] fetched 1 activities (raw) this run";
        EvPrint "[info] nothing to update" ].
Proof. cbv zeta. repeat split; vm_compute; reflexivity. Qed.

(** A first run on which the API lists one activity twice: the file
    written holds it twice. *)
Example main_first_run_duplicates :
  let run := main (E := Demo.externals (Samples.one_page Samples.fetched_twice)) 5
               (Samples.world_empty _) in
  run.1 = Ok tt
  ∧ files run.2 !! GEOJSON_PATH = Some (Demo.Table Samples.new_gdf_twice).
Proof. cbv zeta. split; vm_compute; reflexivity. Qed.
(** ** Errors of the two endpoints *)

Section EndpointFacts.
Context `{E : Externals}.

Lemma bindM_ok {A B} (m : M A) (f : A -> M B) (w w' : World) (a : A) :
  m w = (Ok a, w') -> bindM m f w = f a w'.
Proof. intros H. unfold bindM. by rewrite H. Qed.

Lemma bindM_raise {A B} (m : M A) (f : A -> M B) (w w' : World) (e : Exn) :
  m w = (Raise e, w') -> bindM m f w = (Raise e, w').
Proof. intros H. unfold bindM. by rewrite H. Qed.

Lemma bindM_out_of_fuel {A B} (m : M A) (f : A -> M B) (w w' : World) :
  m w = (OutOfFuel, w') -> bindM m f w = (OutOfFuel, w').
Proof. intros H. unfold bindM. by rewrite H. Qed.

Lemma refresh_access_token_refused (w : World) :
  status_code post_token ≠ 200 ->
  refresh_access_token w
  = (Raise (RuntimeError ("Token refresh failed: " +:+ pretty (status_code post_token)
                          +:+ " " +:+ text post_token)),
     mkWorld (files w) (trace w ++ [EvPost])).
Proof.
  intros Hst. unfold refresh_access_token, bindM, emit, raise, liftO. simpl.
  by rewrite bool_decide_eq_true_2.
Qed.

End EndpointFacts.

(** X1.  When the token endpoint does not answer 200, the run stops with
    a [RuntimeError] that carries the status and the body; it has sent
    the token request and nothing else: no page is requested and no file
    is touched. *)
Theorem main_token_refused `{E : Externals} (fuel : nat) (w : World) :
  status_code post_token ≠ 200 ->
  main fuel w
  = (Raise (RuntimeError ("Token refresh failed: " +:+ pretty (status_code post_token)
                          +:+ " " +:+ text post_token)),
     mkWorld (files w) (trace w ++ [EvPost])).
Proof.
  intros Hst. unfold main.
  by rewrite (bindM_raise _ _ _ _ _ (refresh_access_token_refused w Hst)).
Qed.

Lemma main_token_refused_witness :
  main (E := Cases.externals_with_token Cases.token_refused Demo.no_activities) 5
    (@mkWorld (Cases.externals_with_token Cases.token_refused Demo.no_activities)
       (∅ : gmap string Demo.File) [])
  = (Raise (RuntimeError "Token refresh failed: 401 Unauthorized"),
     @mkWorld (Cases.externals_with_token Cases.token_refused Demo.no_activities)
       (∅ : gmap string Demo.File) [EvPost]).
Proof.
  apply (main_token_refused
           (E := Cases.externals_with_token Cases.token_refused Demo.no_activities) 5).
  vm_compute. discriminate.
Defined.

(** X2.  [refresh_access_token] returns three values exactly when the
    endpoint answers 200 with a body that has the keys access_token,
    refresh_token and expires_at; they are the values under these keys,
    in this order, and the only thing done is the token request. *)
Theorem refresh_access_token_returns `{E : Externals} (w w' : World)
    (access_token refresh_token expires_at : PyVal) :
  refresh_access_token w = (Ok (access_token, refresh_token, expires_at), w')
  <-> status_code post_token = 200
      ∧ dict_get "access_token" (body post_token) = Some access_token
      ∧ dict_get "refresh_token" (body post_token) = Some refresh_token
      ∧ dict_get "expires_at" (body post_token) = Some expires_at
      ∧ w' = mkWorld (files w) (trace w ++ [EvPost]).
Proof.
  unfold refresh_access_token, bindM, emit, raise, liftO, retM, subscript. simpl.
  case_bool_decide as Hst.
  - split; [done|]. intros [Hst' _]. done.
  - assert (status_code post_token = 200) as Hst' by (by destruct (decide (status_code post_token = 200))).
    destruct (dict_get "access_token" _) as [a|]; [|split; [done|naive_solver]].
    destruct (dict_get "refresh_token" _) as [r|]; [|split; [done|naive_solver]].
    destruct (dict_get "expires_at" _) as [e|]; [|split; [done|naive_solver]].
    split.
    + intros [= -> -> -> <-]. done.
    + intros (_ & [= ->] & [= ->] & [= ->] & ->). done.
Qed.

(** ** A run, with its outcome *)

Section RunOutcome.
Context `{E : Externals}.

Lemma ended_bindM (after : option Z) (w0 w1 : World) {A} (m : M A)
    (f : A -> M unit) :
  no_write_yet after w0 w1 -> quiet after m ->
  (forall a w2, m w1 = (Ok a, w2) -> no_write_yet after w0 w2 ->
                ended after w0 (f a w2)) ->
  ended after w0 (bindM m f w1).
Proof.
  intros H01 Hm Hf. unfold bindM. specialize (Hm w1).
  destruct (m w1) as [[a|e|] w2] eqn:Hmw;
    [|left; by eapply no_write_yet_trans..].
  apply (Hf a w2); [done|]. by eapply no_write_yet_trans.
Qed.

Lemma ended_write_outputs (after : option Z) (w0 w1 : World)
    (combined_gdf : DataFrame) :
  no_write_yet after w0 w1 -> ended after w0 (write_outputs combined_gdf w1).
Proof.
  intros H01. destruct (decide (rows combined_gdf = [])) as [Hnil|Hne].
  - left. eapply no_write_yet_trans; [exact H01|].
    unfold write_outputs. rewrite bool_decide_eq_false_2 by tauto.
    by apply quiet_emit.
  - right. by exists combined_gdf, w1.
Qed.

Lemma main_ended (fuel : nat) (w : World) :
  ended (compute_after_ts (load_existing_geojson GEOJSON_PATH w)) w (main fuel w).
Proof.
  set (after := compute_after_ts (load_existing_geojson GEOJSON_PATH w)).
  unfold main.
  apply ended_bindM; [apply no_write_yet_refl|apply quiet_refresh_access_token|].
  intros [[access_token new_refresh] exp] w1 _ H1.
  apply ended_bindM; [done| |].
  { destruct (_ && _); [by apply quiet_emit|apply quiet_retM]. }
  intros _ w2 _ H2.
  apply ended_bindM; [done|intros w'; apply no_write_yet_refl|].
  intros existing w3 [= <- <-] H3.
  rewrite (load_existing_geojson_files GEOJSON_PATH w w2) by apply H2.
  fold after.
  apply ended_bindM; [done|by apply quiet_emit|]. intros _ w4 _ H4.
  apply ended_bindM; [done|apply quiet_pull_pages|]. intros new_rows w5 _ H5.
  apply ended_bindM; [done|by apply quiet_emit|]. intros _ w6 _ H6.
  apply ended_bindM; [done|apply quiet_liftO|]. intros new_gdf w7 _ H7.
  apply ended_bindM; [done|apply quiet_liftO|]. intros combined_gdf w8 _ H8.
  by apply ended_write_outputs.
Qed.

Lemma write_outputs_rows (combined_gdf : DataFrame) (w : World) :
  rows combined_gdf ≠ [] ->
  write_outputs combined_gdf w
  = (Ok tt,
     mkWorld (<["docs/data/shapefile/activities.shp" :=
                  to_file_shapefile (shapefile_safe combined_gdf)]>
                (<[GEOJSON_PATH := to_file_geojson combined_gdf]> (files w)))
       (trace w ++ [ EvWrite GEOJSON_PATH;
                     EvPrint "[ok] wrote docs/data/activities.geojson";
                     EvWrite "docs/data/shapefile/activities.shp";
                     EvPrint "[ok] wrote docs/data/shapefile/activities.shp (and companion files)" ])).
Proof.
  intros Hrows. unfold write_outputs. rewrite bool_decide_eq_true_2 by done.
  unfold bindM, to_file, print, emit. cbn [files trace].
  by rewrite <- !app_assoc.
Qed.

Lemma before_write_get (after : option Z) (evs : list Event) (page pp : Z)
    (a : option Z) :
  Forall (before_write after) evs -> EvGet page pp a ∈ evs ->
  pp = PER_PAGE ∧ a = after.
Proof.
  intros Hall Hin. rewrite Forall_forall in Hall. exact (Hall _ Hin).
Qed.

Lemma before_write_no_write (after : option Z) (evs : list Event) (p : string) :
  Forall (before_write after) evs -> EvWrite p ∉ evs.
Proof.
  intros Hall Hin. rewrite Forall_forall in Hall. exact (Hall _ Hin).
Qed.

End RunOutcome.

(** X3.  In every run, each request for activities asks for [PER_PAGE]
    items and carries the cutoff computed from the table found on disk
    when the run started. *)
Theorem main_requests_use_cutoff `{E : Externals} (fuel : nat) (w : World) :
  exists evs,
    trace (main fuel w).2 = trace w ++ evs
    ∧ forall page per_page after,
        EvGet page per_page after ∈ evs ->
        per_page = PER_PAGE
        ∧ after = compute_after_ts (load_existing_geojson GEOJSON_PATH w).
Proof.
  destruct (main_ended fuel w) as [[_ (evs & Ht & Hall)]|(c & w1 & Hrows & Hq & Hr)].
  - exists evs. split; [done|]. intros page pp a. by apply before_write_get.
  - destruct Hq as [_ (evs & Ht & Hall)]. rewrite Hr, write_outputs_rows by done.
    cbn [snd trace]. rewrite Ht, <- app_assoc. eexists. split; [done|].
    intros page pp a [Hin|Hin]%elem_of_app; [by eapply before_write_get|].
    repeat (apply elem_of_cons in Hin as [[=]|Hin]). by apply elem_of_nil in Hin.
Qed.

(** X4.  Nothing is written before the write block.  A run either ends
    with the files as they were and no write attempted, or it comes to
    the write block with a merged table that has rows, the files still as
    they were and no write attempted so far, and ends as the write block
    ends on that table.  So a run that stops at the token refresh, at a
    page, while building the table or while merging, or that has nothing
    to write, leaves the files untouched. *)
Theorem main_writes_only_in_write_block `{E : Externals} (fuel : nat) (w : World) :
  (files (main fuel w).2 = files w
   ∧ exists evs, trace (main fuel w).2 = trace w ++ evs
                 ∧ forall path, EvWrite path ∉ evs)
  ∨ (exists combined_gdf w1,
       rows combined_gdf ≠ []
       ∧ files w1 = files w
       ∧ (exists evs, trace w1 = trace w ++ evs ∧ forall path, EvWrite path ∉ evs)
       ∧ main fuel w = write_outputs combined_gdf w1).
Proof.
  destruct (main_ended fuel w) as [[Hf (evs & Ht & Hall)]|(c & w1 & Hrows & Hq & Hr)].
  - left. split; [done|]. exists evs. split; [done|].
    intros path. by eapply before_write_no_write.
  - right. exists c, w1. destruct Hq as [Hf (evs & Ht & Hall)].
    split; [done|]. split; [done|]. split; [|done].
    exists evs. split; [done|]. intros path. by eapply before_write_no_write.
Qed.

(** ** The pagination loop: failures and full pages *)

Section FetchMore.
Context `{E : Externals}.

Lemma strava_get_activities_refused (access_token : PyVal) (page per_page : Z)
    (after : option Z) (w : World) :
  status_code (get_activities access_token page per_page after) ≠ 200 ->
  strava_get_activities access_token page per_page after w
  = (Raise (RuntimeError
              ("Fetch activities failed: "
               +:+ pretty (status_code (get_activities access_token page per_page after))
               +:+ " " +:+ text (get_activities access_token page per_page after))),
     mkWorld (files w) (trace w ++ [EvGet page per_page after])).
Proof.
  intros Hst. unfold strava_get_activities, bindM, emit, raise, liftO. simpl.
  by rewrite bool_decide_eq_true_2.
Qed.

Lemma pull_pages_fails (access_token : PyVal) (after : option Z) (n : nat) :
  forall (fuel : nat) (p : Z) (acc : list Row) (w : World),
    (n < fuel)%nat ->
    (forall j : nat, (j < n)%nat ->
       status_code (get_activities access_token (p + Z.of_nat j) PER_PAGE after) = 200
       ∧ PER_PAGE <= Z.of_nat (length (body (get_activities access_token
                                               (p + Z.of_nat j) PER_PAGE after)))) ->
    status_code (get_activities access_token (p + Z.of_nat n) PER_PAGE after) ≠ 200 ->
    pull_pages fuel access_token after p acc w
    = (Raise (RuntimeError
                ("Fetch activities failed: "
                 +:+ pretty (status_code (get_activities access_token
                                            (p + Z.of_nat n) PER_PAGE after))
                 +:+ " " +:+ text (get_activities access_token
                                     (p + Z.of_nat n) PER_PAGE after))),
       mkWorld (files w) (trace w ++ pages_trace after p n)).
Proof.
  induction n as [|n IH]; intros fuel p acc w Hfuel Hfull Hst;
    (destruct fuel as [|fuel]; [lia|]); cbn [pull_pages pages_trace].
  - rewrite Z.add_0_r in *.
    by rewrite (bindM_raise _ _ _ _ _ (strava_get_activities_refused _ _ _ _ w Hst)).
  - destruct (Hfull 0%nat ltac:(lia)) as [Hst0 Hlen0].
    rewrite Z.add_0_r in Hst0, Hlen0.
    rewrite (bindM_ok _ _ _ _ _ (strava_get_activities_ok _ _ _ _ w Hst0)).
    rewrite bool_decide_eq_false_2.
    2:{ intros Hnil. rewrite Hnil in Hlen0. unfold PER_PAGE in Hlen0. simpl in Hlen0. lia. }
    rewrite bool_decide_eq_false_2 by lia.
    unfold bindM at 1, emit at 1. cbn [files trace].
    replace (p + Z.of_nat (S n)) with (p + 1 + Z.of_nat n) by lia.
    rewrite (IH fuel (p + 1) _ _).
    + cbn [files trace]. by rewrite <- !app_assoc.
    + lia.
    + intros j Hj. replace (p + 1 + Z.of_nat j) with (p + Z.of_nat (S j)) by lia.
      apply Hfull. lia.
    + by replace (p + 1 + Z.of_nat n) with (p + Z.of_nat (S n)) by lia.
Qed.

Lemma pull_pages_full_pages (access_token : PyVal) (after : option Z) (fuel : nat) :
  forall (p : Z) (acc : list Row) (w : World),
    (forall q, p <= q ->
       status_code (get_activities access_token q PER_PAGE after) = 200
       ∧ PER_PAGE <= Z.of_nat (length (body (get_activities access_token
                                               q PER_PAGE after)))) ->
    (pull_pages fuel access_token after p acc w).1 = OutOfFuel.
Proof.
  induction fuel as [|fuel IH]; intros p acc w Hfull; cbn [pull_pages]; [done|].
  destruct (Hfull p ltac:(lia)) as [Hst Hlen].
  rewrite (bindM_ok _ _ _ _ _ (strava_get_activities_ok _ _ _ _ w Hst)).
  rewrite bool_decide_eq_false_2.
  2:{ intros Hnil. rewrite Hnil in Hlen. unfold PER_PAGE in Hlen. simpl in Hlen. lia. }
  rewrite bool_decide_eq_false_2 by lia.
  unfold bindM at 1, emit at 1. apply IH. intros q Hq. apply Hfull. lia.
Qed.

End FetchMore.

(** X5.  When pages 1 to [n] answer with at least [PER_PAGE] items and
    page [n+1] does not answer 200, the loop raises a [RuntimeError] that
    carries the status and the body of that answer; the items of the
    pages before are not returned, and no page after [n+1] is asked
    for. *)
Theorem pull_pages_failed_page `{E : Externals} (access_token : PyVal)
    (after : option Z) (n fuel : nat) (w : World) :
  (n < fuel)%nat ->
  (forall j : nat, (j < n)%nat ->
     status_code (get_activities access_token (1 + Z.of_nat j) PER_PAGE after) = 200
     ∧ PER_PAGE <= Z.of_nat (length (body (get_activities access_token
                                             (1 + Z.of_nat j) PER_PAGE after)))) ->
  status_code (get_activities access_token (1 + Z.of_nat n) PER_PAGE after) ≠ 200 ->
  pull_pages fuel access_token after 1 [] w
  = (Raise (RuntimeError
              ("Fetch activities failed: "
               +:+ pretty (status_code (get_activities access_token
                                          (1 + Z.of_nat n) PER_PAGE after))
               +:+ " " +:+ text (get_activities access_token
                                   (1 + Z.of_nat n) PER_PAGE after))),
     mkWorld (files w) (trace w ++ pages_trace after 1 n)).
Proof. intros Hfuel Hfull Hst. by apply pull_pages_fails. Qed.

Lemma pull_pages_failed_page_witness :
  pull_pages (E := Demo.externals Cases.second_page_fails) 5 (VStr "access") None 1 []
    (Samples.world_empty Cases.second_page_fails)
  = (Raise (RuntimeError "Fetch activities failed: 429 Rate Limit Exceeded"),
     mkWorld (files (Samples.world_empty Cases.second_page_fails))
       (trace (Samples.world_empty Cases.second_page_fails)
        ++ [EvGet 1 200 None; EvSleep; EvGet 2 200 None])).
Proof.
  apply (pull_pages_failed_page (E := Demo.externals Cases.second_page_fails)
           (VStr "access") None 1 5 (Samples.world_empty Cases.second_page_fails)).
  - lia.
  - intros j Hj. assert (j = 0%nat) as -> by lia. split; [reflexivity|].
    vm_compute. discriminate.
  - vm_compute. discriminate.
Defined.

(** X6.  The loop has no bound on the number of pages: when every page
    from page 1 on answers with at least [PER_PAGE] items, no number of
    rounds is enough for it to return. *)
Theorem pull_pages_needs_a_short_page `{E : Externals} (access_token : PyVal)
    (after : option Z) (fuel : nat) (w : World) :
  (forall q, 1 <= q ->
     status_code (get_activities access_token q PER_PAGE after) = 200
     ∧ PER_PAGE <= Z.of_nat (length (body (get_activities access_token
                                             q PER_PAGE after)))) ->
  (pull_pages fuel access_token after 1 [] w).1 = OutOfFuel.
Proof. apply pull_pages_full_pages. Qed.

Lemma pull_pages_needs_a_short_page_witness :
  (pull_pages (E := Demo.externals Cases.endless) 7 (VStr "access") None 1 []
     (Samples.world_empty Cases.endless)).1 = OutOfFuel.
Proof.
  apply (pull_pages_needs_a_short_page (E := Demo.externals Cases.endless)
           (VStr "access") None 7 (Samples.world_empty Cases.endless)).
  intros q Hq. split; [reflexivity|]. vm_compute. discriminate.
Defined.

(** ** What a run prints *)

Section TraceFacts.
Context `{E : Externals}.

Lemma emits_retM (P : Event -> Prop) {A} (a : A) : emits P (retM a).
Proof. intros w. exists []. by rewrite app_nil_r. Qed.

Lemma emits_liftO (P : Event -> Prop) {A} (o : Outcome A) : emits P (liftO o).
Proof. intros w. exists []. by rewrite app_nil_r. Qed.

Lemma emits_emit (P : Event -> Prop) (ev : Event) : P ev -> emits P (emit ev).
Proof. intros Hev w. exists [ev]. split; [done|]. by apply Forall_singleton. Qed.

Lemma emits_to_file (P : Event -> Prop) (path : string) (content : FileContent) :
  P (EvWrite path) -> emits P (to_file path content).
Proof. intros Hev w. exists [EvWrite path]. split; [done|]. by apply Forall_singleton. Qed.

Lemma emits_bindM (P : Event -> Prop) {A B} (m : M A) (f : A -> M B) :
  emits P m -> (forall a, emits P (f a)) -> emits P (bindM m f).
Proof.
  intros Hm Hf w. unfold bindM. destruct (Hm w) as (evs1 & Ht1 & Hp1).
  destruct (m w) as [[a|e|] w1]; [|by exists evs1..].
  destruct (Hf a w1) as (evs2 & Ht2 & Hp2). exists (evs1 ++ evs2).
  split; [|by apply Forall_app]. cbn [snd] in Ht1. by rewrite Ht2, Ht1, app_assoc.
Qed.

Lemma emits_pull_pages (P : Event -> Prop) (fuel : nat) :
  (forall page per_page after, P (EvGet page per_page after)) -> P EvSleep ->
  forall (access_token : PyVal) (after : option Z) (page : Z) (new_rows : list Row),
    emits P (pull_pages fuel access_token after page new_rows).
Proof.
  intros Hget Hsleep. induction fuel as [|fuel IH]; intros access_token after page new_rows;
    cbn [pull_pages]; [apply emits_liftO|].
  apply emits_bindM.
  - unfold strava_get_activities. apply emits_bindM; [by apply emits_emit|].
    intros _. case_bool_decide; [apply emits_liftO|apply emits_retM].
  - intros items. case_bool_decide; [apply emits_retM|].
    case_bool_decide; [apply emits_retM|].
    apply emits_bindM; [by apply emits_emit|]. intros _. apply IH.
Qed.

Lemma print_is_not_notice (prefix rest : string) :
  String.length prefix = 8%nat -> prefix ≠ "[info] S" ->
  EvPrint (prefix +:+ rest) ≠ EvPrint rotation_notice.
Proof.
  intros Hlen Hne [= H]. apply Hne.
  do 8 (destruct prefix as [|? prefix]; [done|]).
  destruct prefix; [|done]. unfold rotation_notice in H. cbn in H.
  by injection H as -> -> -> -> -> -> -> -> _.
Qed.

Lemma emits_write_outputs (combined_gdf : DataFrame) :
  emits (fun ev => ev ≠ EvPrint rotation_notice) (write_outputs combined_gdf).
Proof.
  unfold write_outputs. case_bool_decide.
  - apply emits_bindM; [by apply emits_to_file|]. intros _.
    apply emits_bindM; [apply emits_emit|].
    { apply (print_is_not_notice "[ok] wro" "te docs/data/activities.geojson"); done. }
    intros _. apply emits_bindM; [by apply emits_to_file|]. intros _.
    apply emits_emit.
    apply (print_is_not_notice "[ok] wro"
             "te docs/data/shapefile/activities.shp (and companion files)"); done.
  - apply emits_emit. apply (print_is_not_notice "[info] n" "othing to update"); done.
Qed.

Lemma refresh_access_token_trace (w w1 : World) (o : Outcome (PyVal * PyVal * PyVal)) :
  refresh_access_token w = (o, w1) -> trace w1 = trace w ++ [EvPost].
Proof.
  unfold refresh_access_token, bindM, emit, raise, liftO, retM. simpl.
  case_bool_decide; [by intros [= _ <-]|].
  destruct (subscript _ "access_token"); [|by intros [= _ <-]..].
  destruct (subscript _ "refresh_token"); [|by intros [= _ <-]..].
  destruct (subscript _ "expires_at"); by intros [= _ <-].
Qed.

End TraceFacts.

(** X7.  After a successful token refresh, the run prints the notice
    about a new refresh token exactly when the refresh token it received
    is not empty and differs from the one in the environment. *)
Theorem main_rotation_notice `{E : Externals} (fuel : nat) (w w1 : World)
    (access_token new_refresh exp : PyVal) :
  refresh_access_token w = (Ok (access_token, new_refresh, exp), w1) ->
  exists evs,
    trace (main fuel w).2 = trace w ++ evs
    ∧ (EvPrint rotation_notice ∈ evs
       <-> truthy new_refresh = true
           ∧ new_refresh ≠ getenv "STRAVA_REFRESH_TOKEN").
Proof.
  intros Hrefresh. pose proof (refresh_access_token_trace _ _ _ Hrefresh) as Ht1.
  unfold main. rewrite (bindM_ok _ _ _ _ _ Hrefresh).
  set (rest := fun _ : unit => bindM _ _).
  assert (forall u, emits (fun ev => ev ≠ EvPrint rotation_notice) (rest u)) as Hrest.
  { intros u. unfold rest.
    apply emits_bindM; [intros w'; exists []; by rewrite app_nil_r|]. intros existing.
    apply emits_bindM; [apply emits_emit|].
    { apply (print_is_not_notice "[info] I"
               ("ncremental fetch using after=" +:+ show_after (compute_after_ts existing)));
        done. }
    intros _. apply emits_bindM; [by apply emits_pull_pages|]. intros new_rows.
    apply emits_bindM; [apply emits_emit|].
    { apply (print_is_not_notice "[info] f"
               ("etched " +:+ pretty (length new_rows) +:+ " activities (raw) this run"));
        done. }
    intros _. apply emits_bindM; [apply emits_liftO|]. intros new_gdf.
    apply emits_bindM; [apply emits_liftO|]. intros combined_gdf.
    apply emits_write_outputs. }
  destruct (truthy new_refresh) eqn:Htruthy; cbn [andb].
  - case_bool_decide as Hsame; cbn [negb].
    + unfold bindM at 1, retM. destruct (Hrest tt w1) as (evs & Ht & Hall).
      exists (EvPost :: evs). split; [by rewrite Ht, Ht1, <- app_assoc|].
      split; [|naive_solver]. intros [[=]|Hin]%elem_of_cons.
      rewrite Forall_forall in Hall. by destruct (Hall _ Hin).
    + unfold bindM at 1, print, emit.
      destruct (Hrest tt (mkWorld (files w1) (trace w1 ++ [EvPrint rotation_notice])))
        as (evs & Ht & Hall).
      exists (EvPost :: EvPrint rotation_notice :: evs).
      split; [unfold rotation_notice in Ht; cbn [trace] in Ht;
              by rewrite Ht, Ht1, <- !app_assoc|].
      split; [done|]. intros _. right. left.
  - unfold bindM at 1, retM. destruct (Hrest tt w1) as (evs & Ht & Hall).
    exists (EvPost :: evs). split; [by rewrite Ht, Ht1, <- app_assoc|].
    split; [|naive_solver]. intros [[=]|Hin]%elem_of_cons.
    rewrite Forall_forall in Hall. by destruct (Hall _ Hin).
Qed.

Lemma main_rotation_notice_witness :
  exists evs,
    trace (main (E := Cases.externals_with_token Cases.token_rotated Demo.no_activities) 5
             (@mkWorld (Cases.externals_with_token Cases.token_rotated Demo.no_activities)
                (∅ : gmap string Demo.File) [])).2
    = [] ++ evs
    ∧ (EvPrint rotation_notice ∈ evs
       <-> truthy (VStr "rotated") = true
           ∧ VStr "rotated" ≠ Demo.environ "STRAVA_REFRESH_TOKEN").
Proof.
  apply (main_rotation_notice
           (E := Cases.externals_with_token Cases.token_rotated Demo.no_activities) 5
           (@mkWorld (Cases.externals_with_token Cases.token_rotated Demo.no_activities)
              (∅ : gmap string Demo.File) [])
           (@mkWorld (Cases.externals_with_token Cases.token_rotated Demo.no_activities)
              (∅ : gmap string Demo.File) [EvPost])
           (VStr "access") (VStr "rotated") (VInt 0)).
  reflexivity.
Defined.

(** ** Geometry decoding: every outcome *)

Section DecodeOutcomes.




End DecodeOutcomes.



(** X9.  No geometry and no error: for a row of a table without a map
    column, and for a row whose map is a dict with no polyline, a null
    polyline, an empty polyline, or a polyline that decodes to fewer
    than two points. *)
Theorem decode_summary_polyline_no_geometry (activity : Row) :
  dict_get "map" activity = None
  ∨ (exists d, dict_get "map" activity = Some (VDict d)
               ∧ (dict_get "summary_polyline" d = None
                  ∨ dict_get "summary_polyline" d = Some VNone
                  ∨ dict_get "summary_polyline" d = Some (VStr EmptyString)
                  ∨ exists s coords,
                      dict_get "summary_polyline" d = Some (VStr s)
                      ∧ Polyline.decode s = Ok coords ∧ (length coords < 2)%nat)) ->
  decode_summary_polyline activity = Ok VNone.
Proof.
  intros [Hmap|(d & Hmap & [H|[H|[H|(s & coords & Hpoly & Hdec & Hlen)]]])].
  - by apply decode_summary_polyline_no_map_column.
  - eapply decode_summary_polyline_no_polyline; eauto.
  - eapply decode_summary_polyline_no_polyline; eauto.
  - eapply decode_summary_polyline_no_polyline; eauto.
  - by eapply decode_summary_polyline_short.
Qed.

Lemma decode_summary_polyline_no_geometry_witness :
  decode_summary_polyline
    [("id", VInt 3); ("map", VDict [("summary_polyline", VStr "_p~iF~ps|U")])]
  = Ok VNone.
Proof.
  apply (decode_summary_polyline_no_geometry
           [("id", VInt 3); ("map", VDict [("summary_polyline", VStr "_p~iF~ps|U")])]).
  right. exists [("summary_polyline", VStr "_p~iF~ps|U")]. split; [reflexivity|].
  right. right. right. exists "_p~iF~ps|U", [(3850000, -12020000)].
  split; [reflexivity|]. split; [vm_compute; reflexivity|simpl; lia].
Defined.

(** X10.  When the cell under map is anything but a dict (the [nan] that
    fills a missing field, a null, a string), looking up the polyline
    raises [AttributeError]. *)
Theorem decode_summary_polyline_needs_dict (activity : Row) (v : PyVal) :
  dict_get "map" activity = Some v -> (forall d, v ≠ VDict d) ->
  decode_summary_polyline activity = Raise AttributeError.
Proof. apply decode_summary_polyline_map_not_dict. Qed.

Lemma decode_summary_polyline_needs_dict_witness :
  decode_summary_polyline [("id", VInt 2); ("map", VNone)] = Raise AttributeError.
Proof.
  apply (decode_summary_polyline_needs_dict [("id", VInt 2); ("map", VNone)] VNone).
  - reflexivity.
  - intros d. discriminate.
Defined.

(** X11.  An activity that carries the encoding of a list of at least two
    points gets the line through exactly these points, in the same
    order, each (latitude, longitude) pair turned into (longitude,
    latitude). *)
Theorem decode_summary_polyline_of_encoded (activity d : Row) (s : string)
    (coords : list (Z * Z)) :
  Polyline.encode coords = Ok s -> (2 <= length coords)%nat ->
  dict_get "map" activity = Some (VDict d) ->
  dict_get "summary_polyline" d = Some (VStr s) ->
  decode_summary_polyline activity = Ok (VLine ((fun c => (c.2, c.1)) <$> coords)).
Proof.
  intros Henc Hlen Hmap Hpoly. destruct (encode_decode coords s Henc) as [_ Hdec].
  unfold decode_summary_polyline. rewrite Hmap. simpl. rewrite Hpoly. simpl.
  assert (s ≠ EmptyString) as Hs.
  { intros ->. vm_compute in Hdec. injection Hdec as <-. simpl in Hlen. lia. }
  rewrite bool_decide_eq_false_2 by done. simpl. rewrite Hdec. simpl.
  by rewrite bool_decide_eq_false_2 by lia.
Qed.

Lemma decode_summary_polyline_of_encoded_witness :
  decode_summary_polyline (Samples.activity 1 "2024-01-01T08:00:00Z" 0)
  = Ok (VLine ((fun c => (c.2, c.1))
               <$> [(3850000, -12020000); (4070000, -12095000); (4325200, -12645300)])).
Proof.
  apply (decode_summary_polyline_of_encoded
           (Samples.activity 1 "2024-01-01T08:00:00Z" 0)
           [("id", VStr "a"); ("summary_polyline", VStr Samples.P1)] Samples.P1).
  - vm_compute. reflexivity.
  - simpl. lia.
  - reflexivity.
  - reflexivity.
Defined.

(** ** The shapefile column names (lines 188-197) *)

Section RenameFacts.

Lemma dict_get_None_keys (r : Row) (c : string) :
  dict_get c r = None <-> c ∉ r.*1.
Proof.
  induction r as [|[k x] r IH]; simpl.
  - split; [intros _; apply not_elem_of_nil|done].
  - rewrite not_elem_of_cons. destruct (decide (k = c)) as [->|Hne].
    + split; [done|]. intros [? _]. done.
    + rewrite IH. naive_solver.
Qed.

Lemma dict_get_rename_new (k v : string) (r : Row) :
  v ∉ r.*1 -> dict_get v (rename_row k v r) = dict_get k r.
Proof.
  unfold rename_row. induction r as [|[k0 x] r IH]; [done|].
  rewrite fmap_cons, not_elem_of_cons. intros [Hne Hnin]. cbn [fmap list_fmap dict_get fst snd].
  destruct (decide (k0 = k)) as [->|Hk].
  - by rewrite decide_True.
  - rewrite decide_False by done. by apply IH.
Qed.

Lemma dict_get_rename_other (k v c : string) (r : Row) :
  c ≠ k -> c ≠ v -> dict_get c (rename_row k v r) = dict_get c r.
Proof.
  intros Hk Hv. unfold rename_row. induction r as [|[k0 x] r IH]; [done|].
  cbn [fmap list_fmap dict_get fst snd].
  destruct (decide (k0 = k)) as [->|Hk0].
  - rewrite decide_False by done. rewrite decide_False by done. apply IH.
  - destruct (decide (k0 = c)); [done|apply IH].
Qed.

Lemma keys_rename_row (k v : string) (r : Row) :
  (rename_row k v r).*1 = (fun c => if decide (c = k) then v else c) <$> r.*1.
Proof.
  unfold rename_row. rewrite <- !list_fmap_compose. by apply list_fmap_ext.
Qed.

Lemma rename_if_present_spec (df : DataFrame) (k v : string) :
  well_formed df -> v ∉ columns df -> k ≠ v ->
  well_formed (rename_if_present df k v)
  ∧ (forall c, c ≠ v -> c ∉ columns df -> c ∉ columns (rename_if_present df k v))
  ∧ forall i r,
      rows df !! i = Some r ->
      exists r',
        rows (rename_if_present df k v) !! i = Some r'
        ∧ cell r' v = cell r k
        ∧ forall c, c ≠ k -> c ≠ v -> cell r' c = cell r c.
Proof.
  intros Hwf Hv Hkv. unfold rename_if_present. case_bool_decide as Hk.
  - split; [|split].
    + intros r' (r & -> & Hr)%list_elem_of_fmap. cbn [columns rename_column].
      fold (rename_row k v r). by rewrite keys_rename_row, (Hwf r Hr).
    + intros c Hcv Hc (c0 & Hc0 & Hin)%list_elem_of_fmap.
      destruct (decide (c0 = k)); congruence.
    + intros i r Hr. exists (rename_row k v r). split.
      { cbn [rows rename_column]. by rewrite list_lookup_fmap, Hr. }
      assert (r ∈ rows df) as Hin by (by eapply list_elem_of_lookup_2).
      split.
      * unfold cell. rewrite dict_get_rename_new; [done|]. by rewrite (Hwf r Hin).
      * intros c Hck Hcv. unfold cell. by rewrite dict_get_rename_other.
  - split; [done|]. split; [done|]. intros i r Hr. exists r. split; [done|].
    assert (r ∈ rows df) as Hin by (by eapply list_elem_of_lookup_2).
    split; [|done]. unfold cell.
    assert (dict_get v r = None) as -> by (apply dict_get_None_keys; by rewrite (Hwf r Hin)).
    assert (dict_get k r = None) as -> by (apply dict_get_None_keys; by rewrite (Hwf r Hin)).
    done.
Qed.

End RenameFacts.

(** X14.  The table written to the shapefile has the rows of the merged
    table, with the cells of start_date, average_speed and
    total_elevation_gain found under start_dt, avg_speed and elev_gain
    and every other cell under its own name, provided the merged table
    is well formed and has no column of the three short names yet. *)
Theorem shapefile_safe_cells (combined_gdf : DataFrame) (i : nat) (r : Row) :
  well_formed combined_gdf ->
  "start_dt" ∉ columns combined_gdf ->
  "avg_speed" ∉ columns combined_gdf ->
  "elev_gain" ∉ columns combined_gdf ->
  rows combined_gdf !! i = Some r ->
  exists r',
    rows (shapefile_safe combined_gdf) !! i = Some r'
    ∧ cell r' "start_dt" = cell r "start_date"
    ∧ cell r' "avg_speed" = cell r "average_speed"
    ∧ cell r' "elev_gain" = cell r "total_elevation_gain"
    ∧ forall c,
        c ∉ ["start_date"; "average_speed"; "total_elevation_gain";
             "start_dt"; "avg_speed"; "elev_gain"] ->
        cell r' c = cell r c.
Proof.
  intros Hwf H1 H2 H3 Hr.
  change (shapefile_safe combined_gdf)
    with (rename_if_present
            (rename_if_present
               (rename_if_present combined_gdf "start_date" "start_dt")
               "average_speed" "avg_speed")
            "total_elevation_gain" "elev_gain").
  destruct (rename_if_present_spec combined_gdf "start_date" "start_dt")
    as (Hwf1 & Hcols1 & Hrows1); [done..|].
  destruct (Hrows1 i r Hr) as (r1 & Hr1 & Hnew1 & Hold1).
  destruct (rename_if_present_spec
              (rename_if_present combined_gdf "start_date" "start_dt")
              "average_speed" "avg_speed")
    as (Hwf2 & Hcols2 & Hrows2); [done|by apply Hcols1|done|].
  destruct (Hrows2 i r1 Hr1) as (r2 & Hr2 & Hnew2 & Hold2).
  destruct (rename_if_present_spec
              (rename_if_present
                 (rename_if_present combined_gdf "start_date" "start_dt")
                 "average_speed" "avg_speed")
              "total_elevation_gain" "elev_gain")
    as (Hwf3 & Hcols3 & Hrows3); [done|apply Hcols2; [done|by apply Hcols1]|done|].
  destruct (Hrows3 i r2 Hr2) as (r3 & Hr3 & Hnew3 & Hold3).
  exists r3. split; [done|]. split; [|split; [|split]].
  - by rewrite Hold3, Hold2, Hnew1.
  - by rewrite Hold3, Hnew2, Hold1.
  - by rewrite Hnew3, Hold2, Hold1.
  - intros c Hc. rewrite !not_elem_of_cons in Hc.
    destruct Hc as (? & ? & ? & ? & ? & ? & _).
    by rewrite Hold3, Hold2, Hold1.
Qed.

Lemma shapefile_safe_cells_witness :
  exists r',
    rows (shapefile_safe Samples.store_A) !! 0%nat = Some r'
    ∧ cell r' "start_dt"
      = cell (Samples.stored_row 1 "2024-01-01T08:00:00Z" "2024-01-01" 2024 1 0) "start_date"
    ∧ cell r' "avg_speed"
      = cell (Samples.stored_row 1 "2024-01-01T08:00:00Z" "2024-01-01" 2024 1 0) "average_speed"
    ∧ cell r' "elev_gain"
      = cell (Samples.stored_row 1 "2024-01-01T08:00:00Z" "2024-01-01" 2024 1 0)
          "total_elevation_gain"
    ∧ forall c,
        c ∉ ["start_date"; "average_speed"; "total_elevation_gain";
             "start_dt"; "avg_speed"; "elev_gain"] ->
        cell r' c
        = cell (Samples.stored_row 1 "2024-01-01T08:00:00Z" "2024-01-01" 2024 1 0) c.
Proof.
  apply (shapefile_safe_cells Samples.store_A 0
           (Samples.stored_row 1 "2024-01-01T08:00:00Z" "2024-01-01" 2024 1 0)).
  - intros r Hr. apply list_elem_of_singleton in Hr as ->. reflexivity.
  - compute_done.
  - compute_done.
  - compute_done.
  - reflexivity.
Defined.

(** ** Column normalisation: shape, dates and nested values *)

Section TidyMore.
Context `{E : Externals}.

Lemma length_rows_set_column (df : DataFrame) (c : string) (values : list PyVal) :
  length values = length (rows df) ->
  length (rows (set_column df c values)) = length (rows df).
Proof. intros Hlen. unfold set_column. cbn [rows]. rewrite length_zip_with. lia. Qed.

Lemma columns_stringify_column (slim : DataFrame) (c : string) :
  c ∈ columns slim ->
  columns (stringify_column slim c) = columns slim
  ∧ length (rows (stringify_column slim c)) = length (rows slim).
Proof.
  intros Hc. unfold stringify_column.
  destruct (decide (c = "map")); [done|].
  destruct (rows slim) as [|first rest] eqn:Hrows; [by rewrite Hrows|].
  destruct (is_list_or_dict (cell first c)); [|by rewrite Hrows].
  split.
  - unfold set_column. cbn [columns]. by rewrite bool_decide_eq_true_2.
  - rewrite <- Hrows. apply length_rows_set_column.
    unfold column. by rewrite !length_fmap.
Qed.

Lemma columns_foldl_stringify_column (cols : list string) :
  forall slim : DataFrame,
    (forall c, c ∈ cols -> c ∈ columns slim) ->
    columns (foldl stringify_column slim cols) = columns slim
    ∧ length (rows (foldl stringify_column slim cols)) = length (rows slim).
Proof.
  induction cols as [|c cols IH]; intros slim Hin; [done|]. cbn [foldl].
  destruct (columns_stringify_column slim c) as [Hcols Hlen]; [apply Hin; left|].
  destruct (IH (stringify_column slim c)) as [Hcols' Hlen'].
  - intros c' Hc'. rewrite Hcols. apply Hin. by right.
  - by rewrite Hcols', Hlen', Hcols, Hlen.
Qed.

Lemma stringified_scalar (first : Row) (c : string) (x : PyVal) :
  is_list_or_dict x = false -> stringified first c x = x.
Proof.
  intros Hx. unfold stringified. destruct (decide (c = "map")); [done|].
  by rewrite Hx, andb_false_r.
Qed.

Lemma stringified_first (first first' : Row) (c : string) (x : PyVal) :
  cell first' c = cell first c -> stringified first' c x = stringified first c x.
Proof. intros H. unfold stringified. by rewrite H. Qed.

(** One round of the loop, cell by cell. *)
Lemma stringify_column_cells (slim : DataFrame) (c : string) (first : Row)
    (i : nat) (r : Row) :
  rows slim !! 0%nat = Some first -> rows slim !! i = Some r ->
  exists r',
    rows (stringify_column slim c) !! i = Some r'
    ∧ forall c', cell r' c'
                 = if decide (c' = c) then stringified first c (cell r c) else cell r c'.
Proof.
  intros Hfirst Hr. unfold stringify_column, stringified.
  destruct (decide (c = "map")) as [Hmap|Hmap].
  { exists r. split; [done|]. intros c'. destruct (decide (c' = c)); congruence. }
  destruct (rows slim) as [|first0 rest] eqn:Hrows; [done|].
  injection Hfirst as ->.
  destruct (is_list_or_dict (cell first c)) eqn:Hnested; cbn [andb].
  - rewrite <- Hrows in Hr. eexists. split.
    + apply lookup_set_column; [done|].
      rewrite list_lookup_fmap. by erewrite lookup_column.
    + intros c'. destruct (decide (c' = c)) as [->|Hne].
      * by rewrite cell_row_set_eq.
      * by rewrite cell_row_set_ne.
  - exists r. rewrite Hrows. split; [done|]. intros c'.
    destruct (decide (c' = c)); congruence.
Qed.

(** The whole loop, cell by cell: every column is visited once. *)
Lemma foldl_stringify_column_cells (cols : list string) :
  NoDup cols ->
  forall (slim : DataFrame) (first : Row) (i : nat) (r : Row),
    rows slim !! 0%nat = Some first -> rows slim !! i = Some r ->
    exists r',
      rows (foldl stringify_column slim cols) !! i = Some r'
      ∧ forall c, cell r' c
                  = if bool_decide (c ∈ cols) then stringified first c (cell r c)
                    else cell r c.
Proof.
  induction cols as [|c0 cols IH]; intros Hnd slim first i r Hfirst Hr.
  { exists r. split; [done|]. intros c. by rewrite bool_decide_eq_false_2 by apply not_elem_of_nil. }
  apply NoDup_cons in Hnd as [Hc0 Hnd]. cbn [foldl].
  destruct (stringify_column_cells slim c0 first 0 first Hfirst Hfirst)
    as (first1 & Hfirst1 & Hcells0).
  destruct (stringify_column_cells slim c0 first i r Hfirst Hr) as (r1 & Hr1 & Hcells1).
  destruct (IH Hnd _ first1 i r1 Hfirst1 Hr1) as (r' & Hr' & Hcells').
  exists r'. split; [done|]. intros c. rewrite Hcells'.
  destruct (decide (c = c0)) as [->|Hne].
  - rewrite bool_decide_eq_false_2 by done.
    rewrite bool_decide_eq_true_2 by left.
    rewrite Hcells1. by rewrite decide_True.
  - rewrite (Hcells1 c), decide_False by done.
    case_bool_decide as Hin.
    + rewrite bool_decide_eq_true_2 by (by right).
      apply stringified_first. rewrite (Hcells0 c). by rewrite decide_False.
    + rewrite bool_decide_eq_false_2; [done|].
      rewrite not_elem_of_cons. done.
Qed.

Lemma wanted_NoDup : NoDup wanted.
Proof. apply NoDup_ListNoDup. repeat constructor; simpl; intuition discriminate. Qed.

(** What [expand_dates] does to the columns and to a row. *)
Lemma expand_dates_shape (slim slim' : DataFrame) :
  expand_dates slim = Ok slim' ->
  "date" ∉ columns slim -> "year" ∉ columns slim -> "month" ∉ columns slim ->
  columns slim'
  = columns slim ++ (if bool_decide ("start_date" ∈ columns slim)
                     then ["date"; "year"; "month"] else [])
  ∧ length (rows slim') = length (rows slim).
Proof.
  unfold expand_dates. case_bool_decide as Hsd.
  2:{ intros [= <-] _ _ _. by rewrite app_nil_r. }
  destruct (to_datetime _) as [dt|] eqn:Hdt; [|done].
  intros [= <-] Hd Hy Hm. apply to_datetime_length in Hdt.
  unfold column in Hdt. rewrite length_fmap in Hdt. split.
  - unfold set_column. cbn [columns].
    rewrite (bool_decide_eq_false_2 ("date" ∈ columns slim)) by done.
    rewrite (bool_decide_eq_false_2 ("year" ∈ _)).
    2:{ rewrite elem_of_app, list_elem_of_singleton. intros [?|?]; done. }
    rewrite (bool_decide_eq_false_2 ("month" ∈ _)).
    2:{ rewrite !elem_of_app, !list_elem_of_singleton. intros [[?|?]|?]; done. }
    by rewrite <- !app_assoc.
  - set (s1 := set_column slim "date" (date_astype_str <$> dt)).
    set (s2 := set_column s1 "year" (year_of <$> dt)).
    assert (length (rows s1) = length (rows slim)) as H1.
    { apply length_rows_set_column. by rewrite length_fmap. }
    assert (length (rows s2) = length (rows slim)) as H2.
    { unfold s2. rewrite length_rows_set_column; [done|]. by rewrite length_fmap, H1. }
    rewrite length_rows_set_column; [done|]. by rewrite length_fmap, H2.
Qed.

Lemma expand_dates_lookup (slim slim' : DataFrame) (i : nat) (r : Row) :
  expand_dates slim = Ok slim' -> rows slim !! i = Some r ->
  exists r',
    rows slim' !! i = Some r'
    ∧ (forall c, c ∉ ["date"; "year"; "month"] -> cell r' c = cell r c)
    ∧ ("start_date" ∈ columns slim ->
       exists dt d,
         to_datetime (column slim "start_date") = Some dt ∧ dt !! i = Some d
         ∧ cell r' "date" = date_astype_str d
         ∧ cell r' "year" = year_of d
         ∧ cell r' "month" = month_of d).
Proof.
  unfold expand_dates. intros Hexp Hr. case_bool_decide as Hsd.
  2:{ injection Hexp as <-. exists r. done. }
  destruct (to_datetime _) as [dt|] eqn:Hdt; [|done]. injection Hexp as <-.
  assert (is_Some (dt !! i)) as [d Hd].
  { apply lookup_lt_is_Some. apply to_datetime_length in Hdt.
    unfold column in Hdt. rewrite length_fmap in Hdt. rewrite Hdt.
    apply lookup_lt_is_Some. by eexists. }
  eexists. split; [|split].
  - apply lookup_set_column; [|by rewrite list_lookup_fmap, Hd].
    apply lookup_set_column; [|by rewrite list_lookup_fmap, Hd].
    apply lookup_set_column; [done|by rewrite list_lookup_fmap, Hd].
  - intros c Hc. rewrite !not_elem_of_cons in Hc. destruct Hc as (? & ? & ? & _).
    by rewrite !cell_row_set_ne.
  - intros _. exists dt, d. split; [done|]. split; [done|]. simpl. split; [|split].
    + by rewrite (cell_row_set_ne "month"), (cell_row_set_ne "year"), cell_row_set_eq.
    + by rewrite (cell_row_set_ne "month"), cell_row_set_eq.
    + by rewrite cell_row_set_eq.
Qed.

Lemma not_wanted_filter (df : DataFrame) (c : string) :
  c ∉ wanted -> c ∉ filter (fun c => c ∈ columns df) wanted.
Proof. intros Hc [_ Hin]%list_elem_of_filter. done. Qed.

Lemma tidy_columns_unfold (df slim : DataFrame) :
  tidy_columns df = Ok slim ->
  exists slim1,
    expand_dates (select_columns df (filter (fun c => c ∈ columns df) wanted)) = Ok slim1
    ∧ slim = foldl stringify_column slim1 (columns slim1).
Proof.
  unfold tidy_columns. destruct (expand_dates _) as [slim1| |]; simpl; [|done..].
  intros [= <-]. by exists slim1.
Qed.

Lemma start_date_selected (df : DataFrame) :
  "start_date" ∈ columns (select_columns df (filter (fun c => c ∈ columns df) wanted))
  <-> "start_date" ∈ columns df.
Proof.
  cbn [columns select_columns]. rewrite list_elem_of_filter.
  split; [by intros [? _]|]. intros H. split; [done|compute_done].
Qed.

Lemma tidy_columns_columns (df slim : DataFrame) :
  tidy_columns df = Ok slim ->
  columns slim
  = filter (fun c => c ∈ columns df) wanted
    ++ (if bool_decide ("start_date" ∈ columns df) then ["date"; "year"; "month"] else [])
  ∧ length (rows slim) = length (rows df).
Proof.
  intros (slim1 & Hexp & ->)%tidy_columns_unfold.
  destruct (columns_foldl_stringify_column (columns slim1) slim1) as [-> ->]; [done|].
  destruct (expand_dates_shape _ _ Hexp) as [-> ->];
    [apply not_wanted_filter; compute_done..|].
  split.
  - cbn [columns select_columns]. f_equal.
    apply (f_equal (fun b : bool => if b then _ else _)).
    apply bool_decide_ext, (start_date_selected df).
  - cbn [rows select_columns]. by rewrite length_fmap.
Qed.

Lemma tidy_columns_NoDup (df slim : DataFrame) :
  tidy_columns df = Ok slim -> NoDup (columns slim).
Proof.
  intros Htidy. destruct (tidy_columns_columns df slim Htidy) as [-> _].
  apply NoDup_app. split; [apply NoDup_filter, wanted_NoDup|]. split.
  - intros c [_ Hc]%list_elem_of_filter Hin. case_bool_decide; [|by apply elem_of_nil in Hin].
    revert Hc. repeat (apply elem_of_cons in Hin as [->|Hin]; [compute_done|]).
    by apply elem_of_nil in Hin.
  - case_bool_decide; [|constructor]. apply NoDup_ListNoDup.
    repeat constructor; simpl; intuition discriminate.
Qed.

(** A row of the normalised table, from the row it comes from. *)
Lemma tidy_columns_lookup (df slim : DataFrame) (first : Row) (i : nat) (r : Row) :
  tidy_columns df = Ok slim ->
  rows df !! 0%nat = Some first -> rows df !! i = Some r ->
  exists r',
    rows slim !! i = Some r'
    ∧ (forall c, c ∈ wanted -> c ∈ columns df ->
                 cell r' c = stringified first c (cell r c))
    ∧ ("start_date" ∈ columns df ->
       exists dt d,
         to_datetime (column df "start_date") = Some dt ∧ dt !! i = Some d
         ∧ cell r' "date" = date_astype_str d
         ∧ cell r' "year" = year_of d
         ∧ cell r' "month" = month_of d).
Proof.
  intros Htidy Hfirst Hr.
  pose proof (tidy_columns_NoDup df slim Htidy) as Hnd.
  pose proof (tidy_columns_columns df slim Htidy) as [Hcols _].
  destruct (tidy_columns_unfold df slim Htidy) as (slim1 & Hexp & ->).
  set (cols := filter (fun c => c ∈ columns df) wanted) in *.
  assert (columns (foldl stringify_column slim1 (columns slim1)) = columns slim1) as Hsame.
  { by apply columns_foldl_stringify_column. }
  rewrite Hsame in Hnd, Hcols.
  assert (forall j x, rows df !! j = Some x ->
            rows (select_columns df cols) !! j = Some (reindex cols x)) as Hsel.
  { intros j x Hx. cbn [rows select_columns]. by rewrite list_lookup_fmap, Hx. }
  destruct (expand_dates_lookup _ _ 0 _ Hexp (Hsel _ _ Hfirst)) as (first1 & Hfirst1 & Hkeep0 & _).
  destruct (expand_dates_lookup _ _ i _ Hexp (Hsel _ _ Hr)) as (r1 & Hr1 & Hkeep1 & Hdates).
  destruct (foldl_stringify_column_cells (columns slim1) Hnd slim1 first1 i r1 Hfirst1 Hr1)
    as (r' & Hr' & Hcells).
  exists r'. split; [done|]. split.
  - intros c Hw Hc.
    assert (c ∈ cols) as Hcc by (by apply list_elem_of_filter).
    assert (c ∉ ["date"; "year"; "month"]) as Hnotdate.
    { intros Hin. revert Hw.
      repeat (apply elem_of_cons in Hin as [->|Hin]; [compute_done|]).
      by apply elem_of_nil in Hin. }
    rewrite Hcells, bool_decide_eq_true_2 by (rewrite Hcols, elem_of_app; by left).
    rewrite Hkeep1, cell_reindex by done.
    apply stringified_first. by rewrite Hkeep0, cell_reindex.
  - intros Hsd. destruct Hdates as (dt & d & Hdt & Hd & Hdate & Hyear & Hmonth).
    { by apply start_date_selected. }
    exists dt, d. split.
    { rewrite <- Hdt. f_equal. unfold column. cbn [rows select_columns].
      symmetry. apply column_reindex. by apply (start_date_selected df). }
    split; [done|].
    assert (forall c x, is_list_or_dict x = false ->
              (if bool_decide (c ∈ columns slim1) then stringified first1 c x else x) = x)
      as Hscalar.
    { intros c x Hx.
      destruct (bool_decide (c ∈ columns slim1)); [by apply stringified_scalar|done]. }
    rewrite !Hcells. rewrite Hdate, Hyear, Hmonth.
    rewrite !Hscalar
      by (destruct d; simpl; unfold date_astype_str; by destruct NaT_astype_str).
    done.
Qed.

End TidyMore.

(** X15.  When [tidy_columns] returns, the table has the allow-listed
    columns that the input has, in the order of the allow-list, followed
    by date, year and month when the input has a start_date column; it
    has as many rows as the input and no column twice. *)
Theorem tidy_columns_shape `{E : Externals} (df slim : DataFrame) :
  tidy_columns df = Ok slim ->
  columns slim
  = filter (fun c => c ∈ columns df) wanted
    ++ (if bool_decide ("start_date" ∈ columns df) then ["date"; "year"; "month"] else [])
  ∧ length (rows slim) = length (rows df)
  ∧ NoDup (columns slim).
Proof.
  intros Htidy. destruct (tidy_columns_columns df slim Htidy) as [Hcols Hlen].
  split; [done|]. split; [done|]. by eapply tidy_columns_NoDup.
Qed.

Lemma tidy_columns_shape_witness :
  columns Cases.tidy_A
  = filter (fun c => c ∈ columns (DataFrame_of_records Samples.fetched_A)) wanted
    ++ (if bool_decide ("start_date" ∈ columns (DataFrame_of_records Samples.fetched_A))
        then ["date"; "year"; "month"] else [])
  ∧ length (rows Cases.tidy_A) = length (rows (DataFrame_of_records Samples.fetched_A))
  ∧ NoDup (columns Cases.tidy_A).
Proof.
  apply (tidy_columns_shape (E := Demo.externals Demo.no_activities)
           (DataFrame_of_records Samples.fetched_A) Cases.tidy_A).
  vm_compute. reflexivity.
Defined.

(** X16.  In the normalised table the date, year and month of a row are
    derived from the parsed start date of that row: the calendar date as
    a string, the year and the month when it parsed; when it did not,
    [nan] for the year and the month and, for the date, what
    [astype(str)] makes of a missing date. *)
Theorem tidy_columns_dates `{E : Externals} (df slim : DataFrame) (i : nat) (r : Row) :
  tidy_columns df = Ok slim -> "start_date" ∈ columns df -> rows df !! i = Some r ->
  exists dt d r',
    to_datetime (column df "start_date") = Some dt ∧ dt !! i = Some d
    ∧ rows slim !! i = Some r'
    ∧ cell r' "date" = date_astype_str d
    ∧ cell r' "year" = year_of d
    ∧ cell r' "month" = month_of d.
Proof.
  intros Htidy Hsd Hr.
  assert (is_Some (rows df !! 0%nat)) as [first Hfirst].
  { apply lookup_lt_is_Some. apply lookup_lt_Some in Hr. lia. }
  destruct (tidy_columns_lookup df slim first i r Htidy Hfirst Hr)
    as (r' & Hr' & _ & Hdates).
  destruct (Hdates Hsd) as (dt & d & Hdt & Hd & H).
  by exists dt, d, r'.
Qed.

Lemma tidy_columns_dates_witness :
  exists dt d r',
    to_datetime (Externals := Demo.externals Demo.no_activities)
      (column (DataFrame_of_records Samples.fetched_A) "start_date") = Some dt
    ∧ dt !! 1%nat = Some d
    ∧ rows Cases.tidy_A !! 1%nat = Some r'
    ∧ cell r' "date" = date_astype_str (E := Demo.externals Demo.no_activities) d
    ∧ cell r' "year" = year_of (E := Demo.externals Demo.no_activities) d
    ∧ cell r' "month" = month_of (E := Demo.externals Demo.no_activities) d.
Proof.
  apply (tidy_columns_dates (E := Demo.externals Demo.no_activities)
           (DataFrame_of_records Samples.fetched_A) Cases.tidy_A 1
           (reindex ["id"; "name"; "start_date"; "kudos_count"; "map"]
              (Samples.activity 2 "2024-01-02T08:00:00Z" 0))).
  - vm_compute. reflexivity.
  - compute_done.
  - reflexivity.
Defined.

(** X17.  In the normalised table a cell of an allow-listed column is the
    fetched cell, except that a list or a dict is replaced by its JSON
    text when the first row of the table has a list or a dict in that
    column; the map column is never touched.  A nested value below a
    first row that has a plain value stays nested. *)
Theorem tidy_columns_cells `{E : Externals} (df slim : DataFrame) (c : string)
    (first : Row) (i : nat) (r : Row) :
  tidy_columns df = Ok slim -> c ∈ wanted -> c ∈ columns df ->
  rows df !! 0%nat = Some first -> rows df !! i = Some r ->
  exists r',
    rows slim !! i = Some r'
    ∧ cell r' c
      = if decide (c = "map") then cell r c
        else if is_list_or_dict (cell first c) && is_list_or_dict (cell r c)
             then VStr (json_dumps (cell r c)) else cell r c.
Proof.
  intros Htidy Hw Hc Hfirst Hr.
  destruct (tidy_columns_lookup df slim first i r Htidy Hfirst Hr) as (r' & Hr' & Hcells & _).
  exists r'. split; [done|]. by rewrite Hcells.
Qed.

Lemma tidy_columns_cells_witness :
  exists r',
    rows Cases.tidy_nested !! 1%nat = Some r'
    ∧ cell r' "type"
      = if decide ("type" = "map") then cell [("id", VInt 2); ("type", VList [VInt 2; VInt 3])] "type"
        else if is_list_or_dict (cell [("id", VInt 1); ("type", VList [VInt 1])] "type")
                && is_list_or_dict
                     (cell [("id", VInt 2); ("type", VList [VInt 2; VInt 3])] "type")
             then VStr (json_dumps (Externals := Demo.externals Demo.no_activities)
                          (cell [("id", VInt 2); ("type", VList [VInt 2; VInt 3])] "type"))
             else cell [("id", VInt 2); ("type", VList [VInt 2; VInt 3])] "type".
Proof.
  apply (tidy_columns_cells (E := Demo.externals Demo.no_activities)
           (DataFrame_of_records Cases.fetched_nested) Cases.tidy_nested "type"
           [("id", VInt 1); ("type", VList [VInt 1])] 1
           [("id", VInt 2); ("type", VList [VInt 2; VInt 3])]).
  - vm_compute. reflexivity.
  - compute_done.
  - compute_done.
  - reflexivity.
  - reflexivity.
Defined.

(** ** Well-formed tables through the pipeline *)

Section WellFormed.
Context `{E : Externals}.

Lemma keys_reindex (cols : list string) (r : Row) : (reindex cols r).*1 = cols.
Proof.
  unfold reindex. rewrite <- list_fmap_compose.
  induction cols as [|c cols IH]; [done|]. rewrite fmap_cons. simpl. by rewrite IH.
Qed.

Lemma keys_row_set (c : string) (v : PyVal) (r : Row) :
  (row_set c v r).*1 = if bool_decide (c ∈ r.*1) then r.*1 else r.*1 ++ [c].
Proof.
  induction r as [|[k x] r IH]; [done|]. cbn [row_set].
  destruct (decide (k = c)) as [->|Hne].
  - rewrite fmap_cons. cbn [fst]. by rewrite bool_decide_eq_true_2 by left.
  - rewrite !fmap_cons, IH. cbn [fst].
    destruct (decide (c ∈ r.*1)) as [Hin|Hnin].
    + rewrite (bool_decide_eq_true_2 (c ∈ r.*1)) by done.
      by rewrite (bool_decide_eq_true_2 (c ∈ k :: r.*1)) by (by right).
    + rewrite (bool_decide_eq_false_2 (c ∈ r.*1)) by done.
      rewrite (bool_decide_eq_false_2 (c ∈ k :: r.*1)); [done|].
      rewrite not_elem_of_cons. split; [congruence|done].
Qed.

Lemma well_formed_select_columns (df : DataFrame) (cols : list string) :
  well_formed (select_columns df cols).
Proof. intros r' (r & -> & _)%list_elem_of_fmap. apply keys_reindex. Qed.

Lemma well_formed_set_column (df : DataFrame) (c : string) (values : list PyVal) :
  well_formed df -> well_formed (set_column df c values).
Proof.
  intros Hwf r' Hr'. cbn [rows columns set_column] in *.
  apply list_elem_of_lookup in Hr' as [i Hi].
  apply lookup_zip_with_Some in Hi as (r & v & -> & Hr & _).
  rewrite keys_row_set, (Hwf r); [done|]. by eapply list_elem_of_lookup_2.
Qed.

Lemma well_formed_stringify_column (slim : DataFrame) (c : string) :
  well_formed slim -> well_formed (stringify_column slim c).
Proof.
  intros Hwf. unfold stringify_column. destruct (decide (c = "map")); [done|].
  destruct (rows slim) as [|first rest] eqn:Hrows; [done|].
  destruct (is_list_or_dict _); [|done]. by apply well_formed_set_column.
Qed.

Lemma well_formed_foldl_stringify_column (cols : list string) (slim : DataFrame) :
  well_formed slim -> well_formed (foldl stringify_column slim cols).
Proof.
  revert slim. induction cols as [|c cols IH]; intros slim Hwf; [done|].
  apply IH. by apply well_formed_stringify_column.
Qed.

Lemma well_formed_tidy_columns (df slim : DataFrame) :
  tidy_columns df = Ok slim -> well_formed slim.
Proof.
  intros (slim1 & Hexp & ->)%tidy_columns_unfold.
  apply well_formed_foldl_stringify_column.
  unfold expand_dates in Hexp. case_bool_decide.
  - destruct (to_datetime _); [|done]. injection Hexp as <-.
    do 3 apply well_formed_set_column. apply well_formed_select_columns.
  - injection Hexp as <-. apply well_formed_select_columns.
Qed.

Lemma keys_drop_key (c : string) (r : Row) :
  (filter (fun kv => kv.1 ≠ c) r).*1 = filter (fun k => k ≠ c) r.*1.
Proof.
  induction r as [|[k x] r IH]; [done|]. rewrite fmap_cons. cbn [fst].
  destruct (decide (k = c)) as [->|Hne].
  - rewrite !filter_cons_False by (simpl; tauto). done.
  - rewrite !filter_cons_True by done. by rewrite fmap_cons, IH.
Qed.

Lemma well_formed_drop_column (df : DataFrame) (c : string) :
  well_formed df -> well_formed (drop_column df c).
Proof.
  intros Hwf r' (r & -> & Hr)%list_elem_of_fmap. cbn [columns drop_column].
  by rewrite keys_drop_key, (Hwf r Hr).
Qed.

Lemma well_formed_filter_rows (df : DataFrame) (P : Row -> Prop)
    `{forall r, Decision (P r)} :
  well_formed df -> well_formed (mkDF (columns df) (filter P (rows df))).
Proof. intros Hwf r [_ Hr]%list_elem_of_filter. by apply Hwf. Qed.

Lemma well_formed_no_key (df : DataFrame) (r : Row) (c : string) :
  well_formed df -> r ∈ rows df -> c ∉ columns df -> dict_get c r = None.
Proof. intros Hwf Hr Hc. apply dict_get_None_keys. by rewrite (Hwf r Hr). Qed.

End WellFormed.

(** ** The table of new activities (lines 113-122) *)

Section BuildFacts.
Context `{E : Externals}.

Lemma mapM_Ok_Forall2 {A B} (f : A -> Outcome B) (l : list A) (k : list B) :
  mapM f l = Ok k -> Forall2 (fun x y => f x = Ok y) l k.
Proof.
  revert k. induction l as [|x l IH]; intros k; simpl.
  - intros [= <-]. constructor.
  - destruct (f x) as [y| |] eqn:Hx; simpl; [|done..].
    destruct (mapM f l) as [k'| |]; simpl; [|done..].
    intros [= <-]. constructor; [done|]. by apply IH.
Qed.

Lemma mapM_Ok_all {A B} (f : A -> Outcome B) (g : A -> B) (l : list A) :
  (forall x, x ∈ l -> f x = Ok (g x)) -> mapM f l = Ok (g <$> l).
Proof.
  induction l as [|x l IH]; intros Hall; [done|]. simpl.
  rewrite (Hall x) by left. simpl. rewrite IH; [done|].
  intros y Hy. apply Hall. by right.
Qed.

Lemma decode_summary_polyline_line (activity : Row) (pts : list (Z * Z)) :
  decode_summary_polyline activity = Ok (VLine pts) -> (2 <= length pts)%nat.
Proof.
  unfold decode_summary_polyline.
  destruct (py_get _ _) as [geom| |]; simpl; [|done..].
  destruct (truthy geom); simpl; [|done].
  destruct (polyline_decode geom) as [coords| |]; simpl; [|done..].
  case_bool_decide as Hlen; [done|]. intros [= <-]. rewrite length_fmap. lia.
Qed.

Lemma build_geodataframe_unfold (records : list Row) (gdf : DataFrame) :
  build_geodataframe records = Ok gdf ->
  exists df geometry,
    tidy_columns (DataFrame_of_records records) = Ok df
    ∧ mapM decode_summary_polyline (rows df) = Ok geometry
    ∧ gdf = (let df2 := set_column df "geometry" geometry in
             let kept := mkDF (columns df2)
                           (filter (fun r => has_valid_geometry r) (rows df2)) in
             if bool_decide ("map" ∈ columns kept) then drop_column kept "map" else kept).
Proof.
  unfold build_geodataframe.
  destruct (tidy_columns _) as [df| |] eqn:Htidy; simpl; [|done..].
  destruct (mapM _ _) as [geometry| |] eqn:HmapM; simpl; [|done..].
  intros [= <-]. exists df, geometry. split; [done|]. split; [done|]. reflexivity.
Qed.

Lemma geometry_not_tidy_column (df slim : DataFrame) :
  tidy_columns df = Ok slim -> "geometry" ∉ columns slim.
Proof.
  intros Htidy. destruct (tidy_columns_columns df slim Htidy) as [-> _].
  rewrite elem_of_app. intros [[_ Hin]%list_elem_of_filter|Hin].
  - revert Hin. compute_done.
  - case_bool_decide; [revert Hin; compute_done|by apply elem_of_nil in Hin].
Qed.

(** The columns found in a table made from records: the keys of the
    records. *)
Lemma elem_of_columns_of_records (records : list Row) (c : string) :
  c ∈ columns (DataFrame_of_records records) <-> exists r, r ∈ records ∧ c ∈ r.*1.
Proof.
  unfold DataFrame_of_records. cbn [columns].
  assert (forall acc : list string,
            c ∈ foldl (fun acc r => add_column_names acc (r.*1)) acc records
            <-> c ∈ acc ∨ exists r, r ∈ records ∧ c ∈ r.*1) as Hgen.
  { induction records as [|r records IH]; intros acc; cbn [foldl].
    - split; [by left|]. intros [?|(r & Hr & _)]; [done|by apply elem_of_nil in Hr].
    - rewrite IH, elem_of_add_column_names. split.
      + intros [[?|?]|(r' & Hr' & ?)]; [by left|right; exists r; split; [left|done]|].
        right. exists r'. split; [by right|done].
      + intros [?|(r' & [->|Hr']%elem_of_cons & ?)]; [by left; left|by left; right|].
        right. by exists r'. }
  rewrite Hgen. split; [|by right]. intros [Hnil|?]; [by apply elem_of_nil in Hnil|done].
Qed.

End BuildFacts.

(** X18.  Every row that [build_geodataframe] returns carries a line that
    shapely finds valid and that has at least two points; a record without
    such a line is not among the rows. *)
Theorem build_geodataframe_geometry `{E : Externals} (records : list Row)
    (gdf : DataFrame) (r : Row) :
  build_geodataframe records = Ok gdf -> r ∈ rows gdf ->
  exists pts,
    cell r "geometry" = VLine pts ∧ is_valid pts = true ∧ (2 <= length pts)%nat.
Proof.
  intros Hbuild Hr.
  destruct (build_geodataframe_rows_have_geometry records gdf r Hbuild Hr)
    as (pts & Hcell & Hvalid).
  exists pts. split; [done|]. split; [done|].
  destruct (build_geodataframe_unfold records gdf Hbuild) as (df & geometry & _ & HmapM & ->).
  cbv zeta in Hr.
  assert (exists r0, r0 ∈ rows (set_column df "geometry" geometry)
                     ∧ cell r0 "geometry" = VLine pts) as (r0 & Hr0 & Hcell0).
  { case_bool_decide; cbn [rows drop_column] in Hr.
    - apply list_elem_of_fmap in Hr as (r0 & -> & [_ Hr0]%list_elem_of_filter).
      exists r0. split; [done|]. by rewrite cell_drop_key in Hcell.
    - apply list_elem_of_filter in Hr as [_ Hr]. by exists r. }
  cbn [rows set_column] in Hr0. apply list_elem_of_lookup in Hr0 as [i Hi].
  apply lookup_zip_with_Some in Hi as (x & g & -> & Hx & Hg).
  rewrite cell_row_set_eq in Hcell0. subst g.
  apply mapM_Ok_Forall2 in HmapM.
  destruct (Forall2_lookup_l _ _ _ _ _ HmapM Hx) as (g & Hg' & Hdec).
  rewrite Hg in Hg'. injection Hg' as <-. by eapply decode_summary_polyline_line.
Qed.

Lemma build_geodataframe_geometry_witness :
  exists pts,
    cell (Samples.stored_row 2 "2024-01-02T08:00:00Z" "2024-01-02" 2024 1 0) "geometry"
    = VLine pts
    ∧ is_valid (Externals := Demo.externals (Samples.one_page Samples.fetched_A)) pts = true
    ∧ (2 <= length pts)%nat.
Proof.
  apply (build_geodataframe_geometry
           (E := Demo.externals (Samples.one_page Samples.fetched_A))
           Samples.fetched_A Samples.new_gdf_A
           (Samples.stored_row 2 "2024-01-02T08:00:00Z" "2024-01-02" 2024 1 0)).
  - vm_compute. reflexivity.
  - right. left.
Defined.

(** X19.  The table that [build_geodataframe] returns is well formed, has
    a geometry column and no map column, and has at most one row per
    fetched record. *)
Theorem build_geodataframe_shape `{E : Externals} (records : list Row)
    (gdf : DataFrame) :
  build_geodataframe records = Ok gdf ->
  well_formed gdf
  ∧ "geometry" ∈ columns gdf
  ∧ ("map" ∉ columns gdf)
  ∧ (length (rows gdf) <= length records)%nat.
Proof.
  intros (df & geometry & Htidy & HmapM & ->)%build_geodataframe_unfold. cbv zeta.
  pose proof (well_formed_tidy_columns _ _ Htidy) as Hwf.
  pose proof (geometry_not_tidy_column _ _ Htidy) as Hgeo.
  destruct (tidy_columns_columns _ _ Htidy) as [_ Hlen].
  set (df2 := set_column df "geometry" geometry).
  assert (well_formed (mkDF (columns df2) (filter (fun r => has_valid_geometry r) (rows df2))))
    as Hwf2.
  { apply well_formed_filter_rows. by apply well_formed_set_column. }
  assert ("geometry" ∈ columns df2) as Hin.
  { unfold df2, set_column. cbn [columns]. rewrite bool_decide_eq_false_2 by done.
    rewrite elem_of_app, list_elem_of_singleton. by right. }
  assert (length (filter (fun r => has_valid_geometry r) (rows df2)) <= length records)%nat
    as Hle.
  { etrans; [apply length_filter|]. unfold df2, set_column. cbn [rows].
    rewrite length_zip_with, Hlen. unfold DataFrame_of_records. cbn [rows].
    rewrite length_fmap. lia. }
  case_bool_decide as Hmap.
  - split; [by apply well_formed_drop_column|]. cbn [columns rows drop_column].
    split; [by apply list_elem_of_filter|].
    split; [by intros [? _]%list_elem_of_filter|]. by rewrite length_fmap.
  - done.
Qed.

Lemma build_geodataframe_shape_witness :
  well_formed Samples.new_gdf_A
  ∧ "geometry" ∈ columns Samples.new_gdf_A
  ∧ ("map" ∉ columns Samples.new_gdf_A)
  ∧ (length (rows Samples.new_gdf_A) <= length Samples.fetched_A)%nat.
Proof.
  apply (build_geodataframe_shape
           (E := Demo.externals (Samples.one_page Samples.fetched_A))
           Samples.fetched_A Samples.new_gdf_A).
  vm_compute. reflexivity.
Defined.

(** X20.  When no fetched record has a map field and [tidy_columns]
    returns a table, [build_geodataframe] returns a table without rows
    whose columns are those of the normalised table followed by
    geometry: the decoding raises nothing for the lack of a map, and no
    row is kept. *)
Theorem build_geodataframe_without_maps `{E : Externals} (records : list Row)
    (slim : DataFrame) :
  (forall r, r ∈ records -> "map" ∉ r.*1) ->
  tidy_columns (DataFrame_of_records records) = Ok slim ->
  build_geodataframe records = Ok (mkDF (columns slim ++ ["geometry"]) []).
Proof.
  intros Hnomap Htidy.
  pose proof (well_formed_tidy_columns _ _ Htidy) as Hwf.
  pose proof (geometry_not_tidy_column _ _ Htidy) as Hgeo.
  assert ("map" ∉ columns slim) as Hmap.
  { destruct (tidy_columns_columns _ _ Htidy) as [-> _].
    rewrite elem_of_app. intros [[Hin _]%list_elem_of_filter|Hin].
    - apply elem_of_columns_of_records in Hin as (r & Hr & Hin). by apply (Hnomap r).
    - case_bool_decide; [revert Hin; compute_done|by apply elem_of_nil in Hin]. }
  unfold build_geodataframe. rewrite Htidy. simpl.
  rewrite (mapM_Ok_all decode_summary_polyline (fun _ => VNone)).
  2:{ intros r Hr. apply decode_summary_polyline_no_map_column.
      by eapply well_formed_no_key. }
  simpl. unfold set_column. cbn [columns rows].
  rewrite (bool_decide_eq_false_2 ("geometry" ∈ columns slim)) by done.
  rewrite bool_decide_eq_false_2.
  2:{ rewrite elem_of_app, list_elem_of_singleton. intros [?|?]; done. }
  do 2 f_equal.
  match goal with |- filter ?P ?l = [] => destruct (filter P l) as [|r rest] eqn:Hf end;
    [done|].
  assert (r ∈ filter (fun r => has_valid_geometry r)
            (zip_with (fun r v => row_set "geometry" v r) (rows slim)
               ((fun _ => VNone) <$> rows slim))) as Hin by (rewrite Hf; left).
  apply list_elem_of_filter in Hin as [Hvalid Hin].
  apply list_elem_of_lookup in Hin as [i Hi].
  apply lookup_zip_with_Some in Hi as (x & g & -> & Hx & Hg).
  rewrite list_lookup_fmap, Hx in Hg. injection Hg as <-.
  unfold has_valid_geometry in Hvalid. by rewrite cell_row_set_eq in Hvalid.
Qed.

Lemma build_geodataframe_without_maps_witness :
  build_geodataframe (E := Demo.externals Demo.no_activities) Cases.fetched_without_map
  = Ok (mkDF (columns (mkDF ["id"; "name"] Cases.fetched_without_map)
              ++ ["geometry"]) []).
Proof.
  apply (build_geodataframe_without_maps (E := Demo.externals Demo.no_activities)
           Cases.fetched_without_map).
  - intros r Hr. apply list_elem_of_singleton in Hr as ->. compute_done.
  - vm_compute. reflexivity.
Defined.

(** ** More about the merge (lines 170-179) *)

Section MergeMore.

Lemma keep_last_app (c : string) (xs bs : list Row) :
  keep_last c (xs ++ bs)
  = filter (fun r => cell r c ∉ (fun r => cell r c) <$> bs) (keep_last c xs)
    ++ keep_last c bs.
Proof.
  induction xs as [|x xs IH]; [done|]. cbn [app keep_last].
  assert (Exists (fun r' => cell r' c = cell x c) (xs ++ bs)
          <-> Exists (fun r' => cell r' c = cell x c) xs
              ∨ cell x c ∈ (fun r => cell r c) <$> bs) as Hex.
  { rewrite Exists_app, list_elem_of_fmap, (Exists_exists _ bs). naive_solver. }
  destruct (decide (Exists (fun r' => cell r' c = cell x c) xs)) as [Hxs|Hxs].
  - rewrite (bool_decide_eq_true_2 (Exists _ (xs ++ bs))) by (apply Hex; by left).
    by rewrite (bool_decide_eq_true_2 (Exists _ xs)) by done.
  - rewrite (bool_decide_eq_false_2 (Exists _ xs)) by done.
    destruct (decide (cell x c ∈ (fun r => cell r c) <$> bs)) as [Hbs|Hbs].
    + rewrite (bool_decide_eq_true_2 (Exists _ (xs ++ bs))) by (apply Hex; by right).
      rewrite filter_cons_False by (by intros ?). done.
    + rewrite (bool_decide_eq_false_2 (Exists _ (xs ++ bs))) by (rewrite Hex; tauto).
      rewrite filter_cons_True by done. by rewrite IH.
Qed.

Lemma keep_last_NoDup_id (c : string) (rs : list Row) :
  NoDup ((fun r => cell r c) <$> rs) -> keep_last c rs = rs.
Proof.
  induction rs as [|r rs IH]; [done|]. rewrite fmap_cons.
  intros [Hnin Hnd]%NoDup_cons. cbn [keep_last].
  rewrite bool_decide_eq_false_2; [by rewrite IH|].
  intros (r' & Hr' & Heq)%Exists_exists. apply Hnin.
  apply list_elem_of_fmap. by exists r'.
Qed.

Lemma filter_keys_nil (c : string) (bs : list Row) :
  filter (fun r => cell r c ∉ (fun r => cell r c) <$> bs) (keep_last c bs) = [].
Proof.
  destruct (filter _ (keep_last c bs)) as [|r rest] eqn:Hf; [done|].
  assert (r ∈ filter (fun r => cell r c ∉ (fun r => cell r c) <$> bs) (keep_last c bs))
    as [Hnin Hin]%list_elem_of_filter by (rewrite Hf; left).
  destruct Hnin. apply list_elem_of_fmap. exists r. split; [done|].
  by eapply keep_last_subseteq.
Qed.

(** Fetching the same rows once more changes nothing. *)
Lemma keep_last_again (c : string) (xs bs : list Row) :
  keep_last c (keep_last c (xs ++ bs) ++ bs) = keep_last c (xs ++ bs).
Proof.
  rewrite (keep_last_app c (keep_last c (xs ++ bs)) bs).
  rewrite (keep_last_NoDup_id c (keep_last c (xs ++ bs))) by apply keep_last_NoDup.
  rewrite (keep_last_app c xs bs) at 1.
  rewrite filter_app, filter_keys_nil, app_nil_r.
  rewrite list_filter_filter.
  rewrite (keep_last_app c xs bs). f_equal.
  apply list_filter_iff. intros r. tauto.
Qed.

Lemma add_column_names_subset (cols ks : list string) :
  (forall k, k ∈ ks -> k ∈ cols) -> add_column_names cols ks = cols.
Proof.
  unfold add_column_names. induction ks as [|k ks IH]; intros Hsub; [done|].
  cbn [foldl]. rewrite bool_decide_eq_true_2 by (apply Hsub; left).
  apply IH. intros k' Hk'. apply Hsub. by right.
Qed.

Lemma reindex_reindex (cols : list string) (r : Row) :
  reindex cols (reindex cols r) = reindex cols r.
Proof.
  change (reindex cols (reindex cols r))
    with ((fun c => (c, cell (reindex cols r) c)) <$> cols).
  change (reindex cols r) with ((fun c => (c, cell r c)) <$> cols) at 2.
  apply list_fmap_ext. intros i c Hc. cbn beta.
  rewrite cell_reindex; [done|]. by eapply list_elem_of_lookup_2.
Qed.

Lemma reindex_own_keys (r : Row) : NoDup r.*1 -> reindex r.*1 r = r.
Proof.
  induction r as [|[k x] r IH]; [done|]. rewrite fmap_cons. cbn [fst].
  intros [Hnin Hnd]%NoDup_cons. unfold reindex. rewrite fmap_cons. f_equal.
  - unfold cell. simpl. by rewrite decide_True.
  - etrans; [|apply (IH Hnd)]. unfold reindex. apply list_fmap_ext.
    intros i c Hc. f_equal. unfold cell. simpl.
    rewrite decide_False; [done|]. intros ->. apply Hnin.
    by eapply list_elem_of_lookup_2.
Qed.

Lemma merge_rows_nonempty (existing new_gdf : DataFrame) :
  rows existing ≠ [] ->
  keep_last "id" (rows (concat existing new_gdf)) ≠ [].
Proof.
  intros Hne Hnil. destruct (rows existing) as [|r rest] eqn:Hrows; [done|].
  assert (cell (reindex (columns (concat existing new_gdf)) r) "id"
          ∈ (fun r => cell r "id") <$> keep_last "id" (rows (concat existing new_gdf)))
    as Hin.
  { apply keep_last_keys. cbn [rows concat]. rewrite Hrows.
    rewrite <- app_comm_cons, !fmap_cons. left. }
  rewrite Hnil in Hin. by apply elem_of_nil in Hin.
Qed.

End MergeMore.

(** X21.  When the existing table is not empty and has an id column, the
    ids of the merged table are exactly the ids of the existing table
    together with the ids of the fetched table: none is lost and none is
    made up. *)
Theorem merge_ids (existing new_gdf : DataFrame) :
  rows existing ≠ [] -> "id" ∈ columns existing ->
  exists combined,
    merge existing new_gdf = Ok combined
    ∧ forall i, i ∈ column combined "id"
                <-> i ∈ column existing "id" ∨ i ∈ column new_gdf "id".
Proof.
  intros Hrows Hid. eexists. split; [by apply merge_unfold|].
  intros i. unfold column at 1. cbn [rows]. by apply column_merged.
Qed.

Lemma merge_ids_witness :
  exists combined,
    merge Samples.store_A Samples.new_gdf_A = Ok combined
    ∧ forall i, i ∈ column combined "id"
                <-> i ∈ column Samples.store_A "id" ∨ i ∈ column Samples.new_gdf_A "id".
Proof.
  apply (merge_ids Samples.store_A Samples.new_gdf_A); [done|compute_done].
Defined.

(** X22.  A stored activity that was not fetched again is carried over:
    for an id of the existing table that no fetched row has, the merged
    table holds exactly one row with that id, the last stored row with
    it, cell for cell on the columns of the existing table. *)
Theorem merge_keeps_unfetched (existing new_gdf : DataFrame) (i : PyVal) :
  "id" ∈ columns existing ->
  i ∈ column existing "id" -> i ∉ column new_gdf "id" ->
  exists combined r_old,
    merge existing new_gdf = Ok combined
    ∧ last (filter (fun r => cell r "id" = i) (rows existing)) = Some r_old
    ∧ filter (fun r => cell r "id" = i) (rows combined)
      = [reindex (columns combined) r_old]
    ∧ forall c, c ∈ columns existing ->
        cell (reindex (columns combined) r_old) c = cell r_old c.
Proof.
  intros Hid Hold Hnew.
  assert (rows existing ≠ []) as Hrows.
  { intros Hnil. unfold column in Hold. rewrite Hnil in Hold. by apply elem_of_nil in Hold. }
  apply list_elem_of_fmap in Hold as (r & Hi & Hr).
  assert (r ∈ filter (fun r => cell r "id" = i) (rows existing)) as Hin
    by (by apply list_elem_of_filter).
  destruct (last (filter (fun r => cell r "id" = i) (rows existing)))
    as [r_old|] eqn:Hlast.
  2:{ apply last_None in Hlast. rewrite Hlast in Hin. by apply elem_of_nil in Hin. }
  assert (filter (fun r => cell r "id" = i) (rows new_gdf) = []) as Hnone.
  { destruct (filter _ (rows new_gdf)) as [|x rest] eqn:Hf; [done|].
    assert (x ∈ filter (fun r => cell r "id" = i) (rows new_gdf))
      as [Hx1 Hx2]%list_elem_of_filter by (rewrite Hf; left).
    destruct Hnew. apply list_elem_of_fmap. by exists x. }
  eexists _, r_old. split; [by apply merge_unfold|]. split; [done|].
  cbn [rows columns]. split.
  - rewrite keep_last_filter. cbn [concat rows].
    rewrite filter_key_reindex by (by apply (id_in_concat existing new_gdf)).
    by rewrite fmap_last, filter_app, Hnone, app_nil_r, Hlast.
  - intros c Hc. apply cell_reindex, elem_of_add_column_names. by left.
Qed.

Lemma merge_keeps_unfetched_witness :
  exists combined r_old,
    merge Samples.store_A Samples.new_gdf_twice = Ok combined
    ∧ last (filter (fun r => cell r "id" = VInt 1) (rows Samples.store_A)) = Some r_old
    ∧ filter (fun r => cell r "id" = VInt 1) (rows combined)
      = [reindex (columns combined) r_old]
    ∧ forall c, c ∈ columns Samples.store_A ->
        cell (reindex (columns combined) r_old) c = cell r_old c.
Proof.
  apply (merge_keeps_unfetched Samples.store_A Samples.new_gdf_twice (VInt 1));
    compute_done.
Defined.

(** X23.  Merging is idempotent in the fetched table: when the existing
    table is not empty and has an id column, merging the same fetched
    table into the result of the merge gives that result again. *)
Theorem merge_again (existing new_gdf combined : DataFrame) :
  rows existing ≠ [] -> "id" ∈ columns existing ->
  merge existing new_gdf = Ok combined ->
  merge combined new_gdf = Ok combined.
Proof.
  intros Hrows Hid. rewrite merge_unfold by done. intros [= <-].
  rewrite merge_unfold;
    [|by apply merge_rows_nonempty|by apply (id_in_concat existing new_gdf)].
  unfold concat. cbn [rows columns].
  set (cols := add_column_names (columns existing) (columns new_gdf)).
  assert (add_column_names cols (columns new_gdf) = cols) as ->.
  { apply add_column_names_subset. intros k Hk.
    apply elem_of_add_column_names. by right. }
  do 2 f_equal. rewrite !fmap_app.
  assert (reindex cols <$> keep_last "id" ((reindex cols <$> rows existing)
                                            ++ (reindex cols <$> rows new_gdf))
          = keep_last "id" ((reindex cols <$> rows existing)
                            ++ (reindex cols <$> rows new_gdf))) as ->.
  { etrans; [|apply list_fmap_id]. apply list_fmap_ext.
    intros j r Hr. apply list_elem_of_lookup_2, keep_last_subseteq in Hr.
    rewrite <- fmap_app in Hr. apply list_elem_of_fmap in Hr as (r0 & -> & _).
    apply reindex_reindex. }
    apply keep_last_again.
Qed.

Lemma merge_again_witness :
  merge Samples.new_gdf_A Samples.new_gdf_A = Ok Samples.new_gdf_A.
Proof.
  apply (merge_again Samples.store_A Samples.new_gdf_A Samples.new_gdf_A).
  - done.
  - compute_done.
  - vm_compute. reflexivity.
Defined.

(** X24.  Merging a fetched table without rows, whose columns the
    existing table has, into a non-empty well-formed existing table with
    distinct columns and distinct ids gives the existing table back, rows
    and columns unchanged. *)
Theorem merge_nothing_fetched (existing new_gdf : DataFrame) :
  well_formed existing -> NoDup (columns existing) ->
  NoDup (column existing "id") ->
  rows existing ≠ [] -> "id" ∈ columns existing ->
  rows new_gdf = [] -> (forall c, c ∈ columns new_gdf -> c ∈ columns existing) ->
  merge existing new_gdf = Ok existing.
Proof.
  intros Hwf Hndc Hndi Hrows Hid Hnew Hsub. rewrite merge_unfold by done.
  cbn [concat rows columns]. rewrite Hnew, app_nil_r.
  rewrite add_column_names_subset by done.
  assert (reindex (columns existing) <$> rows existing = rows existing) as ->.
  { etrans; [|apply list_fmap_id]. apply list_fmap_ext.
    intros j r Hr. apply list_elem_of_lookup_2 in Hr.
    pose proof (Hwf r Hr) as Hkeys.
    assert (NoDup r.*1) as Hnd by (by rewrite Hkeys).
    rewrite <- Hkeys. by apply reindex_own_keys. }
  rewrite keep_last_NoDup_id by done. by destruct existing.
Qed.

Lemma merge_nothing_fetched_witness :
  merge Samples.new_gdf_A (mkDF ["geometry"] []) = Ok Samples.new_gdf_A.
Proof.
  apply (merge_nothing_fetched Samples.new_gdf_A (mkDF ["geometry"] [])).
  - intros r Hr. repeat (apply elem_of_cons in Hr as [->|Hr]; [reflexivity|]).
    by apply elem_of_nil in Hr.
  - compute_done.
  - compute_done.
  - done.
  - compute_done.
  - reflexivity.
  - intros c Hc. apply list_elem_of_singleton in Hc as ->. compute_done.
Defined.

(** ** When the cutoff stays unset (lines 132-146) *)

(** X25.  The fetch has no lower time bound exactly when the stored table
    is empty, has no date column, the date conversion raises, or no
    stored date parses; in every other case a cutoff is set. *)
Theorem after_ts_unset `{E : Externals} (existing : DataFrame) :
  compute_after_ts existing = None
  <-> rows existing = []
      ∨ "date" ∉ columns existing
      ∨ to_datetime (column existing "date") = None
      ∨ (exists dt, to_datetime (column existing "date") = Some dt
                    ∧ forall t, Some t ∉ dt).
Proof.
  split.
  - unfold compute_after_ts.
    destruct (decide (rows existing = [])) as [Hrows|Hrows]; [by left|].
    rewrite bool_decide_eq_true_2 by done.
    destruct (decide ("date" ∈ columns existing)) as [Hdate|Hdate];
      [|by right; left].
    rewrite bool_decide_eq_true_2 by done.
    destruct (to_datetime (column existing "date")) as [dt|] eqn:Hdt;
      [|by right; right; left].
    destruct (series_max dt) as [b|] eqn:Hmax; [done|]. intros _.
    right; right; right. exists dt. split; [done|]. intros t Ht.
    destruct (series_max_upper dt t Ht) as (b & Hb & _). congruence.
  - intros [Hrows|H].
    + unfold compute_after_ts. by rewrite bool_decide_eq_false_2 by (by intros ?).
    + by apply after_ts_without_dates.
Qed.
